(** * pylode: the graph-to-model extraction engine

    A shallow embedding of the extraction code of pylode
    ([pylode/parser.py], [pylode/model.py],
    [src/pylode/core/ontology_processor.py] and the label
    disambiguation of [src/pylode/core/html_generator.py]) together
    with the properties its specification states about it, and with
    further properties read off the code: what the listings hold, the
    shape of restrictions, the dictionaries of the processor and the
    labels and anchors of the generated page.

    Conventions.
    - A Python [str] is a Rocq [string]; its characters stand for the
      code points below 256.
    - The triple store is rdflib's; it is modelled by the list of its
      triples in the order the store yields them, together with the
      answers of its namespace manager.
    - A loop that the source writes with [while] is a function with a
      fuel argument; running out of fuel is the outcome [OutOfFuel],
      an uncaught exception is the outcome [Raised].
    - The functions that call themselves, and those that call them,
      have a [depth] argument as well: the number of nested levels of
      these calls that the interpreter's recursion limit still allows
      where the function is entered. A call beyond it is Python's
      [RecursionError], the outcome [Raised]; the frames of the other
      calls made inside one level, and of the callers, are not
      counted. Fuel is a device of the model, the depth is not: a run
      that has no result with any fuel does not end, a run that is
      [Raised] with enough fuel ends in the exception. *)

From stdpp Require Import base strings list gmap sets.
From Stdlib Require Import Strings.Ascii Sorting.Sorted Structures.OrderedTypeEx.

(** ** Python built-ins on [str] *)

Module Py.

(** [bool(s)] *)
Definition truthy (s : string) : bool := negb (String.eqb s "").

(** [s.startswith(p)] *)
Definition startswith (s p : string) : bool := String.prefix p s.

(** [c in s] for a one-character string [c]. *)
Fixpoint has_char (c : ascii) (s : string) : bool :=
  match s with
  | EmptyString => false
  | String a s' => if Ascii.eqb a c then true else has_char c s'
  end.

(** [sub in s] *)
Fixpoint contains (sub s : string) : bool :=
  if String.prefix sub s then true
  else match s with
       | EmptyString => false
       | String _ s' => contains sub s'
       end.

(** [s.split(c)] for a one-character separator. *)
Fixpoint split (c : ascii) (s : string) : list string :=
  match s with
  | EmptyString => [EmptyString]
  | String a s' =>
      if Ascii.eqb a c then EmptyString :: split c s'
      else match split c s' with
           | h :: t => String a h :: t
           | [] => [String a EmptyString]
           end
  end.

(** [s.rstrip(c)] for a one-character set. *)
Fixpoint rstrip (c : ascii) (s : string) : string :=
  match s with
  | EmptyString => EmptyString
  | String a s' =>
      let r := rstrip c s' in
      if String.eqb r "" && Ascii.eqb a c then EmptyString else String a r
  end.

(** [s.replace(old, new)]: the occurrences of [old] are found from
    left to right and do not overlap. [skip] counts the characters of
    a match that are still to be dropped. *)
Fixpoint replace_from (old new : string) (skip : nat) (s : string) : string :=
  match s with
  | EmptyString => EmptyString
  | String a s' =>
      match skip with
      | S k => replace_from old new k s'
      | O =>
          if String.prefix old s
          then new +:+ replace_from old new (String.length old - 1) s'
          else String a (replace_from old new 0 s')
      end
  end.

Definition replace (old new s : string) : string := replace_from old new 0 s.

(** [s[:n]] *)
Definition take (n : nat) (s : string) : string := String.substring 0 n s.

(** [sep.join(l)] *)
Fixpoint join (sep : string) (l : list string) : string :=
  match l with
  | [] => ""
  | [x] => x
  | x :: rest => x +:+ sep +:+ join sep rest
  end.

(** [c.lower()] on the code points below 256: A-Z and the Latin-1
    capitals (0xC0-0xDE without the multiplication sign 0xD7). *)
Definition lower_char (c : ascii) : ascii :=
  let n := Ascii.nat_of_ascii c in
  if ((65 <=? n) && (n <=? 90)
      || (192 <=? n) && (n <=? 222) && negb (n =? 215))%nat
  then Ascii.ascii_of_nat (n + 32) else c.

Fixpoint lower (s : string) : string :=
  match s with
  | EmptyString => EmptyString
  | String a s' => String (lower_char a) (lower s')
  end.

(** [\d] on the code points below 256. *)
Definition is_digit (c : ascii) : bool :=
  let n := Ascii.nat_of_ascii c in ((48 <=? n) && (n <=? 57))%nat.

(** [c.isspace()] on the code points below 256. *)
Definition is_space (c : ascii) : bool :=
  let n := Ascii.nat_of_ascii c in
  ((9 <=? n) && (n <=? 13) || (28 <=? n) && (n <=? 32) || (n =? 133) || (n =? 160))%nat.

(** [s.lstrip()], [s.rstrip()] and [s.strip()] *)
Fixpoint lstrip_space (s : string) : string :=
  match s with
  | EmptyString => EmptyString
  | String a s' => if is_space a then lstrip_space s' else s
  end.

Fixpoint rstrip_space (s : string) : string :=
  match s with
  | EmptyString => EmptyString
  | String a s' =>
      let r := rstrip_space s' in
      if String.eqb r "" && is_space a then EmptyString else String a r
  end.

Definition strip (s : string) : string := rstrip_space (lstrip_space s).

(** [s[n:]] *)
Fixpoint drop (n : nat) (s : string) : string :=
  match n, s with
  | S k, String _ s' => drop k s'
  | _, _ => s
  end.


End Py.

(** ** rdflib terms *)

(** A literal carries its lexical form ([str(l)]), its language tag,
    its datatype and, as rdflib computes it when the literal is built,
    the truth value of its Python value ([None] when the lexical form
    has no Python value). *)
Record Literal := mkLiteral {
  lexical : string;
  language : option string;
  datatype : option string;
  value_bool : option bool
}.

Inductive node :=
| URIRef (s : string)
| BNode (s : string)
| Lit (l : Literal).

Definition str (n : node) : string :=
  match n with
  | URIRef s => s
  | BNode s => s
  | Lit l => lexical l
  end.

Definition opt_eqb (a b : option string) : bool :=
  match a, b with
  | Some x, Some y => String.eqb x y
  | None, None => true
  | _, _ => false
  end.

(** [Literal.__eq__]: same datatype, same language up to case, same
    lexical form. An empty language counts as none. *)
Definition lang_key (o : option string) : option string :=
  match o with
  | Some l => if Py.truthy l then Some (Py.lower l) else None
  | None => None
  end.

Definition literal_eqb (a b : Literal) : bool :=
  opt_eqb (datatype a) (datatype b)
  && opt_eqb (lang_key (language a)) (lang_key (language b))
  && String.eqb (lexical a) (lexical b).

(** [Identifier.__eq__]: same class and same string. *)
Definition node_eqb (a b : node) : bool :=
  match a, b with
  | URIRef x, URIRef y => String.eqb x y
  | BNode x, BNode y => String.eqb x y
  | Lit x, Lit y => literal_eqb x y
  | _, _ => false
  end.

(** [Literal.__bool__] and the truth value of the [str] subclasses. *)
Definition literal_truthy (l : Literal) : bool :=
  match value_bool l with
  | Some b => b
  | None => Py.truthy (lexical l)
  end.

Definition node_truthy (n : node) : bool :=
  match n with
  | URIRef s => Py.truthy s
  | BNode s => Py.truthy s
  | Lit l => literal_truthy l
  end.

(** [bool(x)] for a value that may be [None]. *)
Definition opt_truthy (o : option node) : bool :=
  match o with Some n => node_truthy n | None => false end.

Definition is_BNode (n : node) : bool :=
  match n with BNode _ => true | _ => false end.

Definition is_URIRef (n : node) : bool :=
  match n with URIRef _ => true | _ => false end.

(** ** Vocabularies *)

Module RDF.
Definition ns := "http://www.w3.org/1999/02/22-rdf-syntax-ns#".
Definition type := URIRef (ns +:+ "type").
Definition first := URIRef (ns +:+ "first").
Definition rest := URIRef (ns +:+ "rest").
Definition nil := URIRef (ns +:+ "nil").
End RDF.

Module RDFS.
Definition ns := "http://www.w3.org/2000/01/rdf-schema#".
Definition label := URIRef (ns +:+ "label").
Definition comment := URIRef (ns +:+ "comment").
Definition subClassOf := URIRef (ns +:+ "subClassOf").
Definition subPropertyOf := URIRef (ns +:+ "subPropertyOf").
Definition domain := URIRef (ns +:+ "domain").
Definition range := URIRef (ns +:+ "range").
Definition Class := URIRef (ns +:+ "Class").
Definition Datatype := URIRef (ns +:+ "Datatype").
End RDFS.

Module OWL.
Definition ns := "http://www.w3.org/2002/07/owl#".
Definition Class := URIRef (ns +:+ "Class").
Definition Ontology := URIRef (ns +:+ "Ontology").
Definition ObjectProperty := URIRef (ns +:+ "ObjectProperty").
Definition DatatypeProperty := URIRef (ns +:+ "DatatypeProperty").
Definition AnnotationProperty := URIRef (ns +:+ "AnnotationProperty").
Definition NamedIndividual := URIRef (ns +:+ "NamedIndividual").
Definition Restriction := URIRef (ns +:+ "Restriction").
Definition onProperty := URIRef (ns +:+ "onProperty").
Definition onClass := URIRef (ns +:+ "onClass").
Definition someValuesFrom := URIRef (ns +:+ "someValuesFrom").
Definition allValuesFrom := URIRef (ns +:+ "allValuesFrom").
Definition hasValue := URIRef (ns +:+ "hasValue").
Definition minCardinality := URIRef (ns +:+ "minCardinality").
Definition maxCardinality := URIRef (ns +:+ "maxCardinality").
Definition cardinality := URIRef (ns +:+ "cardinality").
Definition minQualifiedCardinality := URIRef (ns +:+ "minQualifiedCardinality").
Definition maxQualifiedCardinality := URIRef (ns +:+ "maxQualifiedCardinality").
Definition qualifiedCardinality := URIRef (ns +:+ "qualifiedCardinality").
Definition unionOf := URIRef (ns +:+ "unionOf").
Definition intersectionOf := URIRef (ns +:+ "intersectionOf").
Definition complementOf := URIRef (ns +:+ "complementOf").
Definition oneOf := URIRef (ns +:+ "oneOf").
Definition sameAs := URIRef (ns +:+ "sameAs").
Definition disjointWith := URIRef (ns +:+ "disjointWith").
Definition inverseOf := URIRef (ns +:+ "inverseOf").
Definition imports := URIRef (ns +:+ "imports").
Definition versionInfo := URIRef (ns +:+ "versionInfo").
Definition versionIRI := URIRef (ns +:+ "versionIRI").
Definition priorVersion := URIRef (ns +:+ "priorVersion").
Definition equivalentClass := URIRef (ns +:+ "equivalentClass").
Definition FunctionalProperty := URIRef (ns +:+ "FunctionalProperty").
Definition InverseFunctionalProperty := URIRef (ns +:+ "InverseFunctionalProperty").
Definition TransitiveProperty := URIRef (ns +:+ "TransitiveProperty").
Definition SymmetricProperty := URIRef (ns +:+ "SymmetricProperty").
Definition AsymmetricProperty := URIRef (ns +:+ "AsymmetricProperty").
Definition ReflexiveProperty := URIRef (ns +:+ "ReflexiveProperty").
Definition IrreflexiveProperty := URIRef (ns +:+ "IrreflexiveProperty").

End OWL.

Module DC.
Definition ns := "http://purl.org/dc/elements/1.1/".
Definition title := URIRef (ns +:+ "title").
Definition date := URIRef (ns +:+ "date").
Definition creator := URIRef (ns +:+ "creator").
Definition contributor := URIRef (ns +:+ "contributor").
Definition publisher := URIRef (ns +:+ "publisher").
Definition rights := URIRef (ns +:+ "rights").
Definition description := URIRef (ns +:+ "description").
End DC.

Module DCTERMS.
Definition ns := "http://purl.org/dc/terms/".
Definition title := URIRef (ns +:+ "title").
Definition date := URIRef (ns +:+ "date").
Definition creator := URIRef (ns +:+ "creator").
Definition contributor := URIRef (ns +:+ "contributor").
Definition publisher := URIRef (ns +:+ "publisher").
Definition rights := URIRef (ns +:+ "rights").
Definition license := URIRef (ns +:+ "license").
Definition abstract := URIRef (ns +:+ "abstract").
Definition description := URIRef (ns +:+ "description").
End DCTERMS.

Module SKOS.
Definition ns := "http://www.w3.org/2004/02/skos/core#".
End SKOS.

(** ** The graph store *)

Definition triple : Type := node * node * node.

(** [triples]: the facts, in the order the store yields them.
    [compute_qname n]: the namespace manager's (prefix, namespace,
    name) for [n], [None] when it raises. [qname n]: the prefixed name
    of [n], [None] when it raises. *)
Record Graph := mkGraph {
  triples : list triple;
  compute_qname : node -> option (string * string * string);
  qname : node -> option string
}.

(** [graph.objects(s, p)] *)
Definition objects (g : Graph) (s p : node) : list node :=
  omap (fun t : triple =>
          let '(s', p', o) := t in
          if node_eqb s' s && node_eqb p' p then Some o else None)
       (triples g).

(** [graph.subjects(p, o)] *)
Definition subjects (g : Graph) (p o : node) : list node :=
  omap (fun t : triple =>
          let '(s, p', o') := t in
          if node_eqb p' p && node_eqb o' o then Some s else None)
       (triples g).

(** [graph.predicate_objects(s)] *)
Definition predicate_objects (g : Graph) (s : node) : list (node * node) :=
  omap (fun t : triple =>
          let '(s', p, o) := t in
          if node_eqb s' s then Some (p, o) else None)
       (triples g).

(** [graph.value(s, p)]: the first object, or [None]. *)
Definition value (g : Graph) (s p : node) : option node :=
  head (objects g s p).

(** [(s, p, o) in graph] *)
Definition has_triple (g : Graph) (s p o : node) : bool :=
  existsb (fun t : triple =>
             let '(s', p', o') := t in
             node_eqb s' s && node_eqb p' p && node_eqb o' o)
          (triples g).

(** ** Outcomes of code that may loop or raise *)

Inductive outcome (A : Type) : Type :=
| Done (a : A)
| Raised
| OutOfFuel.

Arguments Done {A} a.
Arguments Raised {A}.
Arguments OutOfFuel {A}.

#[global] Instance outcome_ret : MRet outcome := fun A a => Done a.

#[global] Instance outcome_bind : MBind outcome := fun A B k m =>
  match m with
  | Done a => k a
  | Raised => Raised
  | OutOfFuel => OutOfFuel
  end.

(** A [for] loop whose body may loop or raise. *)
Fixpoint for_each {A S : Type} (body : S -> A -> outcome S) (l : list A) (acc : S)
  : outcome S :=
  match l with
  | [] => Done acc
  | x :: l' => acc' ← body acc x; for_each body l' acc'
  end.

(** ** The documentation model ([pylode/model.py]) *)

Record Element := mkElement {
  uri : string;
  label : option string;
  comment : option string;
  description : option string;
  is_defined_by : option string;
  type_label : option string;
  url : option string;
  other_labels : list string
}.

Record Restriction := mkRestriction {
  on_property : Element;
  type : string;
  amount : option string;
  values : list Element;
  literal_value : option string
}.

(** The dataclasses [Class], [Property] and [Individual] extend
    [Element]; the fields they inherit are those of the first
    component. *)
Record Class := mkClass {
  Class_Element :> Element;
  super_classes : list Element;
  sub_classes : list Element;
  in_domain_of : list Element;
  in_range_of : list Element;
  members : list Element;
  disjoint_with : list Element;
  restrictions : list Restriction;
  skos_properties : list (string * string)
}.

Record Property := mkProperty {
  Property_Element :> Element;
  super_properties : list Element;
  sub_properties : list Element;
  domains : list Element;
  ranges : list Element;
  inverse : list Element;
  property_disjoint_with : list Element
}.

Record Individual := mkIndividual {
  Individual_Element :> Element;
  types : list Element;
  same_as : list string;
  assertions : list (string * string * string * option string)
}.

Module OntologyMetadata.
Record t := mk {
  uri : string;
  title : option string;
  date : option string;
  version : option string;
  creators : list string;
  contributors : list string;
  publishers : list string;
  imports : list string;
  license : option string;
  abstract : option string;
  description : option string
}.
End OntologyMetadata.

(** ** [sorted(l, key=...)] on string keys

    Python's sort is stable and compares with [<] only: an element is
    placed before the first one that is not smaller than it. *)

Fixpoint insert_by {A : Type} (key : A -> string) (x : A) (l : list A) : list A :=
  match l with
  | [] => [x]
  | y :: l' => if String.ltb (key y) (key x) then y :: insert_by key x l' else x :: l
  end.

Definition sorted {A : Type} (key : A -> string) (l : list A) : list A :=
  foldr (insert_by key) [] l.

(** [x.label or x.uri] *)
Definition label_or_uri (x : Element) : string :=
  match label x with
  | Some l => if Py.truthy l then l else uri x
  | None => uri x
  end.

(** ** The parser ([pylode/parser.py]) *)

Record OntologyParser := mkOntologyParser {
  graph : Graph;
  defined_resources : gset string;
  ontology_node : option node
}.

Definition _find_ontology_node (g : Graph) : option node :=
  head (subjects g RDF.type OWL.Ontology).

Definition defining_types : list node :=
  [OWL.Class; RDFS.Class;
   OWL.ObjectProperty; OWL.DatatypeProperty; OWL.AnnotationProperty;
   OWL.NamedIndividual;
   RDFS.Datatype].

(** The constructor, after the graph has been parsed. *)
Definition __init__ (g : Graph) : OntologyParser :=
  {| graph := g;
     ontology_node := _find_ontology_node g;
     defined_resources :=
       foldl (fun acc dtype =>
                foldl (fun acc s => if is_URIRef s then {[str s]} ∪ acc else acc)
                      acc (subjects g RDF.type dtype))
             ∅ defining_types |}.

Definition _resolve_url (self : OntologyParser) (uri : string) : string :=
  if decide (uri ∈ defined_resources self) then "#" +:+ uri else uri.

(** [re.match(r"^ns\d+$", prefix)]: [$] also matches before a final
    newline. *)
Fixpoint digits_to_end (s : string) : bool :=
  match s with
  | EmptyString => true
  | String c s' =>
      if Py.is_digit c then digits_to_end s'
      else Ascii.eqb c "010"%char && String.eqb s' ""
  end.

Definition _is_auto_generated (prefix : string) : bool :=
  match prefix with
  | String a (String b (String d rest)) =>
      Ascii.eqb a "n" && Ascii.eqb b "s" && Py.is_digit d && digits_to_end rest
  | _ => false
  end.

(** The literals among the objects of [subject] over [predicates], in
    encounter order. *)
Definition candidates (self : OntologyParser) (subject : node) (predicates : list node)
  : list Literal :=
  flat_map (fun p => omap (fun o => match o with Lit l => Some l | _ => None end)
                          (objects (graph self) subject p))
           predicates.

(** An alternate: [value], or [value @lang] when tagged. *)
Definition format_other (l : Literal) : string :=
  match language l with
  | Some lang => if Py.truthy lang then lexical l +:+ " @" +:+ lang else lexical l
  | None => lexical l
  end.

Definition is_en (c : Literal) : bool := opt_eqb (language c) (Some "en").

(** [predicates] is the list the source builds when it is handed a
    single predicate. *)
Definition _extract_preferred_and_others
    (self : OntologyParser) (subject : node) (predicates : list node)
  : option string * list string :=
  let cands := candidates self subject predicates in
  match cands with
  | [] => (None, [])
  | c0 :: rest =>
      let en_matches := List.filter is_en cands in
      let '(preferred, others_literals) :=
        match en_matches with
        | e :: _ => (e, List.filter (fun c => negb (literal_eqb c e)) cands)
        | [] => (c0, rest)
        end in
      (Some (lexical preferred), map format_other others_literals)
  end.

Definition _get_literal (self : OntologyParser) (subject : node) (predicates : list node)
  : option string :=
  fst (_extract_preferred_and_others self subject predicates).

Definition nl : string := String "010"%char EmptyString.

Definition _get_comment_with_translations (self : OntologyParser) (n : node)
  : option string :=
  let '(best, others) := _extract_preferred_and_others self n [RDFS.comment] in
  match best, others with
  | Some b, _ :: _ =>
      if Py.truthy b then Some (b +:+ nl +:+ nl +:+ Py.join nl others) else best
  | _, _ => best
  end.

Definition _get_label_or_qname (self : OntologyParser) (subject : node) : string :=
  let fallback :=
    match compute_qname (graph self) subject with
    | Some (prefix, _, name) =>
        if Py.truthy prefix then
          if _is_auto_generated prefix then str subject
          else prefix +:+ ":" +:+ name
        else
          if Py.truthy name then ":" +:+ name else str subject
    | None => str subject
    end in
  match _get_literal self subject [RDFS.label] with
  | Some l => if Py.truthy l then l else fallback
  | None => fallback
  end.

Definition _get_list (self : OntologyParser) (subject : node) (predicates : list node)
  : list string :=
  flat_map (fun p => map (_get_label_or_qname self) (objects (graph self) subject p))
           predicates.

Definition get_metadata (self : OntologyParser) : OntologyMetadata.t :=
  match ontology_node self with
  | Some n =>
      if node_truthy n then
        OntologyMetadata.mk
          (str n)
          (_get_literal self n [DC.title; DCTERMS.title; RDFS.label])
          (_get_literal self n [DC.date; DCTERMS.date])
          (_get_literal self n [OWL.versionInfo])
          (_get_list self n [DC.creator; DCTERMS.creator])
          (_get_list self n [DC.contributor; DCTERMS.contributor])
          (_get_list self n [DC.publisher; DCTERMS.publisher])
          (_get_list self n [OWL.imports])
          (_get_literal self n [DC.rights; DCTERMS.rights; DCTERMS.license])
          (_get_literal self n [DCTERMS.abstract; RDFS.comment])
          (_get_literal self n [DC.description; DCTERMS.description])
      else OntologyMetadata.mk "unknown" None None None [] [] [] [] None None None
  | None => OntologyMetadata.mk "unknown" None None None [] [] [] [] None None None
  end.

Definition _create_element (self : OntologyParser) (n : node) (type_label : option string)
  : Element :=
  let uri_str := str n in
  let '(_, other_labels) := _extract_preferred_and_others self n [RDFS.label] in
  {| uri := uri_str;
     label := Some (_get_label_or_qname self n);
     comment := None; description := None; is_defined_by := None;
     type_label := type_label;
     url := Some (_resolve_url self uri_str);
     other_labels := other_labels |}.

(** [Element(uri=..., label=..., type_label=...)]: the other fields
    keep their defaults. *)
Definition Element_ (uri : string) (label type_label : option string) : Element :=
  {| uri := uri; label := label; comment := None; description := None;
     is_defined_by := None; type_label := type_label; url := None;
     other_labels := [] |}.

(** [a or b] *)
Definition py_or (a b : option node) : option node :=
  if opt_truthy a then a else b.

(** The element of a named target of a restriction. *)
Definition named_target (self : OntologyParser) (n : node) : Element :=
  let computed :=
    match compute_qname (graph self) n with
    | Some (prefix, _, name) =>
        if Py.truthy prefix then prefix +:+ ":" +:+ name else name
    | None => str n
    end in
  let label :=
    match _get_literal self n [RDFS.label] with
    | Some l => if Py.truthy l then l else computed
    | None => computed
    end in
  Element_ (str n) (Some label) (Some "c").

(** [_get_elements_from_target] and the [while] loop it runs over the
    cells of a [unionOf] list; [elements] is the list built so far.
    The function calls itself on the members of the list: a call
    beyond the [depth] that the recursion limit leaves raises
    [RecursionError], which nothing on the way catches. *)
Fixpoint _get_elements_from_target (fuel depth : nat) (self : OntologyParser) (n : node)
  : outcome (list Element) :=
  match fuel with
  | O => OutOfFuel
  | S fuel' =>
      match depth with
      | O => Raised
      | S depth' =>
          if is_BNode n then
            match value (graph self) n OWL.unionOf with
            | Some union =>
                if node_truthy union then union_loop fuel' depth' self union []
                else Done [Element_ (str n) (Some "Anonymous") (Some "c")]
            | None => Done [Element_ (str n) (Some "Anonymous") (Some "c")]
            end
          else Done [named_target self n]
      end
  end
with union_loop (fuel depth : nat) (self : OntologyParser) (current : node)
                (elements : list Element) : outcome (list Element) :=
  match fuel with
  | O => OutOfFuel
  | S fuel' =>
      if node_eqb current RDF.nil then Done elements
      else
        elements' ←
          match value (graph self) current RDF.first with
          | Some first =>
              if node_truthy first then
                r ← _get_elements_from_target fuel' depth self first;
                Done (elements ++ r)
              else Done elements
          | None => Done elements
          end;
        match value (graph self) current RDF.rest with
        | Some next =>
            if node_truthy next then union_loop fuel' depth self next elements'
            else Done elements'
        | None => Done elements'
        end
  end.

(** [x] when it is there and truthy: the test [if x:] on the result
    of [graph.value]. *)
Definition if_truthy (o : option node) : option node :=
  match o with
  | Some x => if node_truthy x then Some x else None
  | None => None
  end.

Definition _parse_restriction (fuel depth : nat) (self : OntologyParser) (n : node)
  : outcome (option Restriction) :=
  let g := graph self in
  match if_truthy (value g n OWL.onProperty) with
  | None => Done None
  | Some on_prop =>
      let prop_type :=
        if has_triple g on_prop RDF.type OWL.DatatypeProperty then "dp"
        else if has_triple g on_prop RDF.type OWL.AnnotationProperty then "ap"
        else "op" in
      let prop_element := _create_element self on_prop (Some prop_type) in
      match if_truthy (value g n OWL.someValuesFrom) with
      | Some some_values =>
          targets ← _get_elements_from_target fuel depth self some_values;
          Done (Some (mkRestriction prop_element "some" None targets None))
      | None =>
      match if_truthy (value g n OWL.allValuesFrom) with
      | Some all_values =>
          targets ← _get_elements_from_target fuel depth self all_values;
          Done (Some (mkRestriction prop_element "only" None targets None))
      | None =>
      match if_truthy (value g n OWL.hasValue) with
      | Some has_value =>
          Done (Some (mkRestriction prop_element "value" None [] (Some (str has_value))))
      | None =>
      match if_truthy (py_or (value g n OWL.minCardinality)
                             (value g n OWL.minQualifiedCardinality)) with
      | Some min_card =>
          Done (Some (mkRestriction prop_element "min" (Some (str min_card)) [] None))
      | None =>
      match if_truthy (py_or (value g n OWL.maxCardinality)
                             (value g n OWL.maxQualifiedCardinality)) with
      | Some max_card =>
          Done (Some (mkRestriction prop_element "max" (Some (str max_card)) [] None))
      | None =>
      match if_truthy (py_or (value g n OWL.cardinality)
                             (value g n OWL.qualifiedCardinality)) with
      | Some card =>
          Done (Some (mkRestriction prop_element "exactly" (Some (str card)) [] None))
      | None => Done None
      end end end end end end
  end.

(** The elements of the nodes of [l] that are not blank nodes. *)
Definition named_elements (self : OntologyParser) (l : list node) (type_label : string)
  : list Element :=
  map (fun n => _create_element self n (Some type_label))
      (List.filter (fun n => negb (is_BNode n)) l).

Definition _create_class (fuel depth : nat) (self : OntologyParser) (n : node)
  : outcome Class :=
  let g := graph self in
  let uri_str := str n in
  let '(_, other_labels) := _extract_preferred_and_others self n [RDFS.label] in
  let cls :=
    {| uri := uri_str;
       label := Some (_get_label_or_qname self n);
       comment := _get_comment_with_translations self n;
       description := None; is_defined_by := None;
       type_label := Some "c";
       url := Some (_resolve_url self uri_str);
       other_labels := other_labels |} in
  let super_classes := named_elements self (objects g n RDFS.subClassOf) "c" in
  let sub_classes := named_elements self (subjects g RDFS.subClassOf n) "c" in
  let in_domain_of := named_elements self (subjects g RDFS.domain n) "op" in
  let in_range_of := named_elements self (subjects g RDFS.range n) "op" in
  let members :=
    named_elements self
      (List.filter (fun subj => negb (has_triple g subj RDF.type OWL.Class))
                   (subjects g RDF.type n)) "ni" in
  let disjoint_with := named_elements self (objects g n OWL.disjointWith) "c" in
  restrictions ←
    for_each (fun acc obj =>
                if is_BNode obj && has_triple g obj RDF.type OWL.Restriction then
                  r ← _parse_restriction fuel depth self obj;
                  match r with
                  | Some restriction => Done (acc ++ [restriction])
                  | None => Done acc
                  end
                else Done acc)
             (objects g n RDFS.subClassOf) [];
  skos_properties ←
    for_each (fun acc (po : node * node) =>
                let '(p, o) := po in
                if Py.startswith (str p) SKOS.ns then
                  if is_BNode o then Done acc
                  else match qname g p with
                       | Some prop_label => Done (acc ++ [(prop_label, str o)])
                       | None => Raised
                       end
                else Done acc)
             (predicate_objects g n) [];
  Done (mkClass cls super_classes sub_classes in_domain_of in_range_of members
                disjoint_with restrictions skos_properties).

Definition get_classes (fuel depth : nat) (self : OntologyParser) : outcome (list Class) :=
  classes ←
    for_each (fun acc s =>
                if is_BNode s then Done acc
                else c ← _create_class fuel depth self s; Done (acc ++ [c]))
             (subjects (graph self) RDF.type OWL.Class) [];
  Done (sorted (fun x : Class => label_or_uri x) classes).

Definition _create_property (self : OntologyParser) (n : node)
    (type_label short_type : string) : Property :=
  let g := graph self in
  let uri_str := str n in
  let '(_, other_labels) := _extract_preferred_and_others self n [RDFS.label] in
  let prop :=
    {| uri := uri_str;
       label := Some (_get_label_or_qname self n);
       comment := _get_comment_with_translations self n;
       description := None; is_defined_by := None;
       type_label := Some short_type;
       url := Some (_resolve_url self uri_str);
       other_labels := other_labels |} in
  mkProperty prop
    (named_elements self (objects g n RDFS.subPropertyOf) short_type)
    (named_elements self (subjects g RDFS.subPropertyOf n) short_type)
    (named_elements self (objects g n RDFS.domain) "c")
    (named_elements self (objects g n RDFS.range) "c")
    (named_elements self (objects g n OWL.inverseOf) short_type)
    [].

(** The properties declared with type [ty], before they are sorted. *)
Definition properties_of (self : OntologyParser) (ty : node) (type_label short_type : string)
  : list Property :=
  map (fun s => _create_property self s type_label short_type)
      (List.filter (fun s => negb (is_BNode s)) (subjects (graph self) RDF.type ty)).

Definition get_object_properties (self : OntologyParser) : list Property :=
  sorted (fun x : Property => label_or_uri x)
         (properties_of self OWL.ObjectProperty "ObjectProperty" "op").

Definition get_datatype_properties (self : OntologyParser) : list Property :=
  sorted (fun x : Property => label_or_uri x)
         (properties_of self OWL.DatatypeProperty "DatatypeProperty" "dp").

Definition get_annotation_properties (self : OntologyParser) : list Property :=
  sorted (fun x : Property => label_or_uri x)
         (properties_of self OWL.AnnotationProperty "AnnotationProperty" "ap").

Definition get_properties (self : OntologyParser) : list Property :=
  sorted (fun x : Property => label_or_uri x)
         (get_object_properties self ++ get_datatype_properties self
          ++ get_annotation_properties self).

(** The assertion tuple of one predicate/object pair of an individual,
    [None] when the pair is skipped. *)
Definition exclude_namespaces : list string := [RDF.ns; RDFS.ns; DC.ns; DCTERMS.ns].

Definition exclude_props : list node := [OWL.sameAs].

Definition assertion_of (self : OntologyParser) (po : node * node)
  : option (string * string * string * option string) :=
  let '(p, o) := po in
  if is_BNode o then None
  else if existsb (node_eqb p) exclude_props then None
  else if existsb (fun ns => Py.startswith (str p) ns) exclude_namespaces then None
  else
    let prop_qname :=
      match compute_qname (graph self) p with
      | Some (prefix, _, name) =>
          if Py.truthy prefix && negb (_is_auto_generated prefix)
          then prefix +:+ ":" +:+ name
          else if Py.truthy name then name else str p
      | None => str p
      end in
    let '(obj_label, obj_uri) :=
      if is_URIRef o then
        (match compute_qname (graph self) o with
         | Some (op, _, oname) =>
             if Py.truthy op && negb (_is_auto_generated op)
             then op +:+ ":" +:+ oname else str o
         | None => str o
         end,
         Some (_resolve_url self (str o)))
      else (str o, None) in
    Some (prop_qname, _resolve_url self (str p), obj_label, obj_uri).

Definition create_individual (self : OntologyParser) (s : node) : Individual :=
  let g := graph self in
  let uri_str := str s in
  let '(_, other_labels) := _extract_preferred_and_others self s [RDFS.label] in
  let indiv :=
    {| uri := uri_str;
       label := Some (_get_label_or_qname self s);
       comment := _get_comment_with_translations self s;
       description := None; is_defined_by := None;
       type_label := Some "ni";
       url := Some (_resolve_url self uri_str);
       other_labels := other_labels |} in
  mkIndividual indiv
    (map (fun obj => _create_element self obj (Some "c"))
         (List.filter (fun obj => negb (node_eqb obj OWL.NamedIndividual)
                                  && negb (is_BNode obj))
                      (objects g s RDF.type)))
    (map str (objects g s OWL.sameAs))
    (omap (assertion_of self) (predicate_objects g s)).

Definition get_named_individuals (self : OntologyParser) : list Individual :=
  sorted (fun x : Individual => label_or_uri x)
         (map (create_individual self)
              (List.filter (fun s => negb (is_BNode s))
                           (subjects (graph self) RDF.type OWL.NamedIndividual))).

(** [get_namespaces]; [bound] is what [graph.namespaces()] yields,
    the pairs of a prefix and the node of its namespace. *)
Definition get_namespaces (bound : list (string * node)) : list (string * string) :=
  sorted (fun x : string * string => if Py.truthy x.1 then x.1 else "")
         (map (fun pu : string * node =>
                 if Py.truthy pu.1 then (pu.1, str pu.2) else ("", str pu.2))
              bound).


(** ** Python dictionaries with string keys

    A [dict] keeps its keys in insertion order; iterating over it
    yields them in that order, and assigning to a key that is there
    keeps its place. *)

Module dict.

Definition t (V : Type) : Type := list (string * V).

(** [d.get(k)] *)
Fixpoint get {V : Type} (d : t V) (k : string) : option V :=
  match d with
  | [] => None
  | (k', v) :: d' => if String.eqb k' k then Some v else get d' k
  end.

(** [d[k] = v] *)
Fixpoint set {V : Type} (d : t V) (k : string) (v : V) : t V :=
  match d with
  | [] => [(k, v)]
  | (k', v') :: d' => if String.eqb k' k then (k', v) :: d' else (k', v') :: set d' k v
  end.

(** [d.update(other)] *)
Definition update {V : Type} (d other : t V) : t V :=
  foldl (fun acc kv => set acc (fst kv) (snd kv)) d other.

(** The keys of a well-formed dictionary are pairwise different. *)
Definition wf {V : Type} (d : t V) : Prop := NoDup (map fst d).

End dict.

(** ** The processor ([src/pylode/core/ontology_processor.py]) *)

Module OntologyProcessor.

Record t := mk {
  graph : Graph;
  ontology_uri : option string
}.

(** A decoded class expression: the dictionary the source returns,
    tagged by its ['type'] entry. A member of a list is a string or a
    decoded expression. *)
Inductive expression :=
| restriction (restriction_type property value : string) (on_class : option string)
| union (members : list member)
| intersection (members : list member)
| complement (class : string)
| enumeration (members : list member)
with member :=
| member_str (s : string)
| member_expr (e : expression).

Definition restriction_types : list (node * string) :=
  [(OWL.someValuesFrom, "some");
   (OWL.allValuesFrom, "all");
   (OWL.hasValue, "value");
   (OWL.minCardinality, "min");
   (OWL.maxCardinality, "max");
   (OWL.cardinality, "exactly");
   (OWL.minQualifiedCardinality, "min_qualified");
   (OWL.maxQualifiedCardinality, "max_qualified");
   (OWL.qualifiedCardinality, "exactly_qualified")].

(** The loop over [restriction_types]: the first kind whose predicate
    the node carries, provided the node has an [onProperty]. *)
Fixpoint restriction_loop (g : Graph) (n : node) (kinds : list (node * string))
  : option expression :=
  match kinds with
  | [] => None
  | (restriction_prop, restriction_type) :: kinds' =>
      match objects g n restriction_prop with
      | restriction_value :: _ =>
          match objects g n OWL.onProperty with
          | on_property :: _ =>
              Some (restriction restriction_type (str on_property) (str restriction_value)
                      (if Py.contains "qualified" restriction_type
                       then str <$> head (objects g n OWL.onClass)
                       else None))
          | [] => restriction_loop g n kinds'
          end
      | [] => restriction_loop g n kinds'
      end
  end.

(** [_process_class_expression] and the [while] loop of
    [_process_list]; [current] is [None] when the list has no
    successor, [members] is the list built so far. The two functions
    call each other on the blank-node members of a list; one level of
    [depth] stands for a decoding and the traversal it starts. A
    decoding beyond the [depth] that the recursion limit leaves raises
    [RecursionError], which nothing on the way catches. *)
Fixpoint _process_class_expression (fuel depth : nat) (self : t) (n : node)
  : outcome (option expression) :=
  match fuel with
  | O => OutOfFuel
  | S fuel' =>
      match depth with
      | O => Raised
      | S depth' =>
          let g := graph self in
          match restriction_loop g n restriction_types with
          | Some result => Done (Some result)
          | None =>
          match objects g n OWL.unionOf with
          | union_of :: _ =>
              members ← list_loop fuel' depth' self (Some union_of) [];
              Done (Some (union members))
          | [] =>
          match objects g n OWL.intersectionOf with
          | intersection_of :: _ =>
              members ← list_loop fuel' depth' self (Some intersection_of) [];
              Done (Some (intersection members))
          | [] =>
          match objects g n OWL.complementOf with
          | complement_of :: _ => Done (Some (complement (str complement_of)))
          | [] =>
          match objects g n OWL.oneOf with
          | one_of :: _ =>
              members ← list_loop fuel' depth' self (Some one_of) [];
              Done (Some (enumeration members))
          | [] => Done None
          end end end end end
      end
  end
with list_loop (fuel depth : nat) (self : t) (current : option node) (members : list member)
  : outcome (list member) :=
  match fuel with
  | O => OutOfFuel
  | S fuel' =>
      let g := graph self in
      match current with
      | None => Done members
      | Some cur =>
          if node_truthy cur && negb (node_eqb cur RDF.nil) then
            members' ←
              match objects g cur RDF.first with
              | BNode b :: _ =>
                  e ← _process_class_expression fuel' depth self (BNode b);
                  match e with
                  | Some ex => Done (members ++ [member_expr ex])
                  | None => Done members
                  end
              | m :: _ => Done (members ++ [member_str (str m)])
              | [] => Done members
              end;
            list_loop fuel' depth self (head (objects g cur RDF.rest)) members'
          else Done members
      end
  end.

Definition _process_list (fuel depth : nat) (self : t) (list_node : node)
  : outcome (list member) :=
  list_loop fuel depth self (Some list_node) [].

(** The values of the metadata dictionary. *)
Inductive metadata_value :=
| strings (l : list string)
| one_string (s : string).

Definition get_ontology_metadata (self : t) : gmap string metadata_value :=
  match ontology_uri self with
  | None => ∅
  | Some u =>
      if negb (Py.truthy u) then ∅
      else
        let g := graph self in
        let ontology_ref := URIRef u in
        let listed (name : string) (p : node) (metadata : gmap string metadata_value) :=
          match objects g ontology_ref p with
          | [] => metadata
          | vs => <[name := strings (map str vs)]> metadata
          end in
        let metadata :=
          foldl (fun m (np : string * node) => listed np.1 np.2 m) ∅
                [("title", DC.title); ("description", DC.description);
                 ("creator", DC.creator); ("date", DC.date);
                 ("version", OWL.versionInfo); ("comment", RDFS.comment);
                 ("label", RDFS.label)] in
        let metadata :=
          match objects g ontology_ref OWL.versionIRI with
          | v :: _ => <["version_iri" := one_string (str v)]> metadata
          | [] => metadata
          end in
        let metadata := listed "prior_version" OWL.priorVersion metadata in
        listed "imports" OWL.imports metadata
  end.

Definition _detect_format (content : string) : string :=
  let content_lower := Py.lower (Py.strip content) in
  if Py.startswith content_lower "<?xml"
     || Py.contains "<rdf:rdf" content_lower
     || Py.contains "<owl:ontology" content_lower
  then "xml"
  else if Py.contains "@prefix" content_lower || Py.contains "@base" content_lower
  then "turtle"
  else if Py.startswith (Py.strip content_lower) "{" then "json-ld"
  else "xml".

Definition _uri_to_label (uri : string) : string :=
  if Py.has_char "#" uri then default "" (last (Py.split "#" uri))
  else if Py.has_char "/" uri then default "" (last (Py.split "/" uri))
  else uri.

(** What one predicate/object pair of a blank node adds to
    [meaningful_props]. *)
Definition meaningful_prop (po : node * node) : option string :=
  let '(p, o) := po in
  if existsb (node_eqb p) [RDF.type; RDF.first; RDF.rest] then None
  else match o with
       | Lit _ => Some (_uri_to_label (str p) +:+ ": " +:+ str o)
       | URIRef _ => Some (_uri_to_label (str p) +:+ ": " +:+ _uri_to_label (str o))
       | BNode _ => None
       end.

Definition _resolve_blank_node (fuel depth : nat) (self : t) (bnode : node)
  : outcome (option string) :=
  let g := graph self in
  match objects g bnode RDFS.label with
  | l :: _ => Done (Some (str l))
  | [] =>
  match objects g bnode RDFS.comment with
  | c :: _ => Done (Some (str c))
  | [] =>
      class_expression ← _process_class_expression fuel depth self bnode;
      match class_expression with
      | Some _ => Done None
      | None =>
          match omap meaningful_prop (predicate_objects g bnode) with
          | [] => Done None
          | meaningful_props => Done (Some (Py.join " | " (take 3 meaningful_props)))
          end
      end
  end end.

(** The dictionaries that [_extract_entity_info] builds: one
    annotation, and the information common to all entities. *)
Module annotation.
Record t := mk {
  property : string;
  value : string;
  type : string
}.
End annotation.

Module entity_info.
Record t := mk {
  uri : string;
  labels : dict.t (list string);
  comments : dict.t (list string);
  annotations : list annotation.t
}.
End entity_info.

(** [texts[lang].append(str(text))] for a literal [text], under the
    language ['en'] when it has none; the list is created when the
    language is new. *)
Definition add_text (texts : dict.t (list string)) (text : node) : dict.t (list string) :=
  match text with
  | Lit l =>
      let lang :=
        match language l with
        | Some x => if Py.truthy x then x else "en"
        | None => "en"
        end in
      match dict.get texts lang with
      | Some xs => dict.set texts lang (xs ++ [str text])
      | None => dict.set texts lang [str text]
      end
  | _ => texts
  end.

(** The body of the loop over the annotations. *)
Definition annotation_of (fuel depth : nat) (self : t) (annotations : list annotation.t)
    (po : node * node) : outcome (list annotation.t) :=
  let '(p, o) := po in
  if existsb (node_eqb p) [RDFS.label; RDFS.comment; RDF.type] then Done annotations
  else if node_eqb p RDFS.subClassOf && is_BNode o then Done annotations
  else if is_BNode o then
    resolved ← _resolve_blank_node fuel depth self o;
    match resolved with
    | Some r =>
        if Py.truthy r
        then Done (annotations ++ [annotation.mk (str p) r "resolved_bnode"])
        else Done annotations
    | None => Done annotations
    end
  else
    Done (annotations
          ++ [annotation.mk (str p) (str o)
                (match o with Lit _ => "literal" | _ => "uri" end)]).

Definition _extract_entity_info (fuel depth : nat) (self : t) (entity : node)
  : outcome entity_info.t :=
  let g := graph self in
  let labels := foldl add_text [] (objects g entity RDFS.label) in
  let comments := foldl add_text [] (objects g entity RDFS.comment) in
  annotations ← for_each (annotation_of fuel depth self) (predicate_objects g entity) [];
  Done (entity_info.mk (str entity) labels comments annotations).

(** [[str(x) for x in l if isinstance(x, URIRef)]] *)
Definition uris (l : list node) : list string := map str (List.filter is_URIRef l).

(** The entry of a class: the common information and the keys that
    [get_classes] adds. *)
Module class_info.
Record t := mk {
  info : entity_info.t;
  superclasses : list string;
  restrictions : list expression;
  subclasses : list string;
  equivalent_classes : list string;
  disjoint_with : list string
}.
End class_info.

Definition class_entry (fuel depth : nat) (self : t) (cls : node) : outcome class_info.t :=
  let g := graph self in
  info ← _extract_entity_info fuel depth self cls;
  '(superclasses, restrictions) ←
    for_each (fun (acc : list string * list expression) o =>
                let '(superclasses, restrictions) := acc in
                match o with
                | URIRef _ => Done (superclasses ++ [str o], restrictions)
                | BNode _ =>
                    restriction ← _process_class_expression fuel depth self o;
                    match restriction with
                    | Some r => Done (superclasses, restrictions ++ [r])
                    | None => Done acc
                    end
                | Lit _ => Done acc
                end)
             (objects g cls RDFS.subClassOf) ([], []);
  Done (class_info.mk info superclasses restrictions
          (uris (subjects g RDFS.subClassOf cls))
          (uris (objects g cls OWL.equivalentClass))
          (uris (objects g cls OWL.disjointWith))).

Definition get_classes (fuel depth : nat) (self : t) : outcome (dict.t class_info.t) :=
  for_each (fun classes cls =>
              if is_URIRef cls then
                entry ← class_entry fuel depth self cls;
                Done (dict.set classes (str cls) entry)
              else Done classes)
           (subjects (graph self) RDF.type OWL.Class) [].

(** The entry of a property; ['characteristics'] and ['inverse_of']
    are there for object properties only. *)
Module property_info.
Record t := mk {
  info : entity_info.t;
  property_type : string;
  domain : list string;
  range : list string;
  super_properties : list string;
  sub_properties : list string;
  characteristics : option (list string);
  inverse_of : option (list string)
}.
End property_info.

Definition characteristic_types : list (node * string) :=
  [(OWL.FunctionalProperty, "functional");
   (OWL.InverseFunctionalProperty, "inverse_functional");
   (OWL.TransitiveProperty, "transitive");
   (OWL.SymmetricProperty, "symmetric");
   (OWL.AsymmetricProperty, "asymmetric");
   (OWL.ReflexiveProperty, "reflexive");
   (OWL.IrreflexiveProperty, "irreflexive")].

Definition _extract_property_info (fuel depth : nat) (self : t) (prop : node) (prop_type : string)
  : outcome property_info.t :=
  let g := graph self in
  info ← _extract_entity_info fuel depth self prop;
  Done (property_info.mk info prop_type
          (map str (objects g prop RDFS.domain))
          (map str (objects g prop RDFS.range))
          (uris (objects g prop RDFS.subPropertyOf))
          (uris (subjects g RDFS.subPropertyOf prop))
          (if String.eqb prop_type "object"
           then Some (omap (fun c : node * string =>
                              if has_triple g prop RDF.type c.1 then Some c.2 else None)
                           characteristic_types)
           else None)
          (if String.eqb prop_type "object"
           then Some (uris (objects g prop OWL.inverseOf))
           else None)).

(** One of the three loops of [get_properties]. *)
Definition properties_loop (fuel depth : nat) (self : t) (ty : node) (prop_type : string)
    (properties : dict.t property_info.t) : outcome (dict.t property_info.t) :=
  for_each (fun properties prop =>
              if is_URIRef prop then
                entry ← _extract_property_info fuel depth self prop prop_type;
                Done (dict.set properties (str prop) entry)
              else Done properties)
           (subjects (graph self) RDF.type ty) properties.

Definition get_properties (fuel depth : nat) (self : t) : outcome (dict.t property_info.t) :=
  properties ← properties_loop fuel depth self OWL.ObjectProperty "object" [];
  properties ← properties_loop fuel depth self OWL.DatatypeProperty "data" properties;
  properties_loop fuel depth self OWL.AnnotationProperty "annotation" properties.

Module individual_info.
Record t := mk {
  info : entity_info.t;
  types : list string
}.
End individual_info.

Definition get_individuals (fuel depth : nat) (self : t) : outcome (dict.t individual_info.t) :=
  let g := graph self in
  for_each (fun individuals ind =>
              if is_URIRef ind then
                info ← _extract_entity_info fuel depth self ind;
                Done (dict.set individuals (str ind)
                        (individual_info.mk info
                           (map str
                              (List.filter
                                 (fun o => is_URIRef o
                                           && negb (String.eqb (str o)
                                                               (str OWL.NamedIndividual)))
                                 (objects g ind RDF.type)))))
              else Done individuals)
           (subjects g RDF.type OWL.NamedIndividual) [].


End OntologyProcessor.

(** ** Label disambiguation ([src/pylode/core/html_generator.py]) *)

Module HTMLGenerator.

(** The entries of an entity's dictionary that the labels depend on:
    ['uri'] and ['labels'], the labels of each language. *)
Record entity_data := mk_entity {
  uri : string;
  labels : dict.t (list string)
}.

Definition _uri_to_label (uri : string) : string :=
  if Py.has_char "#" uri then default "" (last (Py.split "#" uri))
  else if Py.has_char "/" uri then default "" (last (Py.split "/" uri))
  else uri.

(** The first label of the first non-empty list of [l]. *)
Fixpoint first_label (l : list (list string)) : option string :=
  match l with
  | [] => None
  | (x :: _) :: _ => Some x
  | [] :: l' => first_label l'
  end.

Definition _get_entity_label (e : entity_data) (lang : string) : string :=
  match dict.get (labels e) lang with
  | Some (x :: _) => x
  | _ =>
      match dict.get (labels e) "en" with
      | Some (x :: _) => x
      | _ =>
          match first_label (map snd (labels e)) with
          | Some x => x
          | None => _uri_to_label (uri e)
          end
      end
  end.

Fixpoint _get_prefix_for_uri (uri : string) (namespaces : dict.t string) : option string :=
  match namespaces with
  | [] => None
  | (prefix, namespace) :: rest =>
      if Py.startswith uri namespace then Some prefix
      else _get_prefix_for_uri uri rest
  end.

(** [l[-2]] *)
Definition second_to_last {A : Type} (l : list A) : option A :=
  match rev l with
  | _ :: x :: _ => Some x
  | _ => None
  end.

Definition _extract_namespace_prefix (uri : string) : option string :=
  let namespace :=
    if Py.has_char "#" uri then head (Py.split "#" uri)
    else if Py.has_char "/" uri then
      second_to_last (Py.split "/" (Py.rstrip "/" uri))
    else None in
  match namespace with
  | None => None
  | Some namespace =>
      if Py.truthy namespace then
        let namespace := Py.replace "https://" "" (Py.replace "http://" "" namespace) in
        let namespace := Py.replace "www." "" namespace in
        match Py.split "." namespace with
        | p0 :: _ :: _ => Some (Py.take 8 p0)
        | _ => Some (Py.take 8 namespace)
        end
      else None
  end.

(** The label of one entity of a group of colliding names. *)
Definition conflict_label (namespaces : dict.t string) (uri : string) (e : entity_data)
  : string :=
  let prefix := _get_prefix_for_uri uri namespaces in
  let original_label := _get_entity_label e "en" in
  let derived :=
    match _extract_namespace_prefix uri with
    | Some namespace_prefix =>
        if Py.truthy namespace_prefix
        then namespace_prefix +:+ ":" +:+ original_label
        else original_label
    | None => original_label
    end in
  match prefix with
  | Some p =>
      if Py.truthy p && negb (String.eqb p "base")
      then p +:+ ":" +:+ original_label
      else derived
  | None => derived
  end.

(** [name_groups[display_name].append((uri, entity_data))], the
    group being created when the name is new. *)
Definition add_to_group (name_groups : dict.t (list (string * entity_data)))
    (ue : string * entity_data) : dict.t (list (string * entity_data)) :=
  let display_name := Py.lower (_get_entity_label ue.2 "en") in
  match dict.get name_groups display_name with
  | Some group => dict.set name_groups display_name (group ++ [ue])
  | None => dict.set name_groups display_name [ue]
  end.

Definition name_groups_of (all_entities : dict.t entity_data)
  : dict.t (list (string * entity_data)) :=
  foldl add_to_group [] all_entities.

(** The assignments to [unique_labels] that one group makes. *)
Definition label_group (namespaces : dict.t string) (unique_labels : gmap string string)
    (entities : list (string * entity_data)) : gmap string string :=
  match entities with
  | _ :: _ :: _ =>
      foldl (fun m (ue : string * entity_data) =>
               <[ue.1 := conflict_label namespaces ue.1 ue.2]> m)
            unique_labels entities
  | [(uri, e)] => <[uri := _get_entity_label e "en"]> unique_labels
  | [] => unique_labels (* no group is empty *)
  end.

Definition _generate_unique_labels
    (classes properties individuals : dict.t entity_data) (namespaces : dict.t string)
  : gmap string string :=
  let all_entities := dict.update (dict.update (dict.update [] classes) properties)
                                  individuals in
  let name_groups := name_groups_of all_entities in
  foldl (fun m (group : string * list (string * entity_data)) =>
           label_group namespaces m group.2)
        ∅ name_groups.

(** [re.sub(r'^https?://', '', uri)] *)
Definition without_scheme (uri : string) : string :=
  if String.prefix "http://" uri then Py.drop 7 uri
  else if String.prefix "https://" uri then Py.drop 8 uri
  else uri.

(** The characters of the class [[a-zA-Z0-9_-]]. *)
Definition anchor_char (c : ascii) : bool :=
  let n := Ascii.nat_of_ascii c in
  ((97 <=? n) && (n <=? 122) || (65 <=? n) && (n <=? 90)
   || (48 <=? n) && (n <=? 57) || (n =? 95) || (n =? 45))%nat.

(** [re.sub(r'[^a-zA-Z0-9_-]', '_', s)] *)
Fixpoint clean (s : string) : string :=
  match s with
  | EmptyString => EmptyString
  | String a s' => String (if anchor_char a then a else "_"%char) (clean s')
  end.

Definition _uri_to_anchor (uri : string) : string := clean (without_scheme uri).

Definition _get_unique_label (e : entity_data) (lang : string)
    (unique_labels : gmap string string) : string :=
  match unique_labels !! uri e with
  | Some unique_label => unique_label
  | None => _get_entity_label e lang
  end.


End HTMLGenerator.

(** * The specification's wording

    The definitions of this part follow the sentences of the
    specification, not the code; the properties compare the code with
    them. *)

Module Spec.

(** The first element that satisfies [P], with what comes before and
    after it. *)
Fixpoint split_first {A : Type} (P : A -> bool) (l : list A)
  : option (list A * A * list A) :=
  match l with
  | [] => None
  | x :: l' =>
      if P x then Some ([], x, l')
      else match split_first P l' with
           | Some (pre, y, post) => Some (x :: pre, y, post)
           | None => None
           end
  end.

(** "Alternates are formatted as [value] when untagged, [value @lang]
    when language-tagged." *)
Definition format_alternate (l : Literal) : string :=
  match language l with
  | Some lang => if Py.truthy lang then lexical l +:+ " @" +:+ lang else lexical l
  | None => lexical l
  end.

(** "If any literal is tagged with the configured primary language,
    the first such literal is preferred and every other candidate
    (including other "en"-tagged duplicates) becomes an alternate.
    Otherwise the first candidate in encounter order is preferred and
    the rest are alternates." *)
Definition resolvePreferred (cands : list Literal) : option string * list string :=
  match split_first is_en cands with
  | Some (pre, e, post) => (Some (lexical e), map format_alternate (pre ++ post))
  | None =>
      match cands with
      | c0 :: rest => (Some (lexical c0), map format_alternate rest)
      | [] => (None, [])
      end
  end.

(** "An auto-generated placeholder prefix (a lowercase "ns" followed
    only by digits)". *)
Fixpoint digits (s : string) : bool :=
  match s with
  | EmptyString => true
  | String c s' => Py.is_digit c && digits s'
  end.

Definition placeholder (prefix : string) : bool :=
  match prefix with
  | String a (String b rest) =>
      Ascii.eqb a "n" && Ascii.eqb b "s" && Py.truthy rest && digits rest
  | _ => false
  end.

(** The order of resolution of the Name Resolver: (a) the preferred
    label, (b) a prefixed name, unless its prefix is a placeholder,
    (c) [prefix:localName], or [:localName] for the default prefix,
    (d) the raw URI. [qn] is the prefix and the local name of the
    node, when a prefixed name can be computed. *)
Definition displayName (preferred : option string) (qn : option (string * string))
    (raw : string) : string :=
  match preferred with
  | Some l => l
  | None =>
      match qn with
      | Some (prefix, name) =>
          if placeholder prefix then raw
          else prefix +:+ ":" +:+ name
      | None => raw
      end
  end.

(** "Derive a pseudo-prefix from the URI itself (text before the last
    [#], or the second-to-last [/]-delimited segment if no [#];
    normalize by stripping a leading scheme and a leading [www.], then
    take the first [.]-delimited segment truncated to 8 characters)." *)
Fixpoint before_last (c : ascii) (s : string) : string :=
  match s with
  | EmptyString => EmptyString
  | String a s' => if Py.has_char c s' then String a (before_last c s') else EmptyString
  end.

Definition strip_leading (p s : string) : string :=
  if Py.startswith s p
  then String.substring (String.length p) (String.length s - String.length p) s
  else s.

Definition pseudo_prefix (uri : string) : option string :=
  let namespace :=
    if Py.has_char "#" uri then Some (before_last "#" uri)
    else match rev (Py.split "/" uri) with
         | _ :: segment :: _ => Some segment
         | _ => None
         end in
  match namespace with
  | Some ns =>
      let ns := strip_leading "www." (strip_leading "https://" (strip_leading "http://" ns)) in
      Some (Py.take 8 (default "" (head (Py.split "." ns))))
  | None => None
  end.

(** "Groups of size >= 2 receive, per member, a prefixed label:
    prefer the namespace prefix registered for a namespace that the
    URI starts with; if none is registered, derive a pseudo-prefix
    from the URI itself. If no pseudo-prefix can be derived, the
    original name is kept." [registered] is the registered prefix. *)
Definition collision_label (registered : option string) (uri name : string) : string :=
  match registered with
  | Some p => p +:+ ":" +:+ name
  | None =>
      match pseudo_prefix uri with
      | Some pp => if Py.truthy pp then pp +:+ ":" +:+ name else name
      | None => name
      end
  end.

End Spec.

(** * Derived notions used in the statements *)

(** [x'] is what a run with outcome [x] gives with more fuel: the same
    outcome, unless [x] had run out of fuel. *)
Definition with_more_fuel {A : Type} (x x' : outcome A) : Prop :=
  x = OutOfFuel \/ x' = x.


(** The element that [_parse_restriction] builds for the property
    [on_prop] of a restriction: its short type is ["dp"] for a
    declared datatype property, else ["ap"] for a declared annotation
    property, else ["op"]. *)
Definition restricted_property (self : OntologyParser) (on_prop : node) : Element :=
  let g := graph self in
  _create_element self on_prop
    (Some (if has_triple g on_prop RDF.type OWL.DatatypeProperty then "dp"
           else if has_triple g on_prop RDF.type OWL.AnnotationProperty then "ap"
           else "op")).


(** The graph without the triples whose predicate is [p]. *)
Definition without_predicate (p : node) (g : Graph) : Graph :=
  mkGraph (List.filter (fun t : triple => negb (node_eqb t.1.2 p)) (triples g))
          (compute_qname g) (qname g).

(** The test of the [while] loop of [_process_list]. *)
Definition in_list (cur : node) : bool :=
  node_truthy cur && negb (node_eqb cur RDF.nil).

(** What one cell of a list contributes to the members. *)
Definition cell_members (self : OntologyProcessor.t) (fuel depth : nat) (cur : node)
    (members : list OntologyProcessor.member) : outcome (list OntologyProcessor.member) :=
  match objects (OntologyProcessor.graph self) cur RDF.first with
  | BNode b :: _ =>
      e ← OntologyProcessor._process_class_expression fuel depth self (BNode b);
      match e with
      | Some ex => Done (members ++ [OntologyProcessor.member_expr ex])
      | None => Done members
      end
  | m :: _ => Done (members ++ [OntologyProcessor.member_str (str m)])
  | [] => Done members
  end.

(** The head of the list that decoding [n] walks, if it walks one. *)
Definition decoded_list (g : Graph) (n : node) : option node :=
  match OntologyProcessor.restriction_loop g n OntologyProcessor.restriction_types with
  | Some _ => None
  | None =>
      match objects g n OWL.unionOf with
      | union_of :: _ => Some union_of
      | [] =>
          match objects g n OWL.intersectionOf with
          | intersection_of :: _ => Some intersection_of
          | [] =>
              match objects g n OWL.complementOf with
              | _ :: _ => None
              | [] => head (objects g n OWL.oneOf)
              end
          end
      end
  end.

(** A list encoding that ends: following [rdf:rest] from [current]
    reaches [rdf:nil], a falsy node or a cell without successor, and
    the lists of the blank-node members on the way end as well. A
    cyclic encoding does not end. *)
Inductive list_ends (self : OntologyProcessor.t) : option node -> Prop :=
| ends_absent : list_ends self None
| ends_stop (cur : node) : in_list cur = false -> list_ends self (Some cur)
| ends_cell (cur : node) :
    in_list cur = true ->
    (forall b rest h,
       objects (OntologyProcessor.graph self) cur RDF.first = BNode b :: rest ->
       decoded_list (OntologyProcessor.graph self) (BNode b) = Some h ->
       list_ends self (Some h)) ->
    list_ends self (head (objects (OntologyProcessor.graph self) cur RDF.rest)) ->
    list_ends self (Some cur).

(** The head of the [unionOf] list that [_get_elements_from_target]
    walks for [n], if it walks one. *)
Definition target_list (g : Graph) (n : node) : option node :=
  if is_BNode n then if_truthy (value g n OWL.unionOf) else None.


(** An element whose [url] is what [_resolve_url] gives for its [uri]. *)
Definition url_resolved (self : OntologyParser) (e : Element) : Prop :=
  url e = Some (_resolve_url self (uri e)).

(** The prefix and the local name of the namespace manager's answer. *)
Definition prefix_and_name (q : option (string * string * string))
  : option (string * string) :=
  match q with Some (prefix, _, name) => Some (prefix, name) | None => None end.

(** The order of the sort keys. *)
Definition key_le {A : Type} (key : A -> string) (a b : A) : Prop :=
  String.leb (key a) (key b) = true.



(** The key under which [_generate_unique_labels] groups an entity. *)
Definition group_key (ue : string * HTMLGenerator.entity_data) : string :=
  Py.lower (HTMLGenerator._get_entity_label ue.2 "en").

(** The label that a member of the group [entities] receives. *)
Definition group_label (namespaces : dict.t string)
    (entities : list (string * HTMLGenerator.entity_data))
    (ue : string * HTMLGenerator.entity_data) : string :=
  match entities with
  | _ :: _ :: _ => HTMLGenerator.conflict_label namespaces ue.1 ue.2
  | _ => HTMLGenerator._get_entity_label ue.2 "en"
  end.

(** The pseudo-prefix made from the namespace text [ns]. *)
Definition shorten (ns : string) : option string :=
  if Py.truthy ns then
    Some (Py.take 8 (default "" (head (Py.split "."
            (Py.replace "www." "" (Py.replace "https://" "" (Py.replace "http://" "" ns)))))))
  else None.

(** The groups made from the entities seen so far: they hold these
    entities, none is empty, the members of a group have its key, and
    no two groups have the same key. *)
Definition grouped (seen : list (string * HTMLGenerator.entity_data))
    (groups : dict.t (list (string * HTMLGenerator.entity_data))) : Prop :=
  flat_map snd groups ≡ₚ seen
  /\ Forall (fun g => g.2 <> [] /\ forall ue, ue ∈ g.2 -> group_key ue = g.1) groups
  /\ dict.wf groups.

(** The assignments to [unique_labels], group after group. *)
Definition assignments (namespaces : dict.t string)
    (groups : dict.t (list (string * HTMLGenerator.entity_data)))
  : list (string * string) :=
  flat_map (fun g => map (fun ue => (ue.1, group_label namespaces g.2 ue)) g.2) groups.

Definition assign (m : gmap string string) (kv : string * string) : gmap string string :=
  <[kv.1 := kv.2]> m.

(** The subjects declared with type [ty] that are not blank nodes. *)
Definition named_subjects (g : Graph) (ty : node) : list node :=
  List.filter (fun s => negb (is_BNode s)) (subjects g RDF.type ty).

(** The predicates whose value makes a restriction, in the order in
    which [_parse_restriction] asks for them. *)
Definition restriction_values : list node :=
  [OWL.someValuesFrom; OWL.allValuesFrom; OWL.hasValue;
   OWL.minCardinality; OWL.minQualifiedCardinality;
   OWL.maxCardinality; OWL.maxQualifiedCardinality;
   OWL.cardinality; OWL.qualifiedCardinality].

(** An element as [Element(uri, label, type_label)] builds it: the
    fields that the call does not give keep their defaults. *)
Definition bare (e : Element) : Prop :=
  comment e = None /\ description e = None /\ is_defined_by e = None
  /\ url e = None /\ other_labels e = [].

(** A well-formed RDF list: the cells from [head] on carry the nodes
    [items] as their [rdf:first], each cell has its successor as
    [rdf:rest], and the last successor is [rdf:nil]. *)
Inductive rdf_list (g : Graph) : node -> list node -> Prop :=
| rdf_list_nil (cur : node) : node_eqb cur RDF.nil = true -> rdf_list g cur []
| rdf_list_cons (cur first next : node) (items : list node) :
    node_eqb cur RDF.nil = false -> node_truthy cur = true ->
    value g cur RDF.first = Some first ->
    value g cur RDF.rest = Some next ->
    rdf_list g next items ->
    rdf_list g cur (first :: items).


(** The predicate/object pairs of an individual that are shown as
    assertions. *)
Definition asserted (po : node * node) : bool :=
  negb (is_BNode po.2)
  && negb (existsb (node_eqb po.1) exclude_props)
  && negb (existsb (fun ns => Py.startswith (str po.1) ns) exclude_namespaces).

(** The superclass nodes of [n] that [_create_class] parses as
    restrictions. *)
Definition restriction_nodes (g : Graph) (n : node) : list node :=
  List.filter (fun obj => is_BNode obj && has_triple g obj RDF.type OWL.Restriction)
              (objects g n RDFS.subClassOf).


(** The language under which [_extract_entity_info] files a literal:
    its own, or ['en'] when it has none. *)
Definition filed_under (l : Literal) : string :=
  match language l with
  | Some x => if Py.truthy x then x else "en"
  | None => "en"
  end.

(** The literals among the nodes of [l], in order. *)
Definition literals (l : list node) : list Literal :=
  omap (fun o => match o with Lit x => Some x | _ => None end) l.

(** The lexical forms of the literals of [l] that are filed under
    [lang], in order. *)
Definition texts_in (lang : string) (l : list node) : list string :=
  map lexical (List.filter (fun x => String.eqb (filed_under x) lang) (literals l)).

(** What the generator reads of the entry of an entity. *)
Definition entity_data_of (i : OntologyProcessor.entity_info.t)
  : HTMLGenerator.entity_data :=
  HTMLGenerator.mk_entity (OntologyProcessor.entity_info.uri i)
                          (OntologyProcessor.entity_info.labels i).


(** The kind under which [get_properties] keeps the property [k]: of
    its three loops over the declared types, the last one that meets
    [k] decides. *)
Definition declared_kind (g : Graph) (k : string) : option string :=
  if has_triple g (URIRef k) RDF.type OWL.AnnotationProperty then Some "annotation"
  else if has_triple g (URIRef k) RDF.type OWL.DatatypeProperty then Some "data"
  else if has_triple g (URIRef k) RDF.type OWL.ObjectProperty then Some "object"
  else None.


(** The keys of the processor's metadata that hold the strings of all
    the objects of a predicate, with that predicate. *)
Definition listed_metadata : list (string * node) :=
  [("title", DC.title); ("description", DC.description);
   ("creator", DC.creator); ("date", DC.date);
   ("version", OWL.versionInfo); ("comment", RDFS.comment);
   ("label", RDFS.label); ("prior_version", OWL.priorVersion);
   ("imports", OWL.imports)].

(** What [get_ontology_metadata] does for one such key. *)
Definition with_listed (g : Graph) (ontology_ref : node) (name : string) (p : node)
    (metadata : gmap string OntologyProcessor.metadata_value)
  : gmap string OntologyProcessor.metadata_value :=
  match objects g ontology_ref p with
  | [] => metadata
  | vs => <[name := OntologyProcessor.strings (map str vs)]> metadata
  end.


(** Every list that the decoding of a blank node walks ends. *)
Definition lists_end (self : OntologyProcessor.t) : Prop :=
  forall b h,
    decoded_list (OntologyProcessor.graph self) (BNode b) = Some h ->
    list_ends self (Some h).


(** What [generate_html] hands to [_generate_unique_labels]: the
    dictionaries of the processor, read as entities. *)
Definition class_entities (classes : dict.t OntologyProcessor.class_info.t)
  : dict.t HTMLGenerator.entity_data :=
  map (fun kv => (kv.1, entity_data_of (OntologyProcessor.class_info.info kv.2))) classes.

Definition property_entities (properties : dict.t OntologyProcessor.property_info.t)
  : dict.t HTMLGenerator.entity_data :=
  map (fun kv => (kv.1, entity_data_of (OntologyProcessor.property_info.info kv.2)))
      properties.

Definition individual_entities (individuals : dict.t OntologyProcessor.individual_info.t)
  : dict.t HTMLGenerator.entity_data :=
  map (fun kv => (kv.1, entity_data_of (OntologyProcessor.individual_info.info kv.2)))
      individuals.

(** The URIs that the processor lists: declared as a class, as a
    property of one of the three kinds, or as an individual. *)
Definition registered (g : Graph) (k : string) : bool :=
  has_triple g (URIRef k) RDF.type OWL.NamedIndividual
  || bool_decide (is_Some (declared_kind g k))
  || has_triple g (URIRef k) RDF.type OWL.Class.

(** The entity of the URI [k], as every listing of the processor
    extracts it. *)
Definition entry_of (g : Graph) (k : string) : HTMLGenerator.entity_data :=
  HTMLGenerator.mk_entity k
    (foldl OntologyProcessor.add_text [] (objects g (URIRef k) RDFS.label)).

(** The English display name of the URI [k], read off the graph. *)
Definition display_name (g : Graph) (k : string) : string :=
  let label_nodes := objects g (URIRef k) RDFS.label in
  match texts_in "en" label_nodes with
  | x :: _ => x
  | [] =>
      match literals label_nodes with
      | l :: _ => lexical l
      | [] => HTMLGenerator._uri_to_label k
      end
  end.


(** * A small ontology

    The graphs on which the properties below are exercised. *)

Module Example.

Definition ex (name : string) : node := URIRef ("http://example.org/" +:+ name).

(** A plain literal and a language-tagged one. *)
Definition plain (s : string) : Literal := mkLiteral s None None (Some (Py.truthy s)).

Definition tagged (s lang : string) : Literal :=
  mkLiteral s (Some lang) None (Some (Py.truthy s)).

(** A namespace manager that knows the prefixes of [table] and raises
    on every other node. *)
Fixpoint table_qname (table : list (string * string)) (n : node)
  : option (string * string * string) :=
  match table with
  | [] => None
  | (prefix, ns) :: table' =>
      if Py.startswith (str n) ns
      then Some (prefix, ns,
                 String.substring (String.length ns)
                                  (String.length (str n) - String.length ns) (str n))
      else table_qname table' n
  end.

Definition prefixed (table : list (string * string)) (n : node) : option string :=
  match table_qname table n with
  | Some (prefix, _, name) => Some (prefix +:+ ":" +:+ name)
  | None => None
  end.

Definition store (table : list (string * string)) (ts : list triple) : Graph :=
  mkGraph ts (table_qname table) (prefixed table).

(** A class with labels in three languages, a property, and an
    individual with one assertion, a [sameAs] link and a title. *)
Definition people : Graph :=
  store [("ex", "http://example.org/")]
    [(ex "Person", RDF.type, OWL.Class);
     (ex "Person", RDFS.label, Lit (tagged "Person" "en"));
     (ex "Person", RDFS.label, Lit (tagged "Personne" "fr"));
     (ex "Person", RDFS.label, Lit (plain "Persoon"));
     (ex "Animal", RDF.type, OWL.Class);
     (ex "knows", RDF.type, OWL.ObjectProperty);
     (ex "age", RDF.type, OWL.DatatypeProperty);
     (ex "john", RDF.type, OWL.NamedIndividual);
     (ex "john", RDF.type, ex "Person");
     (ex "john", ex "knows", URIRef "http://other.org/mary");
     (ex "john", OWL.sameAs, ex "johnny");
     (ex "john", DC.title, Lit (plain "Sir"))].

(** An ontology whose title is given twice, once in each Dublin Core
    vocabulary. *)
Definition twice_titled : Graph :=
  store []
    [(ex "onto", RDF.type, OWL.Ontology);
     (ex "onto", DC.title, Lit (tagged "Title" "en"));
     (ex "onto", DCTERMS.title, Lit (tagged "Title" "en"))].

(** A resource whose label is the empty string. *)
Definition empty_label : Graph :=
  store [("ex", "http://example.org/")]
    [(ex "Thing", RDF.type, OWL.Class);
     (ex "Thing", RDFS.label, Lit (plain ""))].

(** An ontology whose URI, without a separator at its end, is bound
    as the default namespace: the URI is in that namespace, with an
    empty local name. *)
Definition default_namespace : Graph :=
  store [("", "http://example.org/onto")]
    [(URIRef "http://example.org/onto", RDF.type, OWL.Ontology)].

(** The same resources under a generated prefix. *)
Definition generated_prefix : Graph :=
  store [("ns3", "http://example.org/")] (triples people).

Definition john : Individual := create_individual (__init__ people) (ex "john").

Definition one : node :=
  Lit (mkLiteral "1" None (Some "http://www.w3.org/2001/XMLSchema#nonNegativeInteger")
                 (Some true)).

(** Class expressions: a union over a two-cell list, nodes that carry
    more than one construct, and a list whose only cell is its own
    successor. *)
Definition expressions : Graph :=
  store [("ex", "http://example.org/")]
    [(BNode "l1", RDF.first, ex "A");
     (BNode "l1", RDF.rest, BNode "l2");
     (BNode "l2", RDF.first, ex "B");
     (BNode "l2", RDF.rest, RDF.nil);
     (BNode "u", OWL.unionOf, BNode "l1");
     (BNode "both", OWL.unionOf, BNode "l1");
     (BNode "both", OWL.someValuesFrom, ex "A");
     (BNode "both", OWL.onProperty, ex "knows");
     (BNode "noprop", OWL.someValuesFrom, ex "A");
     (BNode "noprop", OWL.oneOf, BNode "l1");
     (BNode "noprop", OWL.intersectionOf, BNode "l1");
     (BNode "not", OWL.complementOf, ex "A");
     (BNode "plain", RDFS.label, Lit (plain "a node"));
     (BNode "q", OWL.onProperty, ex "knows");
     (BNode "q", OWL.minQualifiedCardinality, one);
     (BNode "q", OWL.onClass, ex "Person");
     (BNode "q0", OWL.onProperty, ex "knows");
     (BNode "q0", OWL.maxQualifiedCardinality, one);
     (BNode "mixed", OWL.onProperty, ex "knows");
     (BNode "mixed", OWL.minQualifiedCardinality, one);
     (BNode "mixed", OWL.onClass, ex "Person");
     (BNode "mixed", OWL.someValuesFrom, ex "A");
     (BNode "cyc", OWL.unionOf, BNode "c1");
     (BNode "c1", RDF.first, ex "A");
     (BNode "c1", RDF.rest, BNode "c1")].

Definition processor : OntologyProcessor.t := OntologyProcessor.mk expressions None.

(** A class with a qualified-cardinality restriction on class [cls]. *)
Definition qualified (cls : string) : Graph :=
  store [("ex", "http://example.org/")]
    [(ex "Person", RDF.type, OWL.Class);
     (ex "Person", RDFS.subClassOf, BNode "r1");
     (BNode "r1", RDF.type, OWL.Restriction);
     (BNode "r1", OWL.onProperty, ex "knows");
     (BNode "r1", OWL.minQualifiedCardinality, one);
     (BNode "r1", OWL.onClass, ex cls)].

(** A class restricted to own some cat or dog. *)
Definition pets : Graph :=
  store [("ex", "http://example.org/")]
    [(ex "Owner", RDF.type, OWL.Class);
     (ex "Owner", RDFS.label, Lit (tagged "Owner" "en"));
     (ex "Cat", RDF.type, OWL.Class);
     (ex "Owner", RDFS.subClassOf, BNode "r");
     (BNode "r", RDF.type, OWL.Restriction);
     (BNode "r", OWL.onProperty, ex "owns");
     (BNode "r", OWL.someValuesFrom, BNode "u");
     (BNode "u", OWL.unionOf, BNode "l1");
     (BNode "l1", RDF.first, ex "Cat");
     (BNode "l1", RDF.rest, BNode "l2");
     (BNode "l2", RDF.first, ex "Dog");
     (BNode "l2", RDF.rest, RDF.nil)].

(** Two entities named "Name" up to case and one named "Other". *)
Definition name1 : HTMLGenerator.entity_data :=
  HTMLGenerator.mk_entity "http://example.org/onto#Name" [].

Definition name2 : HTMLGenerator.entity_data :=
  HTMLGenerator.mk_entity "http://other.org/x#name" [("en", ["name"])].

Definition other : HTMLGenerator.entity_data :=
  HTMLGenerator.mk_entity "http://example.org/onto#Other" [("fr", ["Autre"])].

Definition named_classes : dict.t HTMLGenerator.entity_data :=
  [("http://example.org/onto#Name", name1); ("http://example.org/onto#Other", other)].

Definition named_properties : dict.t HTMLGenerator.entity_data :=
  [("http://other.org/x#name", name2)].

Definition zero : node :=
  Lit (mkLiteral "0" None (Some "http://www.w3.org/2001/XMLSchema#nonNegativeInteger")
                 (Some false)).

(** Restrictions by cardinality: at least zero, at most one. *)
Definition cardinalities : Graph :=
  store [("ex", "http://example.org/")]
    [(ex "Person", RDF.type, OWL.Class);
     (ex "knows", RDF.type, OWL.ObjectProperty);
     (ex "Person", RDFS.subClassOf, BNode "r0");
     (ex "Person", RDFS.subClassOf, BNode "r1");
     (BNode "r0", RDF.type, OWL.Restriction);
     (BNode "r0", OWL.onProperty, ex "knows");
     (BNode "r0", OWL.minCardinality, zero);
     (BNode "r1", RDF.type, OWL.Restriction);
     (BNode "r1", OWL.onProperty, ex "knows");
     (BNode "r1", OWL.maxCardinality, one)].


(** The processor on the graph [people]. *)
Definition people_processor : OntologyProcessor.t := OntologyProcessor.mk people None.


(** The processor on the graph [twice_titled], for its ontology. *)
Definition titled_processor : OntologyProcessor.t :=
  OntologyProcessor.mk twice_titled (Some "http://example.org/onto").


(** The processor on the graph [pets]. *)
Definition pets_processor : OntologyProcessor.t := OntologyProcessor.mk pets None.


(** A class whose superclass is the union over the cyclic list. *)
Definition cyclic_class : OntologyProcessor.t :=
  OntologyProcessor.mk
    (store [("ex", "http://example.org/")]
       [(ex "C", RDF.type, OWL.Class);
        (ex "C", RDFS.subClassOf, BNode "cyc");
        (BNode "cyc", OWL.unionOf, BNode "c1");
        (BNode "c1", RDF.first, ex "A");
        (BNode "c1", RDF.rest, BNode "c1")])
    None.







End Example.

(** * Properties *)

(** ** Sorting *)

Section Sorting.
Context {A : Type} (key : A -> string).

Lemma ltb_false_leb (x y : string) : String.ltb y x = false -> String.leb x y = true.
Proof.
  unfold String.ltb, String.leb. rewrite (String.compare_antisym x y).
  destruct (String.compare y x); simpl; congruence.
Qed.

Lemma ltb_true_leb (x y : string) : String.ltb y x = true -> String.leb y x = true.
Proof.
  unfold String.ltb, String.leb. destruct (String.compare y x); congruence.
Qed.

Lemma insert_by_perm (x : A) (l : list A) : insert_by key x l ≡ₚ x :: l.
Proof.
  induction l as [|y l IH]; simpl; [done|].
  destruct (String.ltb (key y) (key x)); [|done].
  rewrite IH. apply perm_swap.
Qed.

Lemma sorted_perm (l : list A) : sorted key l ≡ₚ l.
Proof.
  induction l as [|x l IH]; simpl; [done|].
  unfold sorted in *. simpl. rewrite insert_by_perm. by rewrite IH.
Qed.

Lemma insert_by_HdRel (a x : A) (l : list A) :
  key_le key a x -> HdRel (key_le key) a l -> HdRel (key_le key) a (insert_by key x l).
Proof.
  intros Hax Hl. destruct l as [|y l]; simpl; [by constructor|].
  destruct (String.ltb (key y) (key x)); constructor; [|done].
  by inversion Hl.
Qed.

Lemma insert_by_Sorted (x : A) (l : list A) :
  Sorted (key_le key) l -> Sorted (key_le key) (insert_by key x l).
Proof.
  induction l as [|y l IH]; intros Hs; simpl.
  - by repeat constructor.
  - destruct (String.ltb (key y) (key x)) eqn:E.
    + inversion Hs; subst. constructor; [by apply IH|].
      apply insert_by_HdRel; [|done]. by apply ltb_true_leb.
    + constructor; [done|]. constructor. by apply ltb_false_leb.
Qed.

Lemma sorted_Sorted (l : list A) : Sorted (key_le key) (sorted key l).
Proof.
  induction l as [|x l IH]; [constructor|].
  unfold sorted in *. simpl. by apply insert_by_Sorted.
Qed.

Lemma sorted_elem (x : A) (l : list A) : x ∈ sorted key l <-> x ∈ l.
Proof. by rewrite sorted_perm. Qed.

End Sorting.

(** ** Loops *)

Lemma for_each_inv {A S : Type} (body : S -> A -> outcome S) (I : S -> Prop)
    (l : list A) (acc r : S) :
  I acc ->
  (forall acc x acc', x ∈ l -> I acc -> body acc x = Done acc' -> I acc') ->
  for_each body l acc = Done r -> I r.
Proof.
  revert acc. induction l as [|x l IH]; intros acc Hacc Hstep; simpl.
  - intros [= <-]. done.
  - destruct (body acc x) as [acc'| |] eqn:E; simpl; try discriminate.
    apply IH.
    + eapply Hstep; [|done|done]. left.
    + intros a y a' Hy. apply Hstep. by right.
Qed.


(** More fuel leaves an outcome that was reached as it is. *)
Lemma more_fuel_settled {A : Type} (x x' r : outcome A) :
  with_more_fuel x x' -> x = r -> r <> OutOfFuel -> x' = r.
Proof. intros [->| ->] <- H; done. Qed.

Lemma more_fuel_Done {A : Type} (x x' : outcome A) (a : A) :
  with_more_fuel x x' -> x = Done a -> x' = Done a.
Proof. intros H E. by apply (more_fuel_settled x x'). Qed.

Lemma more_fuel_bind {A B : Type} (x x' : outcome A) (k k' : A -> outcome B) :
  with_more_fuel x x' -> (forall a, with_more_fuel (k a) (k' a)) ->
  with_more_fuel (x ≫= k) (x' ≫= k').
Proof.
  intros [->| ->] Hk; [by left|]. destruct x as [a| |]; simpl; [apply Hk|by right|by left].
Qed.

(** ** The set of locally defined resources and [_resolve_url] *)

Lemma anchor_differs (u : string) : "#" +:+ u <> u.
Proof.
  change ("#" +:+ u) with (String "#" u).
  intros H. apply (f_equal String.length) in H. simpl in H. lia.
Qed.

Lemma resolve_url_defined (self : OntologyParser) (u : string) :
  u ∈ defined_resources self -> _resolve_url self u = "#" +:+ u.
Proof. intros H. unfold _resolve_url. by rewrite decide_True. Qed.

Lemma resolve_url_external (self : OntologyParser) (u : string) :
  u ∉ defined_resources self -> _resolve_url self u = u.
Proof. intros H. unfold _resolve_url. by rewrite decide_False. Qed.

Lemma collect_uris_elem (l : list node) (acc : gset string) (x : string) :
  x ∈ foldl (fun acc s => if is_URIRef s then {[str s]} ∪ acc else acc) acc l
  <-> x ∈ acc \/ exists s, s ∈ l /\ is_URIRef s = true /\ str s = x.
Proof.
  revert acc. induction l as [|s l IH]; intros acc; simpl.
  - split; [by left|]. intros [H|(s & Hs & _)]; [done|]. by apply elem_of_nil in Hs.
  - rewrite IH. split.
    + intros [H|(s' & Hs' & Hu & Hx)].
      * destruct (is_URIRef s) eqn:E.
        -- apply elem_of_union in H as [H|H]; [|by left].
           apply elem_of_singleton in H. right. exists s. split; [left|done].
        -- by left.
      * right. exists s'. split; [by right|done].
    + intros [H|(s' & Hs' & Hu & Hx)].
      * left. destruct (is_URIRef s); [|done]. apply elem_of_union. by right.
      * apply elem_of_cons in Hs' as [->|Hs'].
        -- left. rewrite Hu. apply elem_of_union. left. by apply elem_of_singleton.
        -- right. by exists s'.
Qed.

Lemma defined_resources_spec (g : Graph) (x : string) :
  x ∈ defined_resources (__init__ g)
  <-> exists s dtype, dtype ∈ defining_types /\ s ∈ subjects g RDF.type dtype
                   /\ is_URIRef s = true /\ str s = x.
Proof.
  assert (forall (tys : list node) (acc : gset string),
    x ∈ foldl (fun acc dtype =>
                 foldl (fun acc s => if is_URIRef s then {[str s]} ∪ acc else acc)
                       acc (subjects g RDF.type dtype)) acc tys
    <-> x ∈ acc \/ exists s dtype, dtype ∈ tys /\ s ∈ subjects g RDF.type dtype
                                /\ is_URIRef s = true /\ str s = x) as Hgen.
  { induction tys as [|ty tys IH]; intros acc; simpl.
    - split; [by left|]. intros [H|(s & d & Hd & _)]; [done|].
      by apply elem_of_nil in Hd.
    - rewrite IH, collect_uris_elem. split.
      + intros [[H|(s & Hs & Hu & Hx)]|(s & d & Hd & Hs & Hu & Hx)].
        * by left.
        * right. exists s, ty. split; [left|done].
        * right. exists s, d. split; [by right|done].
      + intros [H|(s & d & Hd & Hs & Hu & Hx)]; [by left; left|].
        apply elem_of_cons in Hd as [->|Hd].
        * left. right. by exists s.
        * right. by exists s, d. }
  unfold __init__. cbn [defined_resources]. rewrite Hgen. split; [|by right].
  intros [H|H]; [|done]. by apply not_elem_of_empty in H.
Qed.

Lemma create_element_url (self : OntologyParser) (n : node) (ty : option string) :
  url_resolved self (_create_element self n ty).
Proof.
  unfold url_resolved, _create_element.
  by destruct (_extract_preferred_and_others self n [RDFS.label]).
Qed.

Lemma create_property_url (self : OntologyParser) (n : node) (tl st : string) :
  url_resolved self (_create_property self n tl st).
Proof.
  unfold url_resolved, _create_property.
  by destruct (_extract_preferred_and_others self n [RDFS.label]).
Qed.

Lemma create_individual_url (self : OntologyParser) (n : node) :
  url_resolved self (create_individual self n).
Proof.
  unfold url_resolved, create_individual.
  by destruct (_extract_preferred_and_others self n [RDFS.label]).
Qed.

Lemma create_class_url (fuel depth : nat) (self : OntologyParser) (n : node) (c : Class) :
  _create_class fuel depth self n = Done c -> url_resolved self c.
Proof.
  unfold url_resolved, _create_class.
  destruct (_extract_preferred_and_others self n [RDFS.label]) as [? others].
  destruct (for_each _ (objects _ _ _) _) as [rs| |]; simpl; try discriminate.
  destruct (for_each _ (predicate_objects _ _) _) as [sk| |]; simpl; try discriminate.
  by intros [= <-].
Qed.

Lemma properties_of_url (self : OntologyParser) (ty : node) (tl st : string) (p : Property) :
  p ∈ properties_of self ty tl st -> url_resolved self p.
Proof.
  unfold properties_of. intros (s & -> & _)%list_elem_of_fmap.
  apply create_property_url.
Qed.

Lemma get_classes_from (fuel depth : nat) (self : OntologyParser) (cs : list Class) (c : Class) :
  get_classes fuel depth self = Done cs -> c ∈ cs ->
  exists s, s ∈ subjects (graph self) RDF.type OWL.Class /\ is_BNode s = false
            /\ _create_class fuel depth self s = Done c.
Proof.
  unfold get_classes.
  destruct (for_each _ _ _) as [classes| |] eqn:E; simpl; try discriminate.
  intros [= <-] Hc. apply sorted_elem in Hc.
  revert c Hc.
  refine (for_each_inv _ (fun acc => forall c, c ∈ acc -> _) _ _ _ _ _ E).
  - intros c Hc. by apply elem_of_nil in Hc.
  - intros acc s acc' Hs IH Hbody c Hc. simpl in Hbody.
    destruct (is_BNode s) eqn:Eb.
    + injection Hbody as <-. by apply IH.
    + destruct (_create_class fuel depth self s) as [c'| |] eqn:Ec; simpl in Hbody;
        try discriminate.
      injection Hbody as <-. apply elem_of_app in Hc as [Hc|Hc]; [by apply IH|].
      apply list_elem_of_singleton in Hc as ->. by exists s.
Qed.

Lemma get_properties_elem (self : OntologyParser) (p : Property) :
  p ∈ get_properties self ->
  p ∈ get_object_properties self \/ p ∈ get_datatype_properties self
  \/ p ∈ get_annotation_properties self.
Proof.
  unfold get_properties. rewrite sorted_elem, !elem_of_app. tauto.
Qed.

(** C6. The [url] of every extracted entity is what [_resolve_url]
    gives for its [uri]: the anchor ["#" + uri] exactly when the uri
    is in the set of locally defined resources that the constructor
    computes, and the uri itself otherwise. [_resolve_url] depends on
    the uri and on that set only, and the set holds the URIs of the
    subjects declared with one of the defining types. *)
Theorem displayUrl_anchor_iff_local (g : Graph) :
  let self := __init__ g in
  (forall u, (_resolve_url self u = "#" +:+ u <-> u ∈ defined_resources self)
             /\ (u ∉ defined_resources self -> _resolve_url self u = u))
  /\ (forall other u, defined_resources other = defined_resources self ->
                      _resolve_url other u = _resolve_url self u)
  /\ (forall u, u ∈ defined_resources self
                <-> exists s dtype, dtype ∈ defining_types
                                 /\ s ∈ subjects g RDF.type dtype
                                 /\ is_URIRef s = true /\ str s = u)
  /\ (forall n ty, url_resolved self (_create_element self n ty))
  /\ (forall fuel depth cs (c : Class),
        get_classes fuel depth self = Done cs -> c ∈ cs -> url_resolved self c)
  /\ (forall p : Property,
        p ∈ get_object_properties self \/ p ∈ get_datatype_properties self
        \/ p ∈ get_annotation_properties self \/ p ∈ get_properties self ->
        url_resolved self p)
  /\ (forall i : Individual, i ∈ get_named_individuals self -> url_resolved self i).
Proof.
  intros self. repeat split.
  - intros H. destruct (decide (u ∈ defined_resources self)) as [|Hn]; [done|].
    rewrite (resolve_url_external _ _ Hn) in H. symmetry in H.
    by apply anchor_differs in H.
  - apply resolve_url_defined.
  - apply resolve_url_external.
  - intros other u H. unfold _resolve_url. by rewrite H.
  - by apply defined_resources_spec.
  - by apply defined_resources_spec.
  - apply create_element_url.
  - intros fuel depth cs c Hcs Hc.
    destruct (get_classes_from _ _ _ _ _ Hcs Hc) as (s & _ & _ & Hs).
    by eapply create_class_url.
  - assert (forall p : Property,
              p ∈ get_object_properties self \/ p ∈ get_datatype_properties self
              \/ p ∈ get_annotation_properties self -> url_resolved self p) as H3.
    { intros p [H|[H|H]]; apply sorted_elem in H; by eapply properties_of_url. }
    intros p [H|[H|[H|H]]]; [apply H3; tauto ..|].
    apply H3. by apply get_properties_elem.
  - intros i Hi. unfold get_named_individuals in Hi. apply sorted_elem in Hi.
    apply list_elem_of_fmap in Hi as (s & -> & _). apply create_individual_url.
Qed.

Lemma displayUrl_anchor_iff_local_witness :
  let self := __init__ Example.people in
  _resolve_url self "http://example.org/Person" = "#http://example.org/Person"
  /\ _resolve_url self "http://other.org/mary" = "http://other.org/mary".
Proof.
  intros self.
  pose proof (displayUrl_anchor_iff_local Example.people) as (Hu & _).
  split.
  - apply (Hu "http://example.org/Person"). by vm_compute.
  - apply (Hu "http://other.org/mary"). by vm_compute.
Defined.

(** ** Matching triples *)

Lemma node_eqb_URIRef (n : node) (u : string) :
  node_eqb n (URIRef u) = true <-> n = URIRef u.
Proof.
  destruct n as [s|s|l]; simpl; try (split; [discriminate|congruence]).
  rewrite String.eqb_eq. split; congruence.
Qed.

Lemma subjects_elem (g : Graph) (p o s : node) :
  s ∈ subjects g p o
  <-> exists p' o', (s, p', o') ∈ triples g /\ node_eqb p' p = true /\ node_eqb o' o = true.
Proof.
  unfold subjects. rewrite list_elem_of_omap. split.
  - intros ([[s' p'] o'] & Hin & H).
    destruct (node_eqb p' p) eqn:Ep, (node_eqb o' o) eqn:Eo; simpl in H; try discriminate.
    injection H as <-. by exists p', o'.
  - intros (p' & o' & Hin & Ep & Eo). exists (s, p', o'). split; [done|].
    by rewrite Ep, Eo.
Qed.


(** ** Metadata without an ontology declaration *)

(** The dictionary-based extractor does not raise either: without an
    ontology URI it returns the empty dictionary. *)
Lemma get_ontology_metadata_without_uri (g : Graph) :
  OntologyProcessor.get_ontology_metadata (OntologyProcessor.mk g None) = ∅.
Proof. done. Qed.

Lemma objects_of_unknown_subject (g : Graph) (u : string) (p : node) :
  (forall p' o, (URIRef u, p', o) ∉ triples g) -> objects g (URIRef u) p = [].
Proof.
  unfold objects. induction (triples g) as [|[[s' p'] o] l IH]; intros H; [done|].
  assert (node_eqb s' (URIRef u) = false) as Hs.
  { destruct (node_eqb s' (URIRef u)) eqn:E; [|done].
    apply node_eqb_URIRef in E as ->. destruct (H p' o). left. }
  change (omap ?f ((s', p', o) :: l))
    with (match (if node_eqb s' (URIRef u) && node_eqb p' p then Some o else None) with
          | Some y => y :: omap f l
          | None => omap f l
          end).
  rewrite Hs. simpl. apply IH. intros p'' o'' Hin. apply (H p'' o''). by right.
Qed.

(** C8, as amended. When no triple of the graph declares a subject to
    be an [owl:Ontology], [get_metadata] of the parser returns the
    record whose [uri] is ["unknown"] and whose other fields keep
    their defaults; it does not raise. [get_ontology_metadata] of the
    processor does not raise either, and returns the empty dictionary,
    without any identifier: with no ontology URI, and also with the
    URL of the source as ontology URI when the graph says nothing
    about that URL. *)
Theorem metadata_unknown_without_declaration (g : Graph) :
  (forall s, (s, RDF.type, OWL.Ontology) ∉ triples g) ->
  get_metadata (__init__ g)
  = OntologyMetadata.mk "unknown" None None None [] [] [] [] None None None
  /\ OntologyProcessor.get_ontology_metadata (OntologyProcessor.mk g None) = ∅
  /\ (forall source_url,
        (forall p o, (URIRef source_url, p, o) ∉ triples g) ->
        OntologyProcessor.get_ontology_metadata (OntologyProcessor.mk g (Some source_url))
        = ∅).
Proof.
  intros Hno. repeat apply conj.
  - assert (subjects g RDF.type OWL.Ontology = []) as Hs.
    { destruct (subjects g RDF.type OWL.Ontology) as [|s l] eqn:E; [done|].
      assert (s ∈ subjects g RDF.type OWL.Ontology) as Hin by (rewrite E; left).
      apply subjects_elem in Hin as (p' & o' & Hin & Hp & Ho).
      apply node_eqb_URIRef in Hp as ->. apply node_eqb_URIRef in Ho as ->.
      by apply Hno in Hin. }
    unfold get_metadata, __init__, _find_ontology_node. cbn [ontology_node].
    by rewrite Hs.
  - apply get_ontology_metadata_without_uri.
  - intros u Hu. unfold OntologyProcessor.get_ontology_metadata.
    cbn [OntologyProcessor.ontology_uri OntologyProcessor.graph].
    destruct (negb (Py.truthy u)); [done|]. cbv zeta. cbn [foldl fst snd].
    by rewrite !(objects_of_unknown_subject g u).
Qed.

Lemma metadata_unknown_without_declaration_witness :
  OntologyMetadata.uri (get_metadata (__init__ Example.people)) = "unknown".
Proof.
  destruct (metadata_unknown_without_declaration Example.people) as [-> _]; [|done].
  intros s Hs. apply list_elem_of_In in Hs. vm_compute in Hs.
  intuition discriminate.
Defined.

(** C8, the claim as stated fails for the processor: for a graph
    without ontology declaration, where the parser answers with the
    record of ["unknown"], the metadata of the processor is the empty
    dictionary, with no ontology URI and with the URL of the source
    as ontology URI alike. It holds no identifier, and no
    ["unknown"]. *)
Lemma processor_metadata_not_unknown :
  OntologyMetadata.uri (get_metadata (__init__ Example.people)) = "unknown"
  /\ OntologyProcessor.get_ontology_metadata Example.people_processor = ∅
  /\ OntologyProcessor.get_ontology_metadata
       (OntologyProcessor.mk Example.people (Some "http://example.org/people.ttl")) = ∅.
Proof. repeat split. Qed.

(** ** The Literal Resolver *)

Lemma opt_eqb_refl (o : option string) : opt_eqb o o = true.
Proof. destruct o; simpl; [apply String.eqb_refl|done]. Qed.

Lemma literal_eqb_refl (l : Literal) : literal_eqb l l = true.
Proof.
  unfold literal_eqb. by rewrite !opt_eqb_refl, String.eqb_refl.
Qed.

Lemma filter_is_en_first (pre post : list Literal) (e : Literal) :
  (forall c, c ∈ pre -> is_en c = false) -> is_en e = true ->
  List.filter is_en (pre ++ e :: post) = e :: List.filter is_en post.
Proof.
  intros Hpre He. induction pre as [|c pre IH]; simpl.
  - by rewrite He.
  - rewrite (Hpre c) by left. apply IH. intros c' Hc'. apply Hpre. by right.
Qed.

Lemma filter_all_true {A : Type} (f : A -> bool) (l : list A) :
  (forall c, c ∈ l -> f c = true) -> List.filter f l = l.
Proof.
  induction l as [|c l IH]; intros H; simpl; [done|].
  rewrite (H c) by left. f_equal. apply IH. intros c' Hc'. apply H. by right.
Qed.

Lemma filter_none_en (l : list Literal) :
  (forall c, c ∈ l -> is_en c = false) -> List.filter is_en l = [].
Proof.
  induction l as [|c l IH]; intros H; simpl; [done|].
  rewrite (H c) by left. apply IH. intros c' Hc'. apply H. by right.
Qed.

Lemma split_first_spec (pre post : list Literal) (e : Literal) :
  (forall c, c ∈ pre -> is_en c = false) -> is_en e = true ->
  Spec.split_first is_en (pre ++ e :: post) = Some (pre, e, post).
Proof.
  intros Hpre He. induction pre as [|c pre IH]; simpl.
  - by rewrite He.
  - rewrite (Hpre c) by left. rewrite IH; [done|].
    intros c' Hc'. apply Hpre. by right.
Qed.

Lemma split_first_none (l : list Literal) :
  (forall c, c ∈ l -> is_en c = false) -> Spec.split_first is_en l = None.
Proof.
  induction l as [|c l IH]; intros H; simpl; [done|].
  rewrite (H c) by left. rewrite IH; [done|]. intros c' Hc'. apply H. by right.
Qed.

(** C2, as amended. The resolver returns no label when there is no
    candidate. When a candidate is tagged ["en"], the first such
    candidate is preferred and the alternates are the candidates that
    do not equal it, in encounter order: other ["en"]-tagged values
    are kept, every copy of the preferred literal is dropped, and when
    no other candidate equals the preferred one the alternates are all
    the other candidates, as the specification words it. Without an
    ["en"] candidate the first candidate is preferred and the rest are
    the alternates. An alternate is the bare value when untagged and
    [value @lang] when tagged. *)
Theorem preferred_and_alternates
    (self : OntologyParser) (subject : node) (predicates : list node) :
  let cands := candidates self subject predicates in
  let result := _extract_preferred_and_others self subject predicates in
  (cands = [] -> result = (None, []))
  /\ (forall pre e post,
        cands = pre ++ e :: post -> is_en e = true ->
        (forall c, c ∈ pre -> is_en c = false) ->
        result = (Some (lexical e),
                  map format_other
                      (List.filter (fun c => negb (literal_eqb c e)) (pre ++ post)))
        /\ ((forall c, c ∈ pre ++ post -> literal_eqb c e = false) ->
            result = (Some (lexical e), map format_other (pre ++ post))
            /\ result = Spec.resolvePreferred cands))
  /\ (forall c0 rest,
        cands = c0 :: rest -> (forall c, c ∈ cands -> is_en c = false) ->
        result = (Some (lexical c0), map format_other rest)
        /\ result = Spec.resolvePreferred cands)
  /\ (forall l,
        (language l = None -> format_other l = lexical l)
        /\ (forall lang, language l = Some lang -> lang <> "" ->
                         format_other l = lexical l +:+ " @" +:+ lang)).
Proof.
  intros cands result. repeat apply conj.
  - intros H. unfold result, _extract_preferred_and_others. fold cands. by rewrite H.
  - intros pre e post Hc He Hpre.
    assert (result = (Some (lexical e),
                      map format_other
                        (List.filter (fun c => negb (literal_eqb c e)) (pre ++ post)))) as Hr.
    { unfold result, _extract_preferred_and_others. fold cands. rewrite Hc.
      destruct (pre ++ e :: post) as [|c0 rest] eqn:E; [by destruct pre|].
      rewrite <- E. rewrite filter_is_en_first by done.
      rewrite !List.filter_app. simpl. by rewrite literal_eqb_refl. }
    split; [done|]. intros Hne.
    assert (List.filter (fun c => negb (literal_eqb c e)) (pre ++ post) = pre ++ post) as Hf.
    { apply filter_all_true. intros c Hin. by rewrite Hne. }
    rewrite Hf in Hr. split; [done|].
    unfold Spec.resolvePreferred. rewrite Hc, split_first_spec by done. done.
  - intros c0 rest Hc Hno.
    assert (result = (Some (lexical c0), map format_other rest)) as Hr.
    { unfold result, _extract_preferred_and_others. fold cands.
      rewrite filter_none_en by done. by rewrite Hc. }
    split; [done|]. unfold Spec.resolvePreferred.
    rewrite split_first_none by done. by rewrite Hc.
  - intros l. split.
    + intros H. unfold format_other. by rewrite H.
    + intros lang H Hne. unfold format_other. rewrite H.
      destruct lang; [done|]. done.
Qed.

(** The labels of the specification's example: ["Person"@en],
    ["Personne"@fr] and an untagged ["Persoon"]. *)
Lemma preferred_and_alternates_witness :
  _extract_preferred_and_others (__init__ Example.people) (Example.ex "Person") [RDFS.label]
  = (Some "Person", ["Personne @fr"; "Persoon"]).
Proof.
  pose proof (preferred_and_alternates (__init__ Example.people) (Example.ex "Person")
                [RDFS.label]) as (_ & Hen & _).
  destruct (Hen [] (Example.tagged "Person" "en")
                [Example.tagged "Personne" "fr"; Example.plain "Persoon"])
    as (_ & Hother).
  - reflexivity.
  - reflexivity.
  - intros c Hc. by apply elem_of_nil in Hc.
  - destruct Hother as (Hr & _).
    + intros c Hc. apply list_elem_of_In in Hc. simpl in Hc.
      destruct Hc as [<-|[<-|[]]]; reflexivity.
    + exact Hr.
Defined.

(** C2, the claim as stated fails: a title that both Dublin Core
    vocabularies give is a candidate twice; the specification makes
    the second copy an alternate, the code drops it. *)
Lemma duplicate_candidate_dropped :
  let self := __init__ Example.twice_titled in
  let cands := candidates self (Example.ex "onto") [DC.title; DCTERMS.title] in
  cands = [Example.tagged "Title" "en"; Example.tagged "Title" "en"]
  /\ Spec.resolvePreferred cands = (Some "Title", ["Title @en"])
  /\ _extract_preferred_and_others self (Example.ex "onto") [DC.title; DCTERMS.title]
     = (Some "Title", [])
  /\ _extract_preferred_and_others self (Example.ex "onto") [DC.title; DCTERMS.title]
     <> Spec.resolvePreferred cands.
Proof. repeat split; try reflexivity. discriminate. Qed.

(** ** The Name Resolver *)

Lemma digits_to_end_spec (s : string) :
  digits_to_end s = true
  <-> Spec.digits s = true \/ exists r, s = r +:+ nl /\ Spec.digits r = true.
Proof.
  induction s as [|c s IH]; simpl.
  - split; [by left|done].
  - destruct (Py.is_digit c) eqn:Ed; simpl.
    + rewrite IH. split.
      * intros [H|(r & -> & Hr)]; [by left|]. right. exists (String c r).
        split; [done|]. simpl. by rewrite Ed.
      * intros [H|(r & Hs & Hr)]; [by left|]. right.
        destruct r as [|c' r]; simpl in Hs.
        -- injection Hs as -> ->. discriminate Ed.
        -- injection Hs as -> ->. simpl in Hr. rewrite Ed in Hr. by exists r.
    + split.
      * intros [Hc Hs]%andb_prop. apply Ascii.eqb_eq in Hc as ->.
        apply String.eqb_eq in Hs as ->. right. by exists "".
      * intros [H|(r & Hs & Hr)]; [done|].
        destruct r as [|c' r]; simpl in Hs.
        -- injection Hs as -> ->. done.
        -- injection Hs as -> ->. simpl in Hr. by rewrite Ed in Hr.
Qed.

Lemma is_auto_generated_spec (prefix : string) :
  _is_auto_generated prefix = true
  <-> Spec.placeholder prefix = true
      \/ exists q, prefix = q +:+ nl /\ Spec.placeholder q = true.
Proof.
  split.
  - destruct prefix as [|a [|b [|d rest]]]; simpl; try discriminate.
    rewrite !andb_true_iff, digits_to_end_spec.
    intros [[[Ha Hb] Hd] [Hr|(r & -> & Hr)]].
    + left. by rewrite Ha, Hb, Hd, Hr.
    + right. exists (String a (String b (String d r))). split; [done|].
      simpl. by rewrite Ha, Hb, Hd, Hr.
  - intros [H|(q & -> & H)].
    + destruct prefix as [|a [|b [|d rest]]]; simpl in *; try discriminate.
      * by rewrite andb_false_r in H.
      * rewrite !andb_true_iff in *. destruct H as [[[Ha Hb] _] [Hd Hr]].
        repeat split; try done. apply digits_to_end_spec. by left.
    + destruct q as [|a [|b [|d r]]]; simpl in *; try discriminate.
      * by rewrite andb_false_r in H.
      * rewrite !andb_true_iff in *. destruct H as [[[Ha Hb] _] [Hd Hr]].
        repeat split; try done. apply digits_to_end_spec. right. by exists r.
Qed.

Lemma truthy_true (s : string) : s <> "" -> Py.truthy s = true.
Proof. intros H. unfold Py.truthy. by apply String.eqb_neq in H as ->. Qed.

Lemma truthy_false (s : string) : Py.truthy s = false <-> s = "".
Proof.
  unfold Py.truthy. rewrite negb_false_iff. apply String.eqb_eq.
Qed.

(** C4, as amended. [_get_label_or_qname] is a total function. It
    returns the preferred label when there is one and it is not the
    empty string. Otherwise it asks for a prefixed name: a non-empty
    prefix that is auto-generated gives the raw URI, another
    non-empty prefix gives [prefix:localName], the empty prefix gives
    [:localName] when the local name is not empty and the raw URI when
    it is; when no prefixed name can be computed the raw URI is
    returned. A prefix is auto-generated when it is ["ns"] followed by
    one or more digits, or that followed by one final newline. Outside
    the two cases of an empty label and of an empty prefix with an
    empty local name, and for prefixes without a final newline, this is
    the order of resolution of the specification. *)
Theorem displayName_resolution (self : OntologyParser) (subject : node) :
  let r := _get_label_or_qname self subject in
  let preferred := _get_literal self subject [RDFS.label] in
  let q := compute_qname (graph self) subject in
  (forall l, preferred = Some l -> l <> "" -> r = l)
  /\ (preferred = None \/ preferred = Some "" ->
      (q = None -> r = str subject)
      /\ (forall prefix ns name, q = Some (prefix, ns, name) ->
            (prefix <> "" -> _is_auto_generated prefix = true -> r = str subject)
            /\ (prefix <> "" -> _is_auto_generated prefix = false ->
                r = prefix +:+ ":" +:+ name)
            /\ (prefix = "" -> name <> "" -> r = ":" +:+ name)
            /\ (prefix = "" -> name = "" -> r = str subject)))
  /\ (forall prefix,
        _is_auto_generated prefix = true
        <-> Spec.placeholder prefix = true
            \/ exists p, prefix = p +:+ nl /\ Spec.placeholder p = true)
  /\ (preferred <> Some "" ->
      (forall ns, q <> Some ("", ns, "")) ->
      (forall prefix ns name, q = Some (prefix, ns, name) ->
                              _is_auto_generated prefix = Spec.placeholder prefix) ->
      r = Spec.displayName preferred (prefix_and_name q) (str subject)).
Proof.
  intros r preferred q.
  assert (preferred = None \/ preferred = Some "" ->
          r = match q with
              | Some (prefix, _, name) =>
                  if Py.truthy prefix then
                    if _is_auto_generated prefix then str subject
                    else prefix +:+ ":" +:+ name
                  else if Py.truthy name then ":" +:+ name else str subject
              | None => str subject
              end) as Hfall.
  { intros H. unfold r, _get_label_or_qname. fold preferred q.
    by destruct H as [-> | ->]. }
  repeat apply conj.
  - intros l Hl Hne. unfold r, _get_label_or_qname. fold preferred. rewrite Hl.
    by rewrite truthy_true.
  - intros H. apply Hfall in H. split.
    + intros Hq. by rewrite Hq in H.
    + intros prefix ns name Hq. rewrite Hq in H. cbv beta iota in H.
      repeat apply conj.
      * intros Hp Ha. by rewrite (truthy_true _ Hp), Ha in H.
      * intros Hp Ha. by rewrite (truthy_true _ Hp), Ha in H.
      * intros -> Hn. by rewrite (truthy_true _ Hn) in H.
      * intros -> ->. done.
  - apply is_auto_generated_spec.
  - intros Hne Hq Hauto.
    destruct preferred as [l|] eqn:Ep.
    + unfold r, _get_label_or_qname. fold preferred. rewrite Ep.
      rewrite truthy_true; [done|]. congruence.
    + rewrite Hfall by (by left). simpl.
      destruct q as [[[prefix ns] name]|] eqn:Eq; simpl; [|done].
      rewrite (Hauto prefix ns name) by done.
      destruct (Py.truthy prefix) eqn:Et.
      * done.
      * apply truthy_false in Et as ->. simpl.
        destruct (Py.truthy name) eqn:En; [done|].
        apply truthy_false in En as ->. by destruct (Hq ns).
Qed.

(** The specification's examples: a node without label under the
    prefix [ex] resolves to [ex:Animal], and to its raw URI under a
    generated prefix. *)
Lemma displayName_resolution_witness :
  _get_label_or_qname (__init__ Example.people) (Example.ex "Animal") = "ex:Animal"
  /\ _get_label_or_qname (__init__ Example.generated_prefix) (Example.ex "Animal")
     = "http://example.org/Animal".
Proof.
  split.
  - pose proof (displayName_resolution (__init__ Example.people) (Example.ex "Animal"))
      as (_ & H & _).
    destruct H as (_ & H); [by left|].
    destruct (H "ex" "http://example.org/" "Animal") as (_ & Hreal & _); [reflexivity|].
    apply Hreal; [discriminate|reflexivity].
  - pose proof (displayName_resolution (__init__ Example.generated_prefix)
                  (Example.ex "Animal")) as (_ & H & _).
    destruct H as (_ & H); [by left|].
    destruct (H "ns3" "http://example.org/" "Animal") as (Hgen & _); [reflexivity|].
    apply Hgen; [discriminate|reflexivity].
Defined.

(** C4, the claim as stated fails in two places: a label that is the
    empty string is there but is not returned, and the default prefix
    with an empty local name, as for an ontology whose URI is bound as
    the default namespace, gives the raw URI, not [":"]. *)
Lemma empty_label_and_empty_name :
  (let self := __init__ Example.empty_label in
   let thing := Example.ex "Thing" in
   _get_literal self thing [RDFS.label] = Some ""
   /\ compute_qname (graph self) thing = Some ("ex", "http://example.org/", "Thing")
   /\ _get_label_or_qname self thing = "ex:Thing"
   /\ Spec.displayName (Some "") (Some ("ex", "Thing")) (str thing) = "")
  /\ (let self := __init__ Example.default_namespace in
      let root := URIRef "http://example.org/onto" in
      _get_literal self root [RDFS.label] = None
      /\ compute_qname (graph self) root = Some ("", "http://example.org/onto", "")
      /\ _get_label_or_qname self root = "http://example.org/onto"
      /\ Spec.displayName None (Some ("", "")) (str root) = ":").
Proof. repeat split. Qed.

(** ** The assertions of an individual *)

Lemma anchor_not_in_namespace (u ns : string) :
  ns ∈ exclude_namespaces -> Py.startswith ("#" +:+ u) ns = false.
Proof.
  intros H. apply list_elem_of_In in H. simpl in H.
  destruct H as [<-|[<-|[<-|[<-|[]]]]]; reflexivity.
Qed.

Lemma existsb_false {A : Type} (f : A -> bool) (l : list A) (x : A) :
  existsb f l = false -> x ∈ l -> f x = false.
Proof.
  intros H Hx. apply list_elem_of_In in Hx.
  destruct (f x) eqn:E; [|done].
  assert (existsb f l = true) by (apply existsb_exists; eauto). congruence.
Qed.

Lemma assertion_of_spec (self : OntologyParser) (p o : node)
    (t : string * string * string * option string) :
  assertion_of self (p, o) = Some t ->
  t.1.1.2 = _resolve_url self (str p)
  /\ is_BNode o = false
  /\ p <> OWL.sameAs
  /\ (forall ns, ns ∈ exclude_namespaces -> Py.startswith (str p) ns = false).
Proof.
  unfold assertion_of.
  destruct (is_BNode o) eqn:Eb; [discriminate|].
  destruct (existsb (node_eqb p) exclude_props) eqn:Ep; [discriminate|].
  destruct (existsb _ exclude_namespaces) eqn:En; [discriminate|].
  destruct (if is_URIRef o then _ else _) as [obj_label obj_uri].
  intros [= <-]. repeat split.
  - intros ->. vm_compute in Ep. discriminate.
  - intros ns Hns. by apply (existsb_false _ _ ns En).
Qed.

(** C9. Every tuple of the assertions of a named individual comes
    from a predicate/object pair of that individual whose predicate is
    not [owl:sameAs] and does not lie in the namespaces of rdf, rdfs,
    dc or dcterms; the property URI the tuple shows is what
    [_resolve_url] gives for that predicate, and does not lie in these
    namespaces either. *)
Theorem assertions_exclude_reserved (self : OntologyParser) (i : Individual) :
  i ∈ get_named_individuals self ->
  forall prop_qname prop_uri obj_label obj_uri,
    (prop_qname, prop_uri, obj_label, obj_uri) ∈ assertions i ->
    (forall ns, ns ∈ [RDF.ns; RDFS.ns; DC.ns; DCTERMS.ns] ->
                Py.startswith prop_uri ns = false)
    /\ exists s p o,
         uri i = str s
         /\ (p, o) ∈ predicate_objects (graph self) s
         /\ prop_uri = _resolve_url self (str p)
         /\ p <> OWL.sameAs
         /\ (forall ns, ns ∈ [RDF.ns; RDFS.ns; DC.ns; DCTERMS.ns] ->
                        Py.startswith (str p) ns = false).
Proof.
  intros Hi prop_qname prop_uri obj_label obj_uri Ht.
  unfold get_named_individuals in Hi. apply sorted_elem in Hi.
  apply list_elem_of_fmap in Hi as (s & -> & _).
  assert (exists p o, (p, o) ∈ predicate_objects (graph self) s
                      /\ assertion_of self (p, o)
                         = Some (prop_qname, prop_uri, obj_label, obj_uri))
    as (p & o & Hpo & Ha).
  { unfold create_individual in Ht.
    destruct (_extract_preferred_and_others self s [RDFS.label]) as [pref others].
    cbn [assertions] in Ht. apply list_elem_of_omap in Ht as ([p o] & Hin & Ha).
    by exists p, o. }
  apply assertion_of_spec in Ha as (Hu & _ & Hsame & Hns). simpl in Hu.
  split.
  - intros ns Hin. rewrite Hu. unfold _resolve_url.
    destruct (decide _); [by apply anchor_not_in_namespace|by apply Hns].
  - exists s, p, o. repeat split; try done.
    unfold create_individual.
    by destruct (_extract_preferred_and_others self s [RDFS.label]).
Qed.

(** Of the four facts about [ex:john] only the [ex:knows] one is an
    assertion. *)
Lemma assertions_exclude_reserved_witness :
  assertions Example.john
  = [("ex:knows", "#http://example.org/knows", "http://other.org/mary",
      Some "http://other.org/mary")]
  /\ Py.startswith "#http://example.org/knows" RDFS.ns = false.
Proof.
  split; [reflexivity|].
  refine (proj1 (assertions_exclude_reserved (__init__ Example.people) Example.john _
                   "ex:knows" "#http://example.org/knows" "http://other.org/mary"
                   (Some "http://other.org/mary") _) RDFS.ns _).
  - apply list_elem_of_In. vm_compute. by left.
  - apply list_elem_of_In. vm_compute. by left.
  - apply list_elem_of_In. vm_compute. tauto.
Defined.

(** ** The Expression Decoder *)

Section Decoder.
Import OntologyProcessor.
Context (self : OntologyProcessor.t).
Let g := graph self.

Lemma decode_unfold (fuel depth : nat) (n : node) :
  _process_class_expression (S fuel) (S depth) self n
  = match restriction_loop g n restriction_types with
    | Some result => Done (Some result)
    | None =>
    match objects g n OWL.unionOf with
    | union_of :: _ =>
        members ← _process_list fuel depth self union_of; Done (Some (union members))
    | [] =>
    match objects g n OWL.intersectionOf with
    | intersection_of :: _ =>
        members ← _process_list fuel depth self intersection_of;
        Done (Some (intersection members))
    | [] =>
    match objects g n OWL.complementOf with
    | complement_of :: _ => Done (Some (complement (str complement_of)))
    | [] =>
    match objects g n OWL.oneOf with
    | one_of :: _ =>
        members ← _process_list fuel depth self one_of; Done (Some (enumeration members))
    | [] => Done None
    end end end end end.
Proof. reflexivity. Qed.

(** Beyond the recursion limit the call raises. *)
Lemma decode_limit (fuel : nat) (n : node) :
  _process_class_expression (S fuel) 0 self n = Raised.
Proof. reflexivity. Qed.

Lemma list_loop_unfold (fuel depth : nat) (current : option node) (members : list member) :
  list_loop (S fuel) depth self current members
  = match current with
    | None => Done members
    | Some cur =>
        if in_list cur then
          members' ← cell_members self fuel depth cur members;
          list_loop fuel depth self (head (objects g cur RDF.rest)) members'
        else Done members
    end.
Proof.
  destruct current as [cur|]; [|reflexivity].
  unfold in_list, cell_members. cbn [list_loop]. fold g.
  destruct (node_truthy cur && negb (node_eqb cur RDF.nil)); [|reflexivity].
  by destruct (objects g cur RDF.first) as [|[?|?|?] ?].
Qed.

(** More fuel does not change an outcome that was reached, a result or
    an exception. *)
Lemma decoder_more_fuel (fuel : nat) :
  forall fuel' depth, fuel <= fuel' ->
  (forall n, with_more_fuel (_process_class_expression fuel depth self n)
                            (_process_class_expression fuel' depth self n))
  /\ (forall cur ms, with_more_fuel (list_loop fuel depth self cur ms)
                                    (list_loop fuel' depth self cur ms)).
Proof.
  induction fuel as [|fuel IH]; intros fuel' depth Hle; [split; intros; by left|].
  destruct fuel' as [|fuel']; [lia|].
  assert (fuel <= fuel') as Hle' by lia.
  split.
  - intros n. destruct depth as [|depth]; [by right|].
    rewrite !decode_unfold. unfold _process_list.
    destruct (restriction_loop g n restriction_types); [by right|].
    destruct (objects g n OWL.unionOf) as [|h ?].
    2:{ apply more_fuel_bind; [by apply IH|]. intros a. by right. }
    destruct (objects g n OWL.intersectionOf) as [|h ?].
    2:{ apply more_fuel_bind; [by apply IH|]. intros a. by right. }
    destruct (objects g n OWL.complementOf); [|by right].
    destruct (objects g n OWL.oneOf) as [|h ?]; [by right|].
    apply more_fuel_bind; [by apply IH|]. intros a. by right.
  - intros cur ms. rewrite !list_loop_unfold.
    destruct cur as [cur|]; [|by right]. destruct (in_list cur); [|by right].
    apply more_fuel_bind; [|intros a; by apply IH].
    unfold cell_members.
    destruct (objects _ cur RDF.first) as [|[u|b|l] rest]; try by right.
    apply more_fuel_bind; [by apply IH|]. intros a. by right.
Qed.

Lemma decode_fuel_mono (fuel fuel' depth : nat) (n : node) (r : option expression) :
  _process_class_expression fuel depth self n = Done r -> fuel <= fuel' ->
  _process_class_expression fuel' depth self n = Done r.
Proof.
  intros H Hle. eapply more_fuel_Done; [|done]. by apply decoder_more_fuel.
Qed.

Lemma list_loop_fuel_mono (fuel fuel' depth : nat) (cur : option node) (ms r : list member) :
  list_loop fuel depth self cur ms = Done r -> fuel <= fuel' ->
  list_loop fuel' depth self cur ms = Done r.
Proof.
  intros H Hle. eapply more_fuel_Done; [|done]. by apply decoder_more_fuel.
Qed.

(** A higher recursion limit does not change a result. *)
Lemma decoder_depth_mono (fuel : nat) :
  forall depth depth', depth <= depth' ->
  (forall n r, _process_class_expression fuel depth self n = Done r ->
               _process_class_expression fuel depth' self n = Done r)
  /\ (forall cur ms r, list_loop fuel depth self cur ms = Done r ->
                       list_loop fuel depth' self cur ms = Done r).
Proof.
  induction fuel as [|fuel IH]; intros depth depth' Hle; [split; intros; discriminate|].
  split.
  - intros n r. destruct depth as [|depth]; [discriminate|].
    destruct depth' as [|depth']; [lia|].
    assert (depth <= depth') as Hle' by lia.
    rewrite !decode_unfold. unfold _process_list.
    assert (forall h (k : list member -> outcome (option expression)),
              list_loop fuel depth self (Some h) [] ≫= k = Done r ->
              list_loop fuel depth' self (Some h) [] ≫= k = Done r) as Hl.
    { intros h k. destruct (list_loop fuel depth self (Some h) []) as [ms| |] eqn:E;
        try discriminate.
      by rewrite (proj2 (IH _ _ Hle') _ _ _ E). }
    destruct (restriction_loop g n restriction_types); [done|].
    destruct (objects g n OWL.unionOf) as [|h ?]; [|apply Hl].
    destruct (objects g n OWL.intersectionOf) as [|h ?]; [|apply Hl].
    destruct (objects g n OWL.complementOf); [|done].
    destruct (objects g n OWL.oneOf) as [|h ?]; [done|apply Hl].
  - intros cur ms r. rewrite !list_loop_unfold.
    destruct cur as [cur|]; [|done]. destruct (in_list cur); [|done].
    destruct (cell_members self fuel depth cur ms) as [ms'| |] eqn:E; try discriminate.
    assert (cell_members self fuel depth' cur ms = Done ms') as ->.
    { unfold cell_members in *.
      destruct (objects _ cur RDF.first) as [|[u|b|l] rest]; try done.
      destruct (_process_class_expression fuel depth self (BNode b)) as [e| |] eqn:Ee;
        try discriminate.
      by rewrite (proj1 (IH _ _ Hle) _ _ Ee). }
    simpl. apply IH, Hle.
Qed.

(** A result stays with more fuel and a higher recursion limit. *)
Lemma decode_mono (fuel fuel' depth depth' : nat) (n : node) (r : option expression) :
  _process_class_expression fuel depth self n = Done r ->
  fuel <= fuel' -> depth <= depth' ->
  _process_class_expression fuel' depth' self n = Done r.
Proof.
  intros H Hf Hd. apply (decode_fuel_mono fuel); [|done].
  by apply (proj1 (decoder_depth_mono fuel depth depth' Hd)).
Qed.

Lemma list_loop_mono (fuel fuel' depth depth' : nat) (cur : option node)
    (ms r : list member) :
  list_loop fuel depth self cur ms = Done r ->
  fuel <= fuel' -> depth <= depth' ->
  list_loop fuel' depth' self cur ms = Done r.
Proof.
  intros H Hf Hd. apply (list_loop_fuel_mono fuel); [|done].
  by apply (proj2 (decoder_depth_mono fuel depth depth' Hd)).
Qed.

(** The loop over the kinds of restriction. *)
Lemma restriction_loop_first (n : node) (kinds pre post : list (node * string))
    (p : node) (kind : string) (v op : node) (vs ops : list node) :
  kinds = pre ++ (p, kind) :: post ->
  (forall pk, pk ∈ pre -> objects g n pk.1 = []) ->
  objects g n p = v :: vs ->
  objects g n OWL.onProperty = op :: ops ->
  restriction_loop g n kinds
  = Some (restriction kind (str op) (str v)
            (if Py.contains "qualified" kind
             then str <$> head (objects g n OWL.onClass) else None)).
Proof.
  intros -> Hpre Hv Hop. induction pre as [|[p' k'] pre IH]; simpl.
  - by rewrite Hv, Hop.
  - assert (objects g n p' = []) as -> by (apply (Hpre (p', k')); left).
    apply IH. intros pk Hpk. apply Hpre. by right.
Qed.


End Decoder.

(** ** Qualified cardinality *)

Lemma omap_filter_agree {A B : Type} (f : A -> option B) (keep : A -> bool) (l : list A) :
  (forall x, x ∈ l -> keep x = false -> f x = None) ->
  omap f (List.filter keep l) = omap f l.
Proof.
  induction l as [|x l IH]; intros H; simpl; [done|].
  assert (omap f (List.filter keep l) = omap f l) as IH'.
  { apply IH. intros y Hy. apply H. by right. }
  destruct (keep x) eqn:E.
  - change (omap f (x :: List.filter keep l)) with
      (match f x with Some y => y :: omap f (List.filter keep l)
                 | None => omap f (List.filter keep l) end).
    by rewrite IH'.
  - rewrite IH'. change (omap f (x :: l)) with
      (match f x with Some y => y :: omap f l | None => omap f l end).
    rewrite (H x); [done|left|done].
Qed.

Lemma removed_not_matched (q p' p : node) :
  is_URIRef q = true -> node_eqb q p = false ->
  negb (node_eqb p' q) = false -> node_eqb p' p = false.
Proof.
  destruct q as [x| |]; try discriminate. intros _ Hqp Hrem.
  apply negb_false_iff, node_eqb_URIRef in Hrem as ->. done.
Qed.

Lemma objects_without (q : node) (g : Graph) (s p : node) :
  is_URIRef q = true -> node_eqb q p = false ->
  objects (without_predicate q g) s p = objects g s p.
Proof.
  intros Hq Hqp. unfold objects, without_predicate. cbn [triples].
  apply omap_filter_agree. intros [[s' p'] o] _ Hrem. simpl in Hrem.
  by rewrite (removed_not_matched q p' p), andb_false_r.
Qed.

Lemma subjects_without (q : node) (g : Graph) (p o : node) :
  is_URIRef q = true -> node_eqb q p = false ->
  subjects (without_predicate q g) p o = subjects g p o.
Proof.
  intros Hq Hqp. unfold subjects, without_predicate. cbn [triples].
  apply omap_filter_agree. intros [[s' p'] o'] _ Hrem. simpl in Hrem.
  by rewrite (removed_not_matched q p' p).
Qed.

Lemma has_triple_without (q : node) (g : Graph) (s p o : node) :
  is_URIRef q = true -> node_eqb q p = false ->
  has_triple (without_predicate q g) s p o = has_triple g s p o.
Proof.
  intros Hq Hqp. unfold has_triple, without_predicate. cbn [triples].
  induction (triples g) as [|[[s' p'] o'] l IH]; simpl; [done|].
  destruct (negb (node_eqb p' q)) eqn:E; simpl; [by rewrite IH|].
  by rewrite IH, (removed_not_matched q p' p), andb_false_r.
Qed.

Section Agreement.
Context (self1 self2 : OntologyParser).
Hypothesis same_qname : compute_qname (graph self1) = compute_qname (graph self2).
Hypothesis same_defined : defined_resources self1 = defined_resources self2.
Hypothesis same_objects : forall s p,
  node_eqb OWL.onClass p = false -> objects (graph self1) s p = objects (graph self2) s p.
Hypothesis same_triples : forall s p o,
  node_eqb OWL.onClass p = false ->
  has_triple (graph self1) s p o = has_triple (graph self2) s p o.

Lemma value_agree (s p : node) :
  node_eqb OWL.onClass p = false -> value (graph self1) s p = value (graph self2) s p.
Proof. intros H. unfold value. by rewrite same_objects. Qed.

Lemma label_agree (n : node) :
  _extract_preferred_and_others self1 n [RDFS.label]
  = _extract_preferred_and_others self2 n [RDFS.label].
Proof.
  unfold _extract_preferred_and_others, candidates. simpl.
  by rewrite same_objects.
Qed.

Lemma label_or_qname_agree (n : node) :
  _get_label_or_qname self1 n = _get_label_or_qname self2 n.
Proof.
  unfold _get_label_or_qname, _get_literal. by rewrite label_agree, same_qname.
Qed.

Lemma resolve_url_agree (u : string) : _resolve_url self1 u = _resolve_url self2 u.
Proof. unfold _resolve_url. by rewrite same_defined. Qed.

Lemma create_element_agree (n : node) (ty : option string) :
  _create_element self1 n ty = _create_element self2 n ty.
Proof.
  unfold _create_element.
  by rewrite label_agree, label_or_qname_agree, resolve_url_agree.
Qed.

Lemma named_target_agree (n : node) : named_target self1 n = named_target self2 n.
Proof.
  unfold named_target, _get_literal. by rewrite label_agree, same_qname.
Qed.

Lemma targets_agree (fuel : nat) :
  forall depth,
  (forall n, _get_elements_from_target fuel depth self1 n
             = _get_elements_from_target fuel depth self2 n)
  /\ (forall cur els, union_loop fuel depth self1 cur els = union_loop fuel depth self2 cur els).
Proof.
  induction fuel as [|fuel IH]; intros depth; [done|]. split.
  - intros n. cbn [_get_elements_from_target].
    destruct depth as [|depth]; [done|].
    rewrite value_agree by done. rewrite named_target_agree.
    destruct (is_BNode n); [|done].
    destruct (value (graph self2) n OWL.unionOf) as [u|]; [|done].
    by rewrite (proj2 (IH depth)).
  - intros cur els. cbn [union_loop].
    destruct (IH depth) as [IHt IHl].
    rewrite !value_agree by done.
    destruct (node_eqb cur RDF.nil); [done|].
    destruct (value (graph self2) cur RDF.first) as [f|]; simpl.
    + destruct (node_truthy f); simpl.
      * rewrite IHt. destruct (_get_elements_from_target fuel depth self2 f); simpl; try done.
        destruct (value (graph self2) cur RDF.rest) as [nx|]; [|done].
        by rewrite IHl.
      * destruct (value (graph self2) cur RDF.rest) as [nx|]; [|done].
        by rewrite IHl.
    + destruct (value (graph self2) cur RDF.rest) as [nx|]; [|done].
      by rewrite IHl.
Qed.

Lemma parse_restriction_agree (fuel depth : nat) (n : node) :
  _parse_restriction fuel depth self1 n = _parse_restriction fuel depth self2 n.
Proof.
  unfold _parse_restriction.
  rewrite !value_agree by done.
  destruct (if_truthy (value (graph self2) n OWL.onProperty)) as [op|]; [|done].
  rewrite !same_triples by done. rewrite !create_element_agree.
  destruct (if_truthy (value (graph self2) n OWL.someValuesFrom)) as [sv|];
    [by rewrite (proj1 (targets_agree fuel depth))|].
  destruct (if_truthy (value (graph self2) n OWL.allValuesFrom)) as [av|];
    [by rewrite (proj1 (targets_agree fuel depth))|].
  done.
Qed.

End Agreement.

Lemma init_without_defined (g : Graph) :
  defined_resources (__init__ (without_predicate OWL.onClass g))
  = defined_resources (__init__ g).
Proof.
  unfold __init__, defining_types. cbn [defined_resources foldl].
  by rewrite !subjects_without.
Qed.

Lemma if_truthy_or_else (a b : option node) :
  if_truthy a = None -> if_truthy (py_or a b) = if_truthy b.
Proof.
  unfold py_or, opt_truthy, if_truthy. destruct a as [x|]; [|done].
  by destruct (node_truthy x).
Qed.

(** C3, as amended. In the dictionary-based decoder, a node that has
    an [onProperty] and whose first restriction predicate, in the
    decoder's order, is a qualified-cardinality one decodes to a
    restriction of that kind with the property and the cardinality,
    and with [on_class] set to the first [owl:onClass] object when the
    node has one and left out otherwise. In the typed parser, a node
    with a truthy [onProperty], without truthy [someValuesFrom],
    [allValuesFrom] and [hasValue], and whose first truthy cardinality
    is a qualified one gives the [Restriction] that holds the element
    of the property, the kind ["min"], ["max"] or ["exactly"] and the
    string of the cardinality as its amount, and nothing else; the
    [Restriction] that [_parse_restriction] builds is the same with
    and without the [owl:onClass] triples of the graph. *)
Theorem qualified_cardinality_decoding :
  (forall (self : OntologyProcessor.t) (n : node) (fuel depth : nat)
          pre p kind post v vs op ops,
     let g := OntologyProcessor.graph self in
     OntologyProcessor.restriction_types = pre ++ (p, kind) :: post ->
     Py.contains "qualified" kind = true ->
     (forall pk, pk ∈ pre -> objects g n pk.1 = []) ->
     objects g n p = v :: vs ->
     objects g n OWL.onProperty = op :: ops ->
     OntologyProcessor._process_class_expression (S fuel) (S depth) self n
     = Done (Some (OntologyProcessor.restriction kind (str op) (str v)
                     (str <$> head (objects g n OWL.onClass)))))
  /\ (forall (self : OntologyParser) (n : node) (fuel depth : nat) (p : node),
        let g := graph self in
        let absent q := if_truthy (value g n q) = None in
        let result kind v :=
          Done (Some (mkRestriction (restricted_property self p) kind (Some (str v))
                        [] None)) in
        if_truthy (value g n OWL.onProperty) = Some p ->
        absent OWL.someValuesFrom -> absent OWL.allValuesFrom -> absent OWL.hasValue ->
        absent OWL.minCardinality ->
        (forall v, if_truthy (value g n OWL.minQualifiedCardinality) = Some v ->
                   _parse_restriction fuel depth self n = result "min" v)
        /\ (absent OWL.minQualifiedCardinality -> absent OWL.maxCardinality ->
            (forall v, if_truthy (value g n OWL.maxQualifiedCardinality) = Some v ->
                       _parse_restriction fuel depth self n = result "max" v)
            /\ (absent OWL.maxQualifiedCardinality -> absent OWL.cardinality ->
                forall v, if_truthy (value g n OWL.qualifiedCardinality) = Some v ->
                          _parse_restriction fuel depth self n = result "exactly" v)))
  /\ (forall (g : Graph) (fuel depth : nat) (n : node),
        _parse_restriction fuel depth (__init__ (without_predicate OWL.onClass g)) n
        = _parse_restriction fuel depth (__init__ g) n).
Proof.
  repeat apply conj.
  - intros self n fuel depth pre p kind post v vs op ops g Hk Hq Hpre Hv Hop.
    rewrite decode_unfold.
    rewrite (restriction_loop_first self n _ pre post p kind v op vs ops Hk Hpre Hv Hop).
    by rewrite Hq.
  - intros self n fuel depth p g absent result Hp Hsome Hall Hhas Hmin.
    subst absent result g. cbv beta in *.
    unfold _parse_restriction, restricted_property. cbv zeta.
    rewrite Hp, Hsome, Hall, Hhas. rewrite (if_truthy_or_else _ _ Hmin).
    split; [by intros v ->|]. intros Hminq Hmax. rewrite Hminq.
    rewrite (if_truthy_or_else _ _ Hmax).
    split; [by intros v ->|]. intros Hmaxq Hcard. rewrite Hmaxq.
    rewrite (if_truthy_or_else _ _ Hcard). by intros v ->.
  - intros g fuel depth n. apply parse_restriction_agree.
    + done.
    + apply init_without_defined.
    + intros s p Hp. by apply objects_without.
    + intros s p o Hp. by apply has_triple_without.
Qed.

(** A node with [onProperty], a minimum qualified cardinality and an
    [onClass]: the decoder records the class, the parser the property,
    the kind and the amount. *)
Lemma qualified_cardinality_decoding_witness :
  OntologyProcessor._process_class_expression 1 1 Example.processor (BNode "q")
  = Done (Some (OntologyProcessor.restriction "min_qualified" "http://example.org/knows"
                  "1" (Some "http://example.org/Person")))
  /\ _parse_restriction 0 0 (__init__ (Example.qualified "Person")) (BNode "r1")
     = Done (Some (mkRestriction
                     (mkElement "http://example.org/knows" (Some "ex:knows") None None
                        None (Some "op") (Some "http://example.org/knows") [])
                     "min" (Some "1") [] None)).
Proof.
  split.
  - pose proof qualified_cardinality_decoding as (H & _).
    apply (H Example.processor (BNode "q") 0 0
             (take 6 OntologyProcessor.restriction_types)
             OWL.minQualifiedCardinality "min_qualified"
             (drop 7 OntologyProcessor.restriction_types)
             Example.one [] (Example.ex "knows") []); try reflexivity.
    intros pk Hpk. apply list_elem_of_In in Hpk. simpl in Hpk.
    destruct Hpk as [<-|[<-|[<-|[<-|[<-|[<-|[]]]]]]]; reflexivity.
  - pose proof qualified_cardinality_decoding as (_ & H & _).
    pose proof (H (__init__ (Example.qualified "Person")) (BNode "r1") 0 0
                  (Example.ex "knows") eq_refl eq_refl eq_refl eq_refl eq_refl)
      as (Hmin & _).
    rewrite (Hmin Example.one); reflexivity.
Defined.

(** C3, the claim as stated fails. In the decoder, a node that also
    carries [someValuesFrom] decodes to that restriction, without the
    cardinality and without the class, and a node without [onClass]
    has no class to record. In the parser, the restriction of a
    well-formed node is the same whatever class [owl:onClass] names:
    it holds the property, the kind ["min"] and the amount. *)
Lemma qualifying_class_not_recorded :
  OntologyProcessor._process_class_expression 1 1 Example.processor (BNode "mixed")
  = Done (Some (OntologyProcessor.restriction "some" "http://example.org/knows"
                  "http://example.org/A" None))
  /\ OntologyProcessor._process_class_expression 1 1 Example.processor (BNode "q0")
     = Done (Some (OntologyProcessor.restriction "max_qualified"
                     "http://example.org/knows" "1" None))
  /\ _parse_restriction 1 1 (__init__ (Example.qualified "Person")) (BNode "r1")
     = Done (Some (mkRestriction
                     (mkElement "http://example.org/knows" (Some "ex:knows") None None
                                None (Some "op") (Some "http://example.org/knows") [])
                     "min" (Some "1") [] None))
  /\ _parse_restriction 1 1 (__init__ (Example.qualified "Animal")) (BNode "r1")
     = _parse_restriction 1 1 (__init__ (Example.qualified "Person")) (BNode "r1").
Proof. repeat apply conj; vm_compute; reflexivity. Qed.

(** ** Termination of the list traversals *)


Section DecoderTermination.
Import OntologyProcessor.
Context (self : OntologyProcessor.t).
Let g := graph self.

Lemma cell_members_mono (fuel fuel' depth depth' : nat) (cur : node) (ms r : list member) :
  cell_members self fuel depth cur ms = Done r -> fuel <= fuel' -> depth <= depth' ->
  cell_members self fuel' depth' cur ms = Done r.
Proof.
  intros H Hf Hd. unfold cell_members in *.
  destruct (objects _ cur RDF.first) as [|[u|b|l] rest]; try done.
  destruct (_process_class_expression fuel depth self (BNode b)) as [e| |] eqn:E;
    try discriminate.
  by rewrite (decode_mono self _ fuel' _ depth' _ _ E Hf Hd).
Qed.


Lemma decode_without_list (n : node) :
  decoded_list g n = None ->
  exists e, forall fuel depth, _process_class_expression (S fuel) (S depth) self n = Done e.
Proof.
  unfold decoded_list. intros H.
  destruct (restriction_loop g n restriction_types) as [res|] eqn:Er.
  { exists (Some res). intros fuel depth. rewrite decode_unfold. fold g. by rewrite Er. }
  destruct (objects g n OWL.unionOf) as [|u us] eqn:Eu; [|discriminate].
  destruct (objects g n OWL.intersectionOf) as [|i rest] eqn:Ei; [|discriminate].
  destruct (objects g n OWL.complementOf) as [|c cs] eqn:Ec.
  - destruct (objects g n OWL.oneOf) as [|o os] eqn:Eo; [|discriminate].
    exists None. intros fuel depth. rewrite decode_unfold. fold g.
    by rewrite Er, Eu, Ei, Ec, Eo.
  - exists (Some (complement (str c))). intros fuel depth. rewrite decode_unfold. fold g.
    by rewrite Er, Eu, Ei, Ec.
Qed.

Lemma decode_with_list (n h : node) :
  decoded_list g n = Some h ->
  exists wrap : list member -> expression,
    forall fuel depth,
      _process_class_expression (S fuel) (S depth) self n
      = (ms ← _process_list fuel depth self h; Done (Some (wrap ms))).
Proof.
  unfold decoded_list. intros H.
  destruct (restriction_loop g n restriction_types) as [res|] eqn:Er; [discriminate|].
  destruct (objects g n OWL.unionOf) as [|u us] eqn:Eu.
  2:{ injection H as ->. exists union. intros fuel depth. rewrite decode_unfold. fold g.
      by rewrite Er, Eu. }
  destruct (objects g n OWL.intersectionOf) as [|i rest] eqn:Ei.
  2:{ injection H as ->. exists intersection. intros fuel depth. rewrite decode_unfold.
      fold g. by rewrite Er, Eu, Ei. }
  destruct (objects g n OWL.complementOf) as [|c cs] eqn:Ec; [|discriminate].
  destruct (objects g n OWL.oneOf) as [|o os] eqn:Eo; [discriminate|].
  injection H as ->. exists enumeration. intros fuel depth. rewrite decode_unfold. fold g.
  by rewrite Er, Eu, Ei, Ec, Eo.
Qed.

(** A list that ends is walked to its result when the fuel and the
    recursion limit suffice. *)
Lemma list_ends_terminates (cur : option node) :
  list_ends self cur ->
  forall ms, exists fuel depth r, list_loop fuel depth self cur ms = Done r.
Proof.
  induction 1 as [|cur Hout|cur Hin Hmem IHmem Hrest IHrest]; intros ms.
  - by exists 1, 0, ms.
  - exists 1, 0, ms. rewrite list_loop_unfold. by rewrite Hout.
  - assert (exists f1 d1 ms', cell_members self f1 d1 cur ms = Done ms')
      as (f1 & d1 & ms' & Hcell).
    { unfold cell_members.
      destruct (objects (graph self) cur RDF.first) as [|[u|b|l] rest] eqn:Ef;
        [by exists 0, 0, ms|by exists 0, 0; eexists| |by exists 0, 0; eexists].
      destruct (decoded_list g (BNode b)) as [h|] eqn:Ed.
      - destruct (IHmem b rest h eq_refl Ed []) as (fh & dh & r & Hr).
        destruct (decode_with_list _ _ Ed) as (wrap & Hw).
        exists (S fh), (S dh). rewrite Hw. unfold _process_list. rewrite Hr. simpl.
        by eexists.
      - destruct (decode_without_list _ Ed) as (e & He).
        exists 1, 1. rewrite He. destruct e; simpl; by eexists. }
    destruct (IHrest ms') as (f2 & d2 & r & Hr).
    exists (S (max f1 f2)), (max d1 d2), r. rewrite list_loop_unfold, Hin.
    rewrite (cell_members_mono _ (max f1 f2) _ (max d1 d2) _ _ _ Hcell) by lia. simpl.
    apply (list_loop_mono self f2 _ d2); [done|lia|lia].
Qed.



End DecoderTermination.

Section TargetTermination.
Context (self : OntologyParser).
Let g := graph self.

(** What one cell of a [unionOf] list contributes to the elements. *)
Lemma target_unfold (fuel depth : nat) (n : node) :
  _get_elements_from_target (S fuel) (S depth) self n
  = match target_list g n with
    | Some union => union_loop fuel depth self union []
    | None =>
        if is_BNode n then Done [Element_ (str n) (Some "Anonymous") (Some "c")]
        else Done [named_target self n]
    end.
Proof.
  unfold target_list, if_truthy. cbn [_get_elements_from_target]. fold g.
  destruct (is_BNode n); [|done].
  destruct (value g n OWL.unionOf) as [u|]; [|done]. by destruct (node_truthy u).
Qed.

(** Beyond the recursion limit the call raises. *)
Lemma target_limit (fuel : nat) (n : node) :
  _get_elements_from_target (S fuel) 0 self n = Raised.
Proof. reflexivity. Qed.

Lemma union_loop_unfold (fuel depth : nat) (cur : node) (els : list Element) :
  union_loop (S fuel) depth self cur els
  = if node_eqb cur RDF.nil then Done els
    else
      els' ← match if_truthy (value g cur RDF.first) with
             | Some f => r ← _get_elements_from_target fuel depth self f; Done (els ++ r)
             | None => Done els
             end;
      match if_truthy (value g cur RDF.rest) with
      | Some next => union_loop fuel depth self next els'
      | None => Done els'
      end.
Proof.
  unfold if_truthy. cbn [union_loop]. fold g.
  destruct (node_eqb cur RDF.nil); [done|].
  assert (forall els' : list Element,
            match value g cur RDF.rest with
            | Some next =>
                if node_truthy next then union_loop fuel depth self next els' else Done els'
            | None => Done els'
            end
            = match match value g cur RDF.rest with
                    | Some x => if node_truthy x then Some x else None
                    | None => None
                    end with
              | Some next => union_loop fuel depth self next els'
              | None => Done els'
              end) as Hrest.
  { intros els'. destruct (value g cur RDF.rest) as [nx|]; [|done].
    by destruct (node_truthy nx). }
  destruct (value g cur RDF.first) as [f|]; simpl.
  - destruct (node_truthy f); simpl.
    + destruct (_get_elements_from_target fuel depth self f); simpl; first [done|apply Hrest].
    + apply Hrest.
  - apply Hrest.
Qed.












(** The targets of a restriction are bare elements: unlike the
    references that [_create_element] builds, they carry no [url]. *)
Lemma targets_without_url (fuel : nat) :
  forall depth,
  (forall n els, _get_elements_from_target fuel depth self n = Done els ->
                 Forall (fun e => url e = None) els)
  /\ (forall cur acc els,
        Forall (fun e => url e = None) acc ->
        union_loop fuel depth self cur acc = Done els ->
        Forall (fun e => url e = None) els).
Proof.
  induction fuel as [|fuel IH]; intros depth; [split; intros; discriminate|]. split.
  - intros n els. destruct depth as [|depth]; [discriminate|]. rewrite target_unfold.
    destruct (target_list g n) as [u|].
    + by apply IH.
    + destruct (is_BNode n); intros [= <-]; by repeat constructor.
  - intros cur acc els Hacc. rewrite union_loop_unfold.
    destruct (IH depth) as [IHt IHl].
    destruct (node_eqb cur RDF.nil); [by intros [= <-]|].
    destruct (if_truthy (value g cur RDF.first)) as [f|]; simpl.
    + destruct (_get_elements_from_target fuel depth self f) as [r| |] eqn:Er; simpl;
        try discriminate.
      assert (Forall (fun e => url e = None) (acc ++ r)) as Hacc'.
      { apply Forall_app. split; [done|]. by apply (IHt f). }
      destruct (if_truthy (value g cur RDF.rest)) as [nx|]; [by apply IHl|].
      by intros [= <-].
    + destruct (if_truthy (value g cur RDF.rest)) as [nx|]; [by apply IHl|].
      by intros [= <-].
Qed.

End TargetTermination.

Lemma list_ends_returns (self : OntologyProcessor.t) (cur : option node)
    (ms : list OntologyProcessor.member) :
  list_ends self cur ->
  exists bound r, forall fuel depth, bound <= fuel -> bound <= depth ->
    OntologyProcessor.list_loop fuel depth self cur ms = Done r.
Proof.
  intros H. destruct (list_ends_terminates self _ H ms) as (f & d & r & Hr).
  exists (max f d), r. intros fuel depth Hf Hd.
  apply (list_loop_mono self f _ d); [done|lia|lia].
Qed.













(** ** The entity listings *)

Lemma for_each_fuel {A S : Type} (body : nat -> nat -> S -> A -> outcome S) (l : list A) :
  (forall x, x ∈ l ->
     forall acc, exists bound acc',
       forall fuel depth, bound <= fuel -> bound <= depth ->
                          body fuel depth acc x = Done acc') ->
  forall acc, exists bound r,
    forall fuel depth, bound <= fuel -> bound <= depth ->
                       for_each (body fuel depth) l acc = Done r.
Proof.
  induction l as [|x l IH]; intros H acc; [by exists 0, acc|].
  destruct (H x ltac:(left) acc) as (f1 & acc' & H1).
  destruct (IH (fun y Hy => H y ltac:(by right)) acc') as (f2 & r & H2).
  exists (max f1 f2), r. intros fuel depth Hf Hd. simpl.
  rewrite H1 by lia. simpl. apply H2; lia.
Qed.




Lemma leb_trans (a b c : string) :
  String.leb a b = true -> String.leb b c = true -> String.leb a c = true.
Proof.
  unfold String.leb.
  assert (forall x y, (match String.compare x y with Gt => false | _ => true end) = true
                      <-> x = y \/ String_as_OT.lt x y) as Hle.
  { intros x y. destruct (String.compare x y) eqn:E.
    - apply String_as_OT.cmp_eq in E. tauto.
    - apply String_as_OT.cmp_lt in E. tauto.
    - split; [done|]. intros [->|Hlt].
      + assert (String.compare y y = Eq) as Hyy by (by apply String_as_OT.cmp_eq).
        congruence.
      + apply String_as_OT.cmp_lt in Hlt. unfold String_as_OT.cmp in Hlt. congruence. }
  rewrite !Hle. intros [->|Hab] [->|Hbc]; try tauto.
  right. by apply (String_as_OT.lt_trans a b c).
Qed.

Lemma sorted_StronglySorted {A : Type} (key : A -> string) (l : list A) :
  StronglySorted (key_le key) (sorted key l).
Proof.
  apply Sorted_StronglySorted; [|apply sorted_Sorted].
  intros a b c. unfold key_le. apply leb_trans.
Qed.

Lemma value_elem (g : Graph) (s p o : node) :
  value g s p = Some o ->
  exists s' p', (s', p', o) ∈ triples g /\ node_eqb s' s = true /\ node_eqb p' p = true.
Proof.
  unfold value, objects. intros H.
  assert (o ∈ omap (fun t : triple =>
                      let '(s', p', o) := t in
                      if node_eqb s' s && node_eqb p' p then Some o else None)
                   (triples g)) as Hin.
  { destruct (omap _ _) as [|x l]; [discriminate|]. injection H as ->. left. }
  apply list_elem_of_omap in Hin as ([[s' p'] o'] & Hin & Ho).
  destruct (node_eqb s' s) eqn:Es, (node_eqb p' p) eqn:Ep; try discriminate.
  injection Ho as ->. by exists s', p'.
Qed.



(** ** Dictionaries *)

Section Dict.
Context {V : Type}.
Implicit Types (d : dict.t V) (k : string) (v : V).

Lemma dict_get_None d k : dict.get d k = None <-> k ∉ map fst d.
Proof.
  induction d as [|[k' v'] d IH]; simpl.
  - split; [intros _ H; by apply elem_of_nil in H|done].
  - destruct (String.eqb_spec k' k) as [->|Hne].
    + split; [done|]. intros H. destruct H. left.
    + rewrite IH. rewrite not_elem_of_cons.
      split; [intros H; split; [congruence|done]|by intros [_ H]].
Qed.

Lemma dict_get_elem d k v : dict.wf d -> dict.get d k = Some v <-> (k, v) ∈ d.
Proof.
  unfold dict.wf. induction d as [|[k' v'] d IH]; simpl; intros Hwf.
  - split; [done|]. intros H. by apply elem_of_nil in H.
  - apply NoDup_cons in Hwf as [Hk' Hwf].
    destruct (String.eqb_spec k' k) as [->|Hne].
    + split.
      * intros [= ->]. left.
      * intros [[= ->]|Hin]%elem_of_cons; [done|].
        destruct Hk'. apply list_elem_of_fmap. by exists (k, v).
    + rewrite (IH Hwf). rewrite elem_of_cons.
      split; [by right|]. intros [[= -> ->]|H]; [done|done].
Qed.

Lemma dict_set_new d k v : dict.get d k = None -> dict.set d k v = d ++ [(k, v)].
Proof.
  induction d as [|[k' v'] d IH]; simpl; [done|].
  destruct (String.eqb_spec k' k) as [->|Hne]; [done|].
  intros H. by rewrite IH.
Qed.

Lemma dict_set_old d k v v0 :
  dict.get d k = Some v0 ->
  exists d1 d2, d = d1 ++ (k, v0) :: d2 /\ dict.set d k v = d1 ++ (k, v) :: d2.
Proof.
  induction d as [|[k' v'] d IH]; simpl; [done|].
  destruct (String.eqb_spec k' k) as [->|Hne].
  - intros [= ->]. by exists [], d.
  - intros H. destruct (IH H) as (d1 & d2 & -> & ->).
    by exists ((k', v') :: d1), d2.
Qed.

Lemma dict_set_keys d k v :
  map fst (dict.set d k v)
  = if decide (k ∈ map fst d) then map fst d else map fst d ++ [k].
Proof.
  destruct (dict.get d k) as [v0|] eqn:E.
  - destruct (dict_set_old d k v v0 E) as (d1 & d2 & -> & ->).
    rewrite decide_True; [by rewrite !map_app|].
    rewrite map_app. apply elem_of_app. right. left.
  - rewrite (dict_set_new d k v E), map_app. rewrite decide_False; [done|].
    by apply dict_get_None.
Qed.

Lemma dict_set_wf d k v : dict.wf d -> dict.wf (dict.set d k v).
Proof.
  unfold dict.wf. rewrite dict_set_keys. intros H.
  destruct (decide _) as [|Hn]; [done|].
  apply NoDup_app. repeat split; [done| |apply NoDup_singleton].
  intros x Hx [->|[]%elem_of_nil]%elem_of_cons. done.
Qed.

Lemma dict_update_wf d other : dict.wf d -> dict.wf (dict.update d other).
Proof.
  unfold dict.update. revert d. induction other as [|[k v] other IH]; intros d H; [done|].
  simpl. apply IH. by apply dict_set_wf.
Qed.

End Dict.

(** ** The Uniqueness Resolver *)

Section Grouping.
Import HTMLGenerator.
Implicit Types (groups : dict.t (list (string * entity_data)))
               (ue : string * entity_data).

Lemma add_to_group_grouped seen groups ue :
  grouped seen groups -> grouped (seen ++ [ue]) (add_to_group groups ue).
Proof.
  intros (Hperm & Hall & Hwf). unfold add_to_group. fold (group_key ue).
  destruct (dict.get groups (group_key ue)) as [grp|] eqn:E.
  - destruct (dict_set_old groups _ (grp ++ [ue]) grp E) as (d1 & d2 & Hg & ->).
    subst groups. repeat split.
    + rewrite flat_map_app in *. simpl in *. rewrite <- Hperm.
      rewrite <- !app_assoc. do 2 apply Permutation_app_head.
      apply Permutation_cons_append.
    + apply Forall_app in Hall as [H1 H2]. apply Forall_cons in H2 as [[Hne Hk] H2].
      apply Forall_app. split; [done|]. apply Forall_cons. split; [|done].
      simpl in *. split; [by destruct grp|].
      intros x [Hx|Hx]%elem_of_app; [by apply Hk|].
      by apply list_elem_of_singleton in Hx as ->.
    + unfold dict.wf in *. by rewrite map_app in *.
  - rewrite (dict_set_new groups _ [ue] E). repeat split.
    + rewrite flat_map_app. simpl. by rewrite Hperm.
    + apply Forall_app. split; [done|]. apply Forall_singleton. simpl.
      split; [done|]. by intros x ->%list_elem_of_singleton.
    + unfold dict.wf in *. rewrite map_app. simpl.
      apply NoDup_app. repeat split; [done| |apply NoDup_singleton].
      intros x Hx ->%list_elem_of_singleton. by apply dict_get_None in E.
Qed.

Lemma name_groups_grouped (all_entities : dict.t entity_data) :
  grouped all_entities (name_groups_of all_entities).
Proof.
  unfold name_groups_of.
  assert (forall rest seen groups,
            grouped seen groups ->
            grouped (seen ++ rest) (foldl add_to_group groups rest)) as Hgen.
  { induction rest as [|ue rest IH]; intros seen groups H; simpl.
    - by rewrite app_nil_r.
    - replace (seen ++ ue :: rest) with ((seen ++ [ue]) ++ rest)
        by (by rewrite <- app_assoc).
      apply IH. by apply add_to_group_grouped. }
  apply (Hgen all_entities [] []). repeat split; [done|constructor|constructor].
Qed.

End Grouping.

Section Labelling.
Import HTMLGenerator.
Context (namespaces : dict.t string).

Lemma foldl_assign_map (f : string * entity_data -> string)
    (l : list (string * entity_data)) (m : gmap string string) :
  foldl (fun m (ue : string * entity_data) => <[ue.1 := f ue]> m) m l
  = foldl assign m (map (fun ue => (ue.1, f ue)) l).
Proof.
  revert m. induction l as [|x l IH]; intros m; simpl; [done|]. by rewrite IH.
Qed.

Lemma label_group_assign (m : gmap string string) (ms : list (string * entity_data)) :
  label_group namespaces m ms
  = foldl assign m (map (fun ue => (ue.1, group_label namespaces ms ue)) ms).
Proof.
  destruct ms as [|[u e] [|y ms]]; [reflexivity|reflexivity|].
  unfold label_group.
  apply (foldl_assign_map (fun ue => conflict_label namespaces ue.1 ue.2)).
Qed.

Lemma labels_assignments (m : gmap string string)
    (groups : dict.t (list (string * entity_data))) :
  foldl (fun m (group : string * list (string * entity_data)) =>
           label_group namespaces m group.2) m groups
  = foldl assign m (assignments namespaces groups).
Proof.
  revert m. induction groups as [|g groups IH]; intros m; simpl; [done|].
  unfold assignments in *. simpl. by rewrite foldl_app, IH, label_group_assign.
Qed.

Lemma assignments_keys (groups : dict.t (list (string * entity_data))) :
  map fst (assignments namespaces groups) = map fst (flat_map snd groups).
Proof.
  unfold assignments. induction groups as [|g groups IH]; simpl; [done|].
  rewrite !map_app, IH. f_equal. by rewrite map_map.
Qed.

Lemma foldl_assign_lookup (l : list (string * string)) (m : gmap string string)
    (u v : string) :
  NoDup (map fst l) -> (forall k, k ∈ map fst l -> m !! k = None) ->
  foldl assign m l !! u = Some v <-> (u, v) ∈ l \/ m !! u = Some v.
Proof.
  revert m. induction l as [|[k x] l IH]; intros m Hnd Hfresh; simpl.
  - split; [by right|]. intros [H|H]; [by apply elem_of_nil in H|done].
  - simpl in Hnd. apply NoDup_cons in Hnd as [Hk Hnd]. rewrite IH; [|done|].
    + unfold assign. simpl. rewrite lookup_insert. destruct (decide (k = u)) as [->|Hne].
      * split.
        -- intros [H|[= ->]]; [|left; left].
           destruct Hk. apply list_elem_of_fmap. by exists (u, v).
        -- intros [[[= ->]|H]%elem_of_cons|H].
           ++ by right.
           ++ destruct Hk. apply list_elem_of_fmap. by exists (u, v).
           ++ rewrite (Hfresh u) in H; [done|left].
      * rewrite elem_of_cons. split.
        -- intros [H|H]; [left; by right|by right].
        -- intros [[[= -> ->]|H]|H]; [done|by left|by right].
    + intros k' Hk'. unfold assign. simpl. rewrite lookup_insert_ne.
      * apply Hfresh. by right.
      * intros ->. done.
Qed.

End Labelling.

Lemma elem_of_flat_map {A B : Type} (f : A -> list B) (l : list A) (y : B) :
  y ∈ flat_map f l <-> exists x, x ∈ l /\ y ∈ f x.
Proof.
  rewrite list_elem_of_In, in_flat_map. split.
  - intros (x & Hx & Hy). exists x. by rewrite !list_elem_of_In.
  - intros (x & Hx & Hy). exists x. by rewrite <- !list_elem_of_In.
Qed.

Lemma NoDup_flat_map_part {A B : Type} (f : A -> list B) (l : list A) (x : A) :
  NoDup (flat_map f l) -> x ∈ l -> NoDup (f x).
Proof.
  induction l as [|a l IH]; simpl; intros Hnd Hx; [by apply elem_of_nil in Hx|].
  apply NoDup_app in Hnd as (Ha & _ & Hl).
  apply elem_of_cons in Hx as [->|Hx]; [done|by apply IH].
Qed.

Section UniqueLabels.
Import HTMLGenerator.
Context (classes properties individuals : dict.t entity_data) (namespaces : dict.t string).
Let all_entities : dict.t entity_data :=
  dict.update (dict.update (dict.update [] classes) properties) individuals.
Let unique_labels := _generate_unique_labels classes properties individuals namespaces.

Lemma all_entities_wf : dict.wf all_entities.
Proof. repeat apply dict_update_wf. apply NoDup_nil_2. Qed.

Lemma unique_label_of_group (uri : string) (e : entity_data) :
  dict.get all_entities uri = Some e ->
  exists ms,
    (uri, e) ∈ ms /\ NoDup ms
    /\ (forall ue, ue ∈ ms <-> ue ∈ all_entities /\ group_key ue = group_key (uri, e))
    /\ unique_labels !! uri = Some (group_label namespaces ms (uri, e)).
Proof.
  intros Hget. pose proof all_entities_wf as Hwf.
  apply (dict_get_elem _ _ _ Hwf) in Hget.
  pose proof (name_groups_grouped all_entities) as (Hperm & Hall & Hgwf).
  assert (NoDup (flat_map snd (name_groups_of all_entities))) as Hnd.
  { rewrite Hperm. by apply (NoDup_fmap_1 fst). }
  assert ((uri, e) ∈ flat_map snd (name_groups_of all_entities)) as Hin
    by (by rewrite Hperm).
  apply elem_of_flat_map in Hin as ([k ms] & Hg & Hms). simpl in Hms.
  assert (forall ue, ue ∈ ms -> group_key ue = k) as Hkey.
  { rewrite Forall_forall in Hall. apply (Hall (k, ms) Hg). }
  exists ms. repeat split.
  - done.
  - by apply (NoDup_flat_map_part snd (name_groups_of all_entities) (k, ms)).
  - rewrite <- Hperm. apply elem_of_flat_map. by exists (k, ms).
  - rewrite (Hkey ue), (Hkey (uri, e)); done.
  - intros (Hue & Hk). rewrite <- Hperm in Hue.
    apply elem_of_flat_map in Hue as ([k' ms'] & Hg' & Hms'). simpl in Hms'.
    assert (k' = k) as ->.
    { rewrite Forall_forall in Hall. destruct (Hall (k', ms') Hg') as [_ Hk'].
      simpl in Hk'. rewrite <- (Hk' ue Hms'), Hk. by apply Hkey. }
    apply (dict_get_elem _ _ _ Hgwf) in Hg, Hg'. congruence.
  - unfold unique_labels, _generate_unique_labels. fold all_entities.
    rewrite labels_assignments. apply foldl_assign_lookup.
    + rewrite assignments_keys, Hperm. apply Hwf.
    + intros k' _. apply lookup_empty.
    + left. unfold assignments. apply elem_of_flat_map. exists (k, ms).
      split; [done|]. simpl. apply list_elem_of_fmap. by exists (uri, e).
Qed.

Lemma unique_labels_domain (uri : string) :
  is_Some (unique_labels !! uri) -> is_Some (dict.get all_entities uri).
Proof.
  intros [v Hv]. pose proof all_entities_wf as Hwf.
  pose proof (name_groups_grouped all_entities) as (Hperm & Hall & Hgwf).
  unfold unique_labels, _generate_unique_labels in Hv. fold all_entities in Hv.
  rewrite labels_assignments in Hv. apply foldl_assign_lookup in Hv.
  - destruct Hv as [Hv|Hv]; [|by rewrite lookup_empty in Hv].
    assert (uri ∈ map fst (assignments namespaces (name_groups_of all_entities))) as Hk.
    { apply list_elem_of_fmap. by exists (uri, v). }
    rewrite assignments_keys, Hperm in Hk.
    apply list_elem_of_fmap in Hk as ([u e] & -> & Hin). exists e.
    by apply dict_get_elem.
  - rewrite assignments_keys, Hperm. apply Hwf.
  - intros k' _. apply lookup_empty.
Qed.

Lemma unique_name_kept (uri : string) (e : entity_data) :
  dict.get all_entities uri = Some e ->
  (forall uri' e', dict.get all_entities uri' = Some e' ->
                   group_key (uri', e') = group_key (uri, e) -> uri' = uri) ->
  unique_labels !! uri = Some (_get_entity_label e "en").
Proof.
  intros Hget Huniq. pose proof all_entities_wf as Hwf.
  destruct (unique_label_of_group uri e Hget) as (ms & Hin & Hnd & Hms & ->).
  assert (forall ue, ue ∈ ms -> ue = (uri, e)) as Hall.
  { intros [u' e'] Hue. apply Hms in Hue as [Hue Hk].
    apply (dict_get_elem _ _ _ Hwf) in Hue.
    assert (u' = uri) as -> by (by apply (Huniq u' e')). congruence. }
  destruct ms as [|x [|y ms]]; [by apply elem_of_nil in Hin|done|].
  rewrite (Hall x), (Hall y) in Hnd by (repeat constructor).
  apply NoDup_cons in Hnd as [Hn _]. destruct Hn. left.
Qed.

Lemma colliding_name_prefixed (uri : string) (e : entity_data) :
  dict.get all_entities uri = Some e ->
  (exists uri' e', dict.get all_entities uri' = Some e' /\ uri' <> uri
                   /\ group_key (uri', e') = group_key (uri, e)) ->
  unique_labels !! uri = Some (conflict_label namespaces uri e).
Proof.
  intros Hget (uri' & e' & Hget' & Hne & Hk). pose proof all_entities_wf as Hwf.
  destruct (unique_label_of_group uri e Hget) as (ms & Hin & Hnd & Hms & ->).
  assert ((uri', e') ∈ ms) as Hin'.
  { apply Hms. split; [|done]. by apply dict_get_elem. }
  destruct ms as [|x [|y ms]]; [by apply elem_of_nil in Hin| |done].
  apply list_elem_of_singleton in Hin, Hin'. congruence.
Qed.

End UniqueLabels.

(** ** Splitting strings *)

Lemma split_head (c : ascii) (s : string) :
  exists before,
    head (Py.split c s) = Some before
    /\ Py.has_char c before = false
    /\ (Py.has_char c s = true -> exists rest, s = before +:+ String c rest)
    /\ (Py.has_char c s = false -> Py.split c s = [s]).
Proof.
  induction s as [|a s (h & Hh & Hno & Hyes & Hnone)]; simpl.
  - exists "". by repeat split.
  - destruct (Ascii.eqb a c) eqn:E.
    + apply Ascii.eqb_eq in E as ->. exists "".
      split; [done|]. split; [done|]. split; [|done]. intros _. by exists s.
    + destruct (Py.split c s) as [|h' t] eqn:Es; [discriminate|].
      injection Hh as ->. exists (String a h). simpl. rewrite E.
      split; [done|]. split; [done|]. split.
      * intros H. destruct (Hyes H) as (rest & ->). by exists rest.
      * intros H. by injection (Hnone H) as -> ->.
Qed.

Lemma split_singleton (c : ascii) (s p : string) : Py.split c s = [p] -> p = s.
Proof.
  revert p. induction s as [|a s IH]; intros p; simpl; [by intros [= <-]|].
  destruct (Ascii.eqb a c).
  - destruct (split_head c s) as (h & Hh & _). intros [= <- H].
    by rewrite H in Hh.
  - destruct (Py.split c s) as [|h t] eqn:Es.
    + destruct (split_head c s) as (h0 & Hh0 & _). by rewrite Es in Hh0.
    + intros [= <- ->]. by rewrite (IH h).
Qed.

Lemma take_length (n : nat) (s : string) : String.length (Py.take n s) <= n.
Proof.
  unfold Py.take. revert s. induction n as [|n IH]; intros [|a s]; simpl; try lia.
  specialize (IH s). lia.
Qed.

Lemma shorten_length (ns np : string) : shorten ns = Some np -> String.length np <= 8.
Proof.
  unfold shorten. destruct (Py.truthy ns); [|done]. intros [= <-]. apply take_length.
Qed.

Lemma extract_namespace_prefix_shorten (namespace : string) :
  (if Py.truthy namespace then
     let namespace0 := Py.replace "https://" "" (Py.replace "http://" "" namespace) in
     let namespace1 := Py.replace "www." "" namespace0 in
     match Py.split "." namespace1 with
     | p0 :: _ :: _ => Some (Py.take 8 p0)
     | _ => Some (Py.take 8 namespace1)
     end
   else None) = shorten namespace.
Proof.
  unfold shorten. destruct (Py.truthy namespace); [|done]. cbv zeta.
  set (x := Py.replace "www." "" _).
  destruct (Py.split "." x) as [|p0 [|p1 t]] eqn:E; simpl.
  - by destruct (split_head "." x) as (h & Hh & _); rewrite E in Hh.
  - by rewrite (split_singleton _ _ _ E).
  - done.
Qed.

Lemma extract_namespace_prefix_cases (uri : string) :
  (Py.has_char "#" uri = true ->
   exists before rest,
     uri = before +:+ String "#" rest /\ Py.has_char "#" before = false
     /\ HTMLGenerator._extract_namespace_prefix uri = shorten before)
  /\ (Py.has_char "#" uri = false -> Py.has_char "/" uri = true ->
      HTMLGenerator._extract_namespace_prefix uri
      = match HTMLGenerator.second_to_last (Py.split "/" (Py.rstrip "/" uri)) with
        | Some segment => shorten segment
        | None => None
        end)
  /\ (Py.has_char "#" uri = false -> Py.has_char "/" uri = false ->
      HTMLGenerator._extract_namespace_prefix uri = None)
  /\ (forall np, HTMLGenerator._extract_namespace_prefix uri = Some np ->
                 String.length np <= 8).
Proof.
  assert (forall o : option string,
            match o with
            | Some namespace =>
                if Py.truthy namespace then
                  let namespace0 :=
                    Py.replace "https://" "" (Py.replace "http://" "" namespace) in
                  let namespace1 := Py.replace "www." "" namespace0 in
                  match Py.split "." namespace1 with
                  | p0 :: _ :: _ => Some (Py.take 8 p0)
                  | _ => Some (Py.take 8 namespace1)
                  end
                else None
            | None => None
            end = match o with Some namespace => shorten namespace | None => None end)
    as Hs.
  { intros [ns|]; [apply extract_namespace_prefix_shorten|done]. }
  unfold HTMLGenerator._extract_namespace_prefix. rewrite Hs. clear Hs.
  repeat apply conj.
  - intros H. rewrite H. destruct (split_head "#" uri) as (before & Hh & Hno & Hyes & _).
    destruct (Hyes H) as (rest & Hr). exists before, rest. by rewrite Hh.
  - by intros -> ->.
  - by intros -> ->.
  - intros np. destruct (if Py.has_char "#" uri then _ else _) as [ns|]; [|done].
    apply shorten_length.
Qed.

Lemma get_prefix_first (uri : string) (namespaces : dict.t string) (p : string) :
  HTMLGenerator._get_prefix_for_uri uri namespaces = Some p
  <-> exists pre ns post,
        namespaces = pre ++ (p, ns) :: post
        /\ Py.startswith uri ns = true
        /\ forall pn, pn ∈ pre -> Py.startswith uri pn.2 = false.
Proof.
  induction namespaces as [|[p' ns'] rest IH]; simpl.
  - split; [done|]. intros (pre & ns & post & H & _). by destruct pre.
  - destruct (Py.startswith uri ns') eqn:E.
    + split.
      * intros [= ->]. exists [], ns', rest. repeat split; try done.
        intros pn H. by apply elem_of_nil in H.
      * intros ([|[q nq] pre] & ns & post & H & Hs & Hpre).
        -- by injection H as -> -> ->.
        -- injection H as <- <- ->. specialize (Hpre (p', ns') ltac:(left)).
           simpl in Hpre. congruence.
    + rewrite IH. split.
      * intros (pre & ns & post & -> & Hs & Hpre).
        exists ((p', ns') :: pre), ns, post. repeat split; try done.
        intros pn [->|H]%elem_of_cons; [done|by apply Hpre].
      * intros ([|[q nq] pre] & ns & post & H & Hs & Hpre).
        -- injection H as <- <- ->. congruence.
        -- injection H as <- <- ->. exists pre, ns, post. repeat split; try done.
           intros pn H. apply Hpre. by right.
Qed.

(** C5, as amended. [_generate_unique_labels] gives a label to the
    URIs of the merged entities and to no other. An entity whose
    lower-cased English display name no other entity shares keeps
    that name; an entity that shares it receives [conflict_label].
    That label is [prefix:name] for the first prefix of the table
    whose namespace the URI starts with, provided this prefix is
    neither empty nor ["base"]; otherwise it is [pseudo:name] for the
    pseudo-prefix of the URI, and the name alone when there is no
    pseudo-prefix or an empty one. The pseudo-prefix is made from the
    text before the first [#] of the URI or, without [#], from the
    second-to-last [/]-segment of the URI without its trailing
    slashes: every ["http://"], ["https://"] and ["www."] is removed
    from it and the first [.]-segment of the rest is cut to 8
    characters. *)
Theorem unique_labels_by_collision
    (classes properties individuals : dict.t HTMLGenerator.entity_data)
    (namespaces : dict.t string) :
  let all_entities :=
    dict.update (dict.update (dict.update [] classes) properties) individuals in
  let unique_labels :=
    HTMLGenerator._generate_unique_labels classes properties individuals namespaces in
  let name := fun e => HTMLGenerator._get_entity_label e "en" in
  (forall uri e,
     dict.get all_entities uri = Some e ->
     ((forall uri' e', dict.get all_entities uri' = Some e' ->
                       Py.lower (name e') = Py.lower (name e) -> uri' = uri) ->
      unique_labels !! uri = Some (name e))
     /\ ((exists uri' e', dict.get all_entities uri' = Some e' /\ uri' <> uri
                          /\ Py.lower (name e') = Py.lower (name e)) ->
         unique_labels !! uri = Some (HTMLGenerator.conflict_label namespaces uri e)))
  /\ (forall uri, is_Some (unique_labels !! uri) -> is_Some (dict.get all_entities uri))
  /\ (forall uri e,
        let registered := HTMLGenerator._get_prefix_for_uri uri namespaces in
        let pseudo := HTMLGenerator._extract_namespace_prefix uri in
        let label := HTMLGenerator.conflict_label namespaces uri e in
        (forall p, registered = Some p -> p <> "" -> p <> "base" ->
                   label = p +:+ ":" +:+ name e)
        /\ (registered = None \/ registered = Some "" \/ registered = Some "base" ->
            (forall np, pseudo = Some np -> np <> "" -> label = np +:+ ":" +:+ name e)
            /\ (pseudo = None \/ pseudo = Some "" -> label = name e)))
  /\ (forall uri p,
        HTMLGenerator._get_prefix_for_uri uri namespaces = Some p
        <-> exists pre ns post,
              namespaces = pre ++ (p, ns) :: post
              /\ Py.startswith uri ns = true
              /\ forall pn, pn ∈ pre -> Py.startswith uri pn.2 = false)
  /\ (forall uri,
        (Py.has_char "#" uri = true ->
         exists before rest,
           uri = before +:+ String "#" rest /\ Py.has_char "#" before = false
           /\ HTMLGenerator._extract_namespace_prefix uri = shorten before)
        /\ (Py.has_char "#" uri = false -> Py.has_char "/" uri = true ->
            HTMLGenerator._extract_namespace_prefix uri
            = match HTMLGenerator.second_to_last (Py.split "/" (Py.rstrip "/" uri)) with
              | Some segment => shorten segment
              | None => None
              end)
        /\ (Py.has_char "#" uri = false -> Py.has_char "/" uri = false ->
            HTMLGenerator._extract_namespace_prefix uri = None)
        /\ (forall np, HTMLGenerator._extract_namespace_prefix uri = Some np ->
                       String.length np <= 8)).
Proof.
  intros all_entities unique_labels name. repeat apply conj.
  - intros uri e Hget. split.
    + intros H. by apply unique_name_kept.
    + intros H. by apply colliding_name_prefixed.
  - apply unique_labels_domain.
  - intros uri e registered pseudo label. subst registered pseudo label name.
    unfold HTMLGenerator.conflict_label. split.
    + intros p -> Hp Hb. rewrite (truthy_true _ Hp).
      by apply String.eqb_neq in Hb as ->.
    + intros Hreg.
      assert (match HTMLGenerator._get_prefix_for_uri uri namespaces with
              | Some p => Py.truthy p && negb (String.eqb p "base")
              | None => false
              end = false) as Hno by (by destruct Hreg as [->|[->| ->]]).
      split.
      * intros np -> Hnp. rewrite (truthy_true _ Hnp).
        destruct (HTMLGenerator._get_prefix_for_uri uri namespaces); [|done].
        by rewrite Hno.
      * intros Hps.
        destruct (HTMLGenerator._get_prefix_for_uri uri namespaces);
          [rewrite Hno|]; by destruct Hps as [-> | ->].
  - intros uri p. apply get_prefix_first.
  - apply extract_namespace_prefix_cases.
Qed.

(** The specification's example: of two entities named "Name" up to
    case, the one in the namespace bound to [ex] becomes [ex:Name] and
    the unbound one gets a pseudo-prefix; the entity with a name of
    its own keeps it. *)
Lemma unique_labels_by_collision_witness :
  let unique_labels :=
    HTMLGenerator._generate_unique_labels Example.named_classes Example.named_properties
      [] [("ex", "http://example.org/onto#")] in
  unique_labels !! "http://example.org/onto#Name" = Some "ex:Name"
  /\ unique_labels !! "http://other.org/x#name" = Some "other:name"
  /\ unique_labels !! "http://example.org/onto#Other" = Some "Autre".
Proof.
  intros unique_labels.
  pose proof (unique_labels_by_collision Example.named_classes Example.named_properties
                [] [("ex", "http://example.org/onto#")]) as (Hlabel & _).
  repeat apply conj.
  - destruct (Hlabel "http://example.org/onto#Name" Example.name1) as [_ H];
      [reflexivity|].
    unfold unique_labels. rewrite H; [reflexivity|].
    exists "http://other.org/x#name", Example.name2.
    split; [reflexivity|]. split; [discriminate|reflexivity].
  - destruct (Hlabel "http://other.org/x#name" Example.name2) as [_ H];
      [reflexivity|].
    unfold unique_labels. rewrite H; [reflexivity|].
    exists "http://example.org/onto#Name", Example.name1.
    split; [reflexivity|]. split; [discriminate|reflexivity].
  - destruct (Hlabel "http://example.org/onto#Other" Example.other) as [H _];
      [reflexivity|].
    unfold unique_labels. rewrite H; [reflexivity|].
    intros uri' e' Hget Hkey.
    change (dict.update (dict.update (dict.update [] Example.named_classes)
                                     Example.named_properties) [])
      with [("http://example.org/onto#Name", Example.name1);
            ("http://example.org/onto#Other", Example.other);
            ("http://other.org/x#name", Example.name2)] in Hget.
    cbn [dict.get] in Hget.
    destruct (String.eqb_spec "http://example.org/onto#Name" uri') as [<-|_].
    { injection Hget as <-. vm_compute in Hkey. discriminate Hkey. }
    destruct (String.eqb_spec "http://example.org/onto#Other" uri') as [<-|_];
      [reflexivity|].
    destruct (String.eqb_spec "http://other.org/x#name" uri') as [<-|_]; [|discriminate].
    injection Hget as <-. vm_compute in Hkey. discriminate Hkey.
Defined.

(** C5, the claim as stated fails. A URI in the namespace registered
    under the prefix ["base"] is not labelled with that prefix but
    with a pseudo-prefix. The pseudo-prefix is taken before the first
    [#], not the last; ["www."] is removed anywhere, not only in
    front; and the slashes at the end of the URI are dropped before
    the second-to-last segment is taken. *)
Lemma registered_base_prefix_not_used :
  (let namespaces := [("base", "http://example.org/onto#")] in
   let uri := "http://example.org/onto#Name" in
   HTMLGenerator._get_prefix_for_uri uri namespaces = Some "base"
   /\ HTMLGenerator._generate_unique_labels Example.named_classes
        Example.named_properties [] namespaces !! uri = Some "example:Name"
   /\ Spec.collision_label (Some "base") uri "Name" = "base:Name")
  /\ (HTMLGenerator._extract_namespace_prefix "http://abc#de#Name" = Some "abc"
      /\ Spec.pseudo_prefix "http://abc#de#Name" = Some "abc#de")
  /\ (HTMLGenerator._extract_namespace_prefix "https://awww.b.org/x#N" = Some "ab"
      /\ Spec.pseudo_prefix "https://awww.b.org/x#N" = Some "awww")
  /\ (HTMLGenerator._extract_namespace_prefix "http://example.org/onto/Name/" = Some "onto"
      /\ Spec.pseudo_prefix "http://example.org/onto/Name/" = Some "Name").
Proof. repeat apply conj; vm_compute; reflexivity. Qed.

(** ** What the listings hold *)

Lemma create_property_fields (self : OntologyParser) (n : node) (tl st : string) :
  uri (_create_property self n tl st) = str n
  /\ type_label (_create_property self n tl st) = Some st.
Proof.
  unfold _create_property.
  by destruct (_extract_preferred_and_others self n [RDFS.label]).
Qed.

Lemma properties_of_uri (self : OntologyParser) (ty : node) (tl st : string) :
  map (fun x : Property => uri x) (properties_of self ty tl st)
  = map str (named_subjects (graph self) ty).
Proof.
  unfold properties_of, named_subjects. rewrite map_map. apply map_ext.
  intros s. apply create_property_fields.
Qed.

Lemma properties_of_type_label (self : OntologyParser) (ty : node) (tl st : string) :
  Forall (fun x : Property => type_label x = Some st) (properties_of self ty tl st).
Proof.
  unfold properties_of. apply Forall_forall.
  intros p (s & -> & _)%list_elem_of_fmap. apply create_property_fields.
Qed.

Lemma sorted_Forall {A : Type} (key : A -> string) (P : A -> Prop) (l : list A) :
  Forall P l -> Forall P (sorted key l).
Proof.
  rewrite !Forall_forall. intros H x Hx. apply H. by apply sorted_elem in Hx.
Qed.

Lemma sorted_map_perm {A B : Type} (key : A -> string) (f : A -> B) (l : list A) :
  map f (sorted key l) ≡ₚ map f l.
Proof. apply Permutation_map, sorted_perm. Qed.

Lemma create_individual_uri (self : OntologyParser) (s : node) :
  uri (create_individual self s) = str s.
Proof.
  unfold create_individual.
  by destruct (_extract_preferred_and_others self s [RDFS.label]).
Qed.

(** X1. The listings of properties and of individuals are exact. The
    URIs of [get_object_properties], [get_datatype_properties],
    [get_annotation_properties] and [get_named_individuals] are, up to
    the order of the sort, the strings of the subjects declared with
    the type in question that are not blank nodes: every such subject
    is listed, nothing else is, and a blank node never is. Each
    property carries the short type of its listing, and
    [get_properties] holds the three listings together, so that a
    resource declared with two property types is listed once for each
    of them. *)
Theorem property_listings_exact (self : OntologyParser) :
  let g := graph self in
  (map (fun x : Property => uri x) (get_object_properties self)
     ≡ₚ map str (named_subjects g OWL.ObjectProperty)
   /\ Forall (fun x : Property => type_label x = Some "op") (get_object_properties self))
  /\ (map (fun x : Property => uri x) (get_datatype_properties self)
        ≡ₚ map str (named_subjects g OWL.DatatypeProperty)
      /\ Forall (fun x : Property => type_label x = Some "dp")
                (get_datatype_properties self))
  /\ (map (fun x : Property => uri x) (get_annotation_properties self)
        ≡ₚ map str (named_subjects g OWL.AnnotationProperty)
      /\ Forall (fun x : Property => type_label x = Some "ap")
                (get_annotation_properties self))
  /\ map (fun x : Property => uri x) (get_properties self)
       ≡ₚ map str (named_subjects g OWL.ObjectProperty
                   ++ named_subjects g OWL.DatatypeProperty
                   ++ named_subjects g OWL.AnnotationProperty)
  /\ map (fun x : Individual => uri x) (get_named_individuals self)
       ≡ₚ map str (named_subjects g OWL.NamedIndividual).
Proof.
  intros g.
  assert (forall ty tl st,
            map (fun x : Property => uri x)
                (sorted (fun x : Property => label_or_uri x) (properties_of self ty tl st))
              ≡ₚ map str (named_subjects g ty)) as Hperm.
  { intros ty tl st. by rewrite sorted_map_perm, properties_of_uri. }
  repeat apply conj.
  - apply Hperm.
  - apply sorted_Forall, properties_of_type_label.
  - apply Hperm.
  - apply sorted_Forall, properties_of_type_label.
  - apply Hperm.
  - apply sorted_Forall, properties_of_type_label.
  - unfold get_properties. rewrite sorted_map_perm, !map_app.
    unfold get_object_properties, get_datatype_properties, get_annotation_properties.
    by rewrite !Hperm.
  - unfold get_named_individuals, named_subjects.
    rewrite sorted_map_perm, map_map.
    erewrite map_ext; [done|]. intros s. apply create_individual_uri.
Qed.

Lemma create_class_fields (fuel depth : nat) (self : OntologyParser) (n : node) (c : Class) :
  _create_class fuel depth self n = Done c ->
  let g := graph self in
  uri c = str n /\ type_label c = Some "c"
  /\ super_classes c = named_elements self (objects g n RDFS.subClassOf) "c"
  /\ sub_classes c = named_elements self (subjects g RDFS.subClassOf n) "c"
  /\ in_domain_of c = named_elements self (subjects g RDFS.domain n) "op"
  /\ in_range_of c = named_elements self (subjects g RDFS.range n) "op"
  /\ members c
     = named_elements self
         (List.filter (fun subj => negb (has_triple g subj RDF.type OWL.Class))
                      (subjects g RDF.type n)) "ni"
  /\ disjoint_with c = named_elements self (objects g n OWL.disjointWith) "c".
Proof.
  unfold _create_class.
  destruct (_extract_preferred_and_others self n [RDFS.label]) as [? others].
  destruct (for_each _ (objects _ _ _) _) as [rs| |]; simpl; try discriminate.
  destruct (for_each _ (predicate_objects _ _) _) as [sk| |]; simpl; try discriminate.
  by intros [= <-].
Qed.

Lemma classes_loop_uri (fuel depth : nat) (self : OntologyParser) (l : list node)
    (acc r : list Class) :
  for_each (fun acc s =>
              if is_BNode s then Done acc
              else c ← _create_class fuel depth self s; Done (acc ++ [c])) l acc = Done r ->
  map (fun x : Class => uri x) r
  = map (fun x : Class => uri x) acc
    ++ map str (List.filter (fun s => negb (is_BNode s)) l).
Proof.
  revert acc. induction l as [|s l IH]; intros acc; simpl.
  - intros [= <-]. by rewrite app_nil_r.
  - destruct (is_BNode s) eqn:Eb; simpl; [apply IH|].
    destruct (_create_class fuel depth self s) as [c| |] eqn:Ec; simpl; try discriminate.
    intros H. apply IH in H. rewrite H, map_app, <- app_assoc. simpl.
    by apply create_class_fields in Ec as (-> & _).
Qed.

(** X2. The listing of classes is exact when it is produced. If
    [get_classes] returns, the URIs of its classes are, up to the
    order of the sort, the strings of the subjects declared
    [owl:Class] that are not blank nodes; every class carries the
    short type ["c"]. *)
Theorem class_listing_exact (fuel depth : nat) (self : OntologyParser) (cs : list Class) :
  get_classes fuel depth self = Done cs ->
  map (fun x : Class => uri x) cs ≡ₚ map str (named_subjects (graph self) OWL.Class)
  /\ Forall (fun c : Class => type_label c = Some "c") cs.
Proof.
  intros H. split.
  - unfold get_classes in H.
    destruct (for_each _ _ _) as [classes| |] eqn:E; simpl in H; try discriminate.
    injection H as <-. rewrite sorted_map_perm.
    apply classes_loop_uri in E. by rewrite E.
  - apply Forall_forall. intros c Hc.
    destruct (get_classes_from _ _ _ _ _ H Hc) as (s & _ & _ & Hs).
    by apply create_class_fields in Hs as (_ & -> & _).
Qed.

Lemma class_listing_exact_witness :
  exists cs,
    get_classes 10 10 (__init__ Example.pets) = Done cs
    /\ map (fun x : Class => uri x) cs
         ≡ₚ map str (named_subjects (graph (__init__ Example.pets)) OWL.Class).
Proof.
  destruct (get_classes 10 10 (__init__ Example.pets)) as [cs| |] eqn:E;
    [|vm_compute in E; discriminate E ..].
  exists cs. split; [done|].
  apply (class_listing_exact 10 10 (__init__ Example.pets) cs E).
Defined.








(** ** Restrictions of the parser *)

Lemma if_truthy_py_or (a b : option node) :
  if_truthy (py_or a b) = None <-> if_truthy a = None /\ if_truthy b = None.
Proof.
  unfold py_or, if_truthy, opt_truthy.
  destruct a as [x|]; [destruct (node_truthy x) eqn:E; [rewrite E|]|];
    split; try tauto; try (by intros [? ?]); discriminate.
Qed.

(** X3. [_parse_restriction] gives no restriction exactly when the
    node has no truthy [owl:onProperty], or when none of the nine
    predicates that carry the value of a restriction has a truthy
    first object. Truthy is Python's test: a cardinality literal whose
    value is false, such as the number 0, counts as absent, so that a
    restriction to at least zero values is dropped. The outcome does
    not depend on the fuel. *)
Theorem restriction_absent_iff (fuel depth : nat) (self : OntologyParser) (n : node) :
  _parse_restriction fuel depth self n = Done None
  <-> if_truthy (value (graph self) n OWL.onProperty) = None
      \/ Forall (fun p => if_truthy (value (graph self) n p) = None) restriction_values.
Proof.
  unfold _parse_restriction, restriction_values. cbv zeta. split.
  - destruct (if_truthy (value _ n OWL.onProperty)) as [p|]; [|by left].
    intros H. right.
    destruct (if_truthy (value _ n OWL.someValuesFrom)) as [t|] eqn:Esome.
    { destruct (_get_elements_from_target fuel depth self t); discriminate. }
    destruct (if_truthy (value _ n OWL.allValuesFrom)) as [t|] eqn:Eall.
    { destruct (_get_elements_from_target fuel depth self t); discriminate. }
    destruct (if_truthy (value _ n OWL.hasValue)) as [t|] eqn:Ehas; [discriminate|].
    destruct (if_truthy (py_or (value _ n OWL.minCardinality) _)) eqn:Emin;
      [discriminate|].
    destruct (if_truthy (py_or (value _ n OWL.maxCardinality) _)) eqn:Emax;
      [discriminate|].
    destruct (if_truthy (py_or (value _ n OWL.cardinality) _)) eqn:Ecard;
      [discriminate|].
    apply if_truthy_py_or in Emin as [? ?], Emax as [? ?], Ecard as [? ?].
    repeat (apply Forall_cons; split; [assumption|]). apply Forall_nil_2.
  - intros [->|H]; [done|].
    destruct (if_truthy (value _ n OWL.onProperty)) as [p|]; [|done].
    repeat (apply Forall_cons in H as [? H]).
    repeat match goal with E : if_truthy (value _ _ _) = None |- _ => revert E end.
    intros -> -> -> Hmin Hminq Hmax Hmaxq Hcard Hcardq.
    by rewrite (proj2 (if_truthy_py_or _ _) (conj Hmin Hminq)),
               (proj2 (if_truthy_py_or _ _) (conj Hmax Hmaxq)),
               (proj2 (if_truthy_py_or _ _) (conj Hcard Hcardq)).
Qed.

Lemma create_element_fields (self : OntologyParser) (n : node) (tl : option string) :
  uri (_create_element self n tl) = str n
  /\ type_label (_create_element self n tl) = tl
  /\ url (_create_element self n tl) = Some (_resolve_url self (str n))
  /\ label (_create_element self n tl) = Some (_get_label_or_qname self n).
Proof.
  unfold _create_element.
  by destruct (_extract_preferred_and_others self n [RDFS.label]).
Qed.

(** X4. The shape of a parsed restriction. Its property element is
    the reference to the truthy first [owl:onProperty] object, with
    the url of that resource and the short type ["dp"], ["ap"] or
    ["op"]. Its kind and its value are those of the first predicate,
    in the order below, that has a truthy first object: ["some"] for
    [owl:someValuesFrom] and ["only"] for [owl:allValuesFrom], with
    the elements of the target as values and neither amount nor
    literal value; ["value"] for [owl:hasValue], with the string of
    the object as literal value and nothing else; ["min"], ["max"] and
    ["exactly"] for the minimum, the maximum and the exact
    cardinality, each in its unqualified form or else its qualified
    one, with the string of the cardinality as amount and nothing
    else. *)
Theorem restriction_shape (fuel depth : nat) (self : OntologyParser) (n : node)
    (r : Restriction) :
  _parse_restriction fuel depth self n = Done (Some r) ->
  let g := graph self in
  let first p := if_truthy (value g n p) in
  let cardinality p q := if_truthy (py_or (value g n p) (value g n q)) in
  let counted kind v :=
    type r = kind /\ amount r = Some (str v) /\ values r = [] /\ literal_value r = None in
  let targeted kind t :=
    type r = kind /\ _get_elements_from_target fuel depth self t = Done (values r)
    /\ amount r = None /\ literal_value r = None in
  exists p,
    first OWL.onProperty = Some p
    /\ on_property r = restricted_property self p
    /\ uri (on_property r) = str p
    /\ url (on_property r) = Some (_resolve_url self (str p))
    /\ type_label (on_property r) ∈ [Some "dp"; Some "ap"; Some "op"]
    /\ match first OWL.someValuesFrom with
       | Some t => targeted "some" t
       | None =>
       match first OWL.allValuesFrom with
       | Some t => targeted "only" t
       | None =>
       match first OWL.hasValue with
       | Some v =>
           type r = "value" /\ literal_value r = Some (str v)
           /\ amount r = None /\ values r = []
       | None =>
       match cardinality OWL.minCardinality OWL.minQualifiedCardinality with
       | Some v => counted "min" v
       | None =>
       match cardinality OWL.maxCardinality OWL.maxQualifiedCardinality with
       | Some v => counted "max" v
       | None =>
       match cardinality OWL.cardinality OWL.qualifiedCardinality with
       | Some v => counted "exactly" v
       | None => False
       end end end end end end.
Proof.
  intros H g first cardinality counted targeted.
  subst first cardinality counted targeted g. cbv beta.
  unfold _parse_restriction in H. cbv zeta in H.
  destruct (if_truthy (value _ n OWL.onProperty)) as [p|]; [|discriminate].
  exists p.
  assert (type_label (restricted_property self p) ∈ [Some "dp"; Some "ap"; Some "op"])
    as Ht.
  { unfold restricted_property. cbv zeta.
    rewrite (proj1 (proj2 (create_element_fields self p _))).
    destruct (has_triple _ p RDF.type OWL.DatatypeProperty); [set_solver|].
    destruct (has_triple _ p RDF.type OWL.AnnotationProperty); set_solver. }
  assert (uri (restricted_property self p) = str p
          /\ url (restricted_property self p) = Some (_resolve_url self (str p)))
    as [Hu Hurl].
  { unfold restricted_property. cbv zeta.
    by destruct (create_element_fields self p
                   (Some (if has_triple (graph self) p RDF.type OWL.DatatypeProperty
                          then "dp"
                          else if has_triple (graph self) p RDF.type
                                    OWL.AnnotationProperty
                               then "ap" else "op"))) as (? & _ & ? & _). }
  change (_create_element self p _) with (restricted_property self p) in H.
  remember (restricted_property self p) as pe eqn:Epe.
  split; [done|].
  assert (on_property r = pe
          /\ match if_truthy (value (graph self) n OWL.someValuesFrom) with
             | Some t =>
                 type r = "some"
                 /\ _get_elements_from_target fuel depth self t = Done (values r)
                 /\ amount r = None /\ literal_value r = None
             | None =>
             match if_truthy (value (graph self) n OWL.allValuesFrom) with
             | Some t =>
                 type r = "only"
                 /\ _get_elements_from_target fuel depth self t = Done (values r)
                 /\ amount r = None /\ literal_value r = None
             | None =>
             match if_truthy (value (graph self) n OWL.hasValue) with
             | Some v =>
                 type r = "value" /\ literal_value r = Some (str v)
                 /\ amount r = None /\ values r = []
             | None =>
             match if_truthy (py_or (value (graph self) n OWL.minCardinality)
                                    (value (graph self) n OWL.minQualifiedCardinality)) with
             | Some v =>
                 type r = "min" /\ amount r = Some (str v) /\ values r = []
                 /\ literal_value r = None
             | None =>
             match if_truthy (py_or (value (graph self) n OWL.maxCardinality)
                                    (value (graph self) n OWL.maxQualifiedCardinality)) with
             | Some v =>
                 type r = "max" /\ amount r = Some (str v) /\ values r = []
                 /\ literal_value r = None
             | None =>
             match if_truthy (py_or (value (graph self) n OWL.cardinality)
                                    (value (graph self) n OWL.qualifiedCardinality)) with
             | Some v =>
                 type r = "exactly" /\ amount r = Some (str v) /\ values r = []
                 /\ literal_value r = None
             | None => False
             end end end end end end) as [Hpe Hkind].
  { destruct (if_truthy (value _ n OWL.someValuesFrom)) as [t|].
    { destruct (_get_elements_from_target fuel depth self t); simpl in H; try discriminate.
      by injection H as <-. }
    destruct (if_truthy (value _ n OWL.allValuesFrom)) as [t|].
    { destruct (_get_elements_from_target fuel depth self t); simpl in H; try discriminate.
      by injection H as <-. }
    destruct (if_truthy (value _ n OWL.hasValue)) as [t|]; [by injection H as <-|].
    destruct (if_truthy (py_or (value _ n OWL.minCardinality) _));
      [by injection H as <-|].
    destruct (if_truthy (py_or (value _ n OWL.maxCardinality) _));
      [by injection H as <-|].
    destruct (if_truthy (py_or (value _ n OWL.cardinality) _)); [|discriminate].
    by injection H as <-. }
  rewrite Hpe. by repeat split.
Qed.

(** The second restriction of [cardinalities] is one to at most one
    value. *)
Lemma restriction_shape_witness :
  exists r,
    _parse_restriction 0 0 (__init__ Example.cardinalities) (BNode "r1") = Done (Some r)
    /\ type r = "max" /\ amount r = Some "1" /\ values r = [] /\ literal_value r = None.
Proof.
  destruct (_parse_restriction 0 0 (__init__ Example.cardinalities) (BNode "r1"))
    as [[r|]| |] eqn:E; [|vm_compute in E; discriminate E ..].
  exists r. split; [done|].
  destruct (restriction_shape 0 0 (__init__ Example.cardinalities) (BNode "r1") r E)
    as (p & _ & _ & _ & _ & _ & Hcase).
  exact Hcase.
Defined.

(** ** Targets of restrictions *)

Lemma targets_Forall (self : OntologyParser) (P : Element -> Prop) :
  (forall n, P (Element_ (str n) (Some "Anonymous") (Some "c"))) ->
  (forall n, P (named_target self n)) ->
  forall fuel depth,
    (forall n els, _get_elements_from_target fuel depth self n = Done els -> Forall P els)
    /\ (forall cur acc els,
          Forall P acc -> union_loop fuel depth self cur acc = Done els -> Forall P els).
Proof.
  intros Hanon Hnamed.
  induction fuel as [|fuel IH]; intros depth; [split; intros; discriminate|]. split.
  - intros n els. destruct depth as [|depth]; [discriminate|]. rewrite target_unfold.
    destruct (target_list (graph self) n) as [u|].
    + by apply IH.
    + destruct (is_BNode n); intros [= <-]; by repeat constructor.
  - intros cur acc els Hacc. rewrite union_loop_unfold.
    destruct (IH depth) as [IHt IHl].
    destruct (node_eqb cur RDF.nil); [by intros [= <-]|].
    destruct (if_truthy (value (graph self) cur RDF.first)) as [f|]; simpl.
    + destruct (_get_elements_from_target fuel depth self f) as [r| |] eqn:Er; simpl;
        try discriminate.
      assert (Forall P (acc ++ r)) as Hacc'.
      { apply Forall_app. split; [done|]. by apply (IHt f). }
      destruct (if_truthy (value (graph self) cur RDF.rest)) as [nx|]; [by apply IHl|].
      by intros [= <-].
    + destruct (if_truthy (value (graph self) cur RDF.rest)) as [nx|]; [by apply IHl|].
      by intros [= <-].
Qed.

(** X5. The targets of a restriction are bare class elements. Every
    element that [_get_elements_from_target] returns has the short
    type ["c"], a label, and the defaults everywhere else: no url (so
    no link, unlike the references of [_create_element]), no comment
    and no alternate labels. A target that is not a blank node gives
    exactly one element, for its own URI; a blank node without a
    truthy [owl:unionOf] gives the one element labelled
    ["Anonymous"]. *)
Theorem targets_are_bare (fuel depth : nat) (self : OntologyParser) (n : node)
    (els : list Element) :
  _get_elements_from_target fuel depth self n = Done els ->
  Forall (fun e => type_label e = Some "c" /\ is_Some (label e) /\ bare e) els
  /\ (is_BNode n = false -> exists e, els = [e] /\ uri e = str n)
  /\ (is_BNode n = true -> if_truthy (value (graph self) n OWL.unionOf) = None ->
      exists e, els = [e] /\ uri e = str n /\ label e = Some "Anonymous").
Proof.
  intros H. repeat apply conj.
  - revert H. apply (targets_Forall self); by repeat split.
  - intros Hn. destruct fuel as [|fuel]; [discriminate|].
    destruct depth as [|depth]; [discriminate|].
    rewrite target_unfold in H. unfold target_list in H. rewrite Hn in H.
    injection H as <-. by eexists.
  - intros Hn Hu. destruct fuel as [|fuel]; [discriminate|].
    destruct depth as [|depth]; [discriminate|].
    rewrite target_unfold in H. unfold target_list in H. rewrite Hn, Hu in H.
    injection H as <-. by eexists.
Qed.

Lemma targets_are_bare_witness :
  exists els,
    _get_elements_from_target 10 10 (__init__ Example.pets) (BNode "u") = Done els
    /\ Forall (fun e => type_label e = Some "c" /\ is_Some (label e) /\ bare e) els.
Proof.
  destruct (_get_elements_from_target 10 10 (__init__ Example.pets) (BNode "u"))
    as [els| |] eqn:E; [|vm_compute in E; discriminate E ..].
  exists els. split; [done|].
  apply (targets_are_bare 10 10 (__init__ Example.pets) (BNode "u") els E).
Defined.

(** ** Well-formed lists *)

Lemma rdf_list_truthy (g : Graph) (cur : node) (items : list node) :
  rdf_list g cur items -> node_truthy cur = true.
Proof.
  intros [c Hnil|]; [|done].
  destruct c as [u| |]; try discriminate. simpl in Hnil.
  by apply String.eqb_eq in Hnil as ->.
Qed.

Lemma value_head (g : Graph) (s p o : node) :
  value g s p = Some o -> exists rest, objects g s p = o :: rest.
Proof.
  unfold value. destruct (objects g s p) as [|x rest]; [discriminate|].
  intros [= ->]. by eexists.
Qed.

Lemma union_loop_in_order (self : OntologyParser) (cur : node) (items : list node) :
  rdf_list (graph self) cur items ->
  Forall (fun m => is_BNode m = false /\ node_truthy m = true) items ->
  forall fuel depth acc, length items < fuel ->
    union_loop fuel (S depth) self cur acc = Done (acc ++ map (named_target self) items).
Proof.
  induction 1 as [cur Hnil|cur first next items Hnil Hcur Hfirst Hrest Hlist IH];
    intros Hitems fuel depth acc Hfuel.
  - destruct fuel as [|fuel]; [simpl in Hfuel; lia|].
    rewrite union_loop_unfold, Hnil. by rewrite app_nil_r.
  - apply Forall_cons in Hitems as [[Hb Ht] Hitems].
    destruct fuel as [|fuel]; [simpl in Hfuel; lia|].
    assert (_get_elements_from_target fuel (S depth) self first
            = Done [named_target self first]) as Htarget.
    { destruct fuel as [|fuel]; [simpl in Hfuel; lia|].
      rewrite target_unfold. unfold target_list. by rewrite Hb. }
    rewrite union_loop_unfold, Hnil, Hfirst, Hrest. unfold if_truthy.
    rewrite Ht, (rdf_list_truthy _ _ _ Hlist), Htarget. simpl.
    rewrite IH; [|done|simpl in Hfuel; lia].
    by rewrite <- app_assoc.
Qed.

(** X6. A union of named classes is listed in the order of its RDF
    list. When the target of a restriction is a blank node whose
    [owl:unionOf] is a well-formed list of truthy nodes that are not
    blank, [_get_elements_from_target] returns, with any fuel above
    the length of the list plus one and a recursion limit that allows
    the call for the node and the calls for its items, one element for
    each item, in list order: the URIs of the elements are the strings
    of the items. *)
Theorem union_targets_in_order (self : OntologyParser) (n h : node)
    (items : list node) (fuel depth : nat) :
  is_BNode n = true ->
  if_truthy (value (graph self) n OWL.unionOf) = Some h ->
  rdf_list (graph self) h items ->
  Forall (fun m => is_BNode m = false /\ node_truthy m = true) items ->
  length items + 1 < fuel -> 2 <= depth ->
  exists els,
    _get_elements_from_target fuel depth self n = Done els
    /\ els = map (named_target self) items
    /\ map uri els = map str items.
Proof.
  intros Hn Hu Hlist Hitems Hfuel Hdepth.
  destruct fuel as [|fuel]; [lia|].
  destruct depth as [|[|depth]]; [lia|lia|].
  eexists. split; [|split; [reflexivity|]].
  - rewrite target_unfold. unfold target_list. rewrite Hn, Hu.
    rewrite (union_loop_in_order self h items Hlist Hitems); [done|lia].
  - rewrite map_map. by apply map_ext.
Qed.

Lemma union_targets_in_order_witness :
  exists els,
    _get_elements_from_target 4 2 (__init__ Example.pets) (BNode "u") = Done els
    /\ els = map (named_target (__init__ Example.pets)) [Example.ex "Cat"; Example.ex "Dog"]
    /\ map uri els = map str [Example.ex "Cat"; Example.ex "Dog"].
Proof.
  apply (union_targets_in_order (__init__ Example.pets) (BNode "u") (BNode "l1")
           [Example.ex "Cat"; Example.ex "Dog"] 4 2).
  - reflexivity.
  - reflexivity.
  - apply (rdf_list_cons _ (BNode "l1") (Example.ex "Cat") (BNode "l2"));
      try reflexivity.
    apply (rdf_list_cons _ (BNode "l2") (Example.ex "Dog") RDF.nil); try reflexivity.
    by apply rdf_list_nil.
  - by repeat constructor.
  - simpl. lia.
  - lia.
Defined.

Lemma list_loop_in_order (self : OntologyProcessor.t) (cur : node) (items : list node) :
  rdf_list (OntologyProcessor.graph self) cur items ->
  Forall (fun m => is_BNode m = false) items ->
  forall fuel depth acc, length items < fuel ->
    OntologyProcessor.list_loop fuel depth self (Some cur) acc
    = Done (acc ++ map (fun m => OntologyProcessor.member_str (str m)) items).
Proof.
  induction 1 as [cur Hnil|cur first next items Hnil Hcur Hfirst Hrest Hlist IH];
    intros Hitems fuel depth acc Hfuel.
  - destruct fuel as [|fuel]; [simpl in Hfuel; lia|].
    cbn [OntologyProcessor.list_loop]. rewrite Hnil, andb_false_r.
    by rewrite app_nil_r.
  - apply Forall_cons in Hitems as [Hb Hitems].
    destruct fuel as [|fuel]; [simpl in Hfuel; lia|].
    cbn [OntologyProcessor.list_loop]. rewrite Hnil, Hcur. simpl.
    apply value_head in Hfirst as [rest1 ->], Hrest as [rest2 ->]. simpl.
    assert (forall k : list OntologyProcessor.member -> outcome (list OntologyProcessor.member),
              match first with
              | BNode b =>
                  e ← OntologyProcessor._process_class_expression fuel depth self (BNode b);
                  match e with
                  | Some ex => Done (acc ++ [OntologyProcessor.member_expr ex])
                  | None => Done acc
                  end
              | _ => Done (acc ++ [OntologyProcessor.member_str (str first)])
              end ≫= k
              = k (acc ++ [OntologyProcessor.member_str (str first)])) as ->.
    { intros k. by destruct first. }
    rewrite IH; [|done|simpl in Hfuel; lia].
    by rewrite <- app_assoc.
Qed.

(** X7. [_process_list] keeps the order of a well-formed list. On a
    list whose items are not blank nodes it returns, with any fuel
    above the length of the list, the strings of the items in list
    order, one member for each item. *)
Theorem process_list_in_order (self : OntologyProcessor.t) (h : node)
    (items : list node) (fuel depth : nat) :
  rdf_list (OntologyProcessor.graph self) h items ->
  Forall (fun m => is_BNode m = false) items ->
  length items < fuel ->
  OntologyProcessor._process_list fuel depth self h
  = Done (map (fun m => OntologyProcessor.member_str (str m)) items).
Proof.
  intros Hlist Hitems Hfuel. unfold OntologyProcessor._process_list.
  by rewrite (list_loop_in_order self h items Hlist Hitems).
Qed.

Lemma process_list_in_order_witness :
  OntologyProcessor._process_list 3 3 Example.processor (BNode "l1")
  = Done [OntologyProcessor.member_str "http://example.org/A";
          OntologyProcessor.member_str "http://example.org/B"].
Proof.
  apply (process_list_in_order Example.processor (BNode "l1")
           [Example.ex "A"; Example.ex "B"] 3 3).
  - apply (rdf_list_cons _ (BNode "l1") (Example.ex "A") (BNode "l2")); try reflexivity.
    apply (rdf_list_cons _ (BNode "l2") (Example.ex "B") RDF.nil); try reflexivity.
    by apply rdf_list_nil.
  - by repeat constructor.
  - simpl. lia.
Defined.

(** ** The relations of a class and of an individual *)

Lemma named_elements_uri (self : OntologyParser) (l : list node) (tl : string) :
  map uri (named_elements self l tl)
  = map str (List.filter (fun n => negb (is_BNode n)) l).
Proof.
  unfold named_elements. rewrite map_map. apply map_ext.
  intros n. apply create_element_fields.
Qed.

Lemma create_class_restrictions (fuel depth : nat) (self : OntologyParser) (n : node)
    (c : Class) :
  _create_class fuel depth self n = Done c ->
  for_each (fun acc obj =>
              if is_BNode obj && has_triple (graph self) obj RDF.type OWL.Restriction then
                r ← _parse_restriction fuel depth self obj;
                match r with
                | Some restriction => Done (acc ++ [restriction])
                | None => Done acc
                end
              else Done acc)
           (objects (graph self) n RDFS.subClassOf) [] = Done (restrictions c).
Proof.
  unfold _create_class.
  destruct (_extract_preferred_and_others self n [RDFS.label]) as [? others].
  destruct (for_each _ (objects _ _ _) _) as [rs| |]; simpl; try discriminate.
  destruct (for_each _ (predicate_objects _ _) _) as [sk| |]; simpl; try discriminate.
  by intros [= <-].
Qed.

Lemma restrictions_loop (fuel depth : nat) (self : OntologyParser) (l : list node)
    (acc rs : list Restriction) :
  for_each (fun acc obj =>
              if is_BNode obj && has_triple (graph self) obj RDF.type OWL.Restriction then
                r ← _parse_restriction fuel depth self obj;
                match r with
                | Some restriction => Done (acc ++ [restriction])
                | None => Done acc
                end
              else Done acc) l acc = Done rs ->
  exists parsed,
    Forall2 (fun obj r => _parse_restriction fuel depth self obj = Done r)
            (List.filter (fun obj => is_BNode obj
                                     && has_triple (graph self) obj RDF.type OWL.Restriction)
                         l)
            parsed
    /\ rs = acc ++ omap id parsed.
Proof.
  revert acc. induction l as [|obj l IH]; intros acc; simpl.
  - intros [= <-]. exists []. by rewrite app_nil_r.
  - destruct (is_BNode obj && has_triple _ obj RDF.type OWL.Restriction); simpl; [|apply IH].
    destruct (_parse_restriction fuel depth self obj) as [[r|]| |] eqn:Er; simpl;
      try discriminate.
    + intros (parsed & Hall & ->)%IH.
      exists (Some r :: parsed). split; [by constructor|].
      by rewrite <- app_assoc.
    + intros (parsed & Hall & ->)%IH.
      exists (None :: parsed). split; [by constructor|done].
Qed.

(** X8. The relations of a class name resources only. If
    [_create_class] returns, the super-classes, sub-classes and
    disjoint classes are the references to the subClassOf objects,
    subClassOf subjects and disjointWith objects that are not blank
    nodes, in store order, and likewise the properties with the class
    as domain or range; the members are the references to the
    subjects typed with the class that are neither blank nor
    themselves declared [owl:Class], in store order; and the
    restrictions are exactly the parses, in order, of the blank
    superclass nodes typed [owl:Restriction]: each of these nodes is
    parsed, its restriction is recorded unless the parse gives none,
    and a blank superclass without that type never yields a
    restriction. *)
Theorem class_relations (fuel depth : nat) (self : OntologyParser) (n : node) (c : Class) :
  _create_class fuel depth self n = Done c ->
  let g := graph self in
  let named := List.filter (fun x => negb (is_BNode x)) in
  map uri (super_classes c) = map str (named (objects g n RDFS.subClassOf))
  /\ map uri (sub_classes c) = map str (named (subjects g RDFS.subClassOf n))
  /\ map uri (disjoint_with c) = map str (named (objects g n OWL.disjointWith))
  /\ map uri (in_domain_of c) = map str (named (subjects g RDFS.domain n))
  /\ map uri (in_range_of c) = map str (named (subjects g RDFS.range n))
  /\ map uri (members c)
     = map str (named (List.filter (fun s => negb (has_triple g s RDF.type OWL.Class))
                                   (subjects g RDF.type n)))
  /\ Forall (fun m => type_label m = Some "ni") (members c)
  /\ exists parsed,
       Forall2 (fun obj r => _parse_restriction fuel depth self obj = Done r)
               (restriction_nodes g n) parsed
       /\ restrictions c = omap id parsed.
Proof.
  intros H g named.
  pose proof (create_class_fields _ _ _ _ _ H) as (_ & _ & -> & -> & -> & -> & -> & ->).
  rewrite !named_elements_uri. repeat apply conj; try reflexivity.
  - unfold named_elements. apply Forall_forall.
    intros m (s & -> & Hs)%list_elem_of_fmap. apply create_element_fields.
  - apply create_class_restrictions, restrictions_loop in H as (parsed & Hall & ->).
    by exists parsed.
Qed.

(** The class of the pet owners has no named superclass, no member,
    and the one restriction of its blank superclass. *)
Lemma class_relations_witness :
  exists c,
    _create_class 10 10 (__init__ Example.pets) (Example.ex "Owner") = Done c
    /\ map uri (super_classes c) = []
    /\ map uri (members c) = []
    /\ length (restrictions c) = 1.
Proof.
  destruct (_create_class 10 10 (__init__ Example.pets) (Example.ex "Owner"))
    as [c| |] eqn:E; [|vm_compute in E; discriminate E ..].
  exists c. split; [done|].
  pose proof (class_relations 10 10 (__init__ Example.pets) (Example.ex "Owner") c E)
    as (Hsuper & _ & _ & _ & _ & Hmembers & _ & parsed & Hall & Hrs).
  split; [exact Hsuper|]. split; [exact Hmembers|].
  change (restriction_nodes (graph (__init__ Example.pets)) (Example.ex "Owner"))
    with [BNode "r"] in Hall.
  apply Forall2_cons_inv_l in Hall as (x & rest & Hx & Hrest & ->).
  apply Forall2_nil_inv_l in Hrest as ->.
  rewrite Hrs. vm_compute in Hx. by injection Hx as <-.
Defined.

Lemma assertion_of_asserted (self : OntologyParser) (po : node * node) :
  exists label_p label_o,
    assertion_of self po
    = (if asserted po
       then Some (label_p, _resolve_url self (str po.1), label_o,
                  if is_URIRef po.2 then Some (_resolve_url self (str po.2)) else None)
       else None)
    /\ (is_URIRef po.2 = false -> label_o = str po.2).
Proof.
  destruct po as [p o]. unfold assertion_of, asserted. cbn [fst snd].
  destruct (is_BNode o); [by exists "", (str o)|].
  destruct (existsb (node_eqb p) exclude_props); [by exists "", (str o)|].
  destruct (existsb _ exclude_namespaces); [by exists "", (str o)|].
  cbn [negb andb].
  destruct (is_URIRef o); eexists _, _; (split; [reflexivity|done]).
Qed.

(** X9. What an individual records. Its types are the references to
    the [rdf:type] objects other than [owl:NamedIndividual] and blank
    nodes, [same_as] holds the string of every [owl:sameAs] object,
    and there is exactly one assertion for each predicate/object pair
    that is shown, in store order: the assertion links its property
    to the url of the predicate, and links its object to the url of
    the object when the object is a URI; a literal object has no link
    and is shown by its lexical form. *)
Theorem individual_record (self : OntologyParser) (s : node) :
  let g := graph self in
  let i := create_individual self s in
  let shown := List.filter asserted (predicate_objects g s) in
  map uri (types i)
  = map str (List.filter (fun obj => negb (node_eqb obj OWL.NamedIndividual)
                                     && negb (is_BNode obj)) (objects g s RDF.type))
  /\ same_as i = map str (objects g s OWL.sameAs)
  /\ map (fun t => t.1.1.2) (assertions i)
     = map (fun po => _resolve_url self (str po.1)) shown
  /\ map (fun t => t.2) (assertions i)
     = map (fun po => if is_URIRef po.2 then Some (_resolve_url self (str po.2)) else None)
           shown
  /\ Forall2 (fun t po => is_URIRef po.2 = false -> t.1.2 = str po.2)
             (assertions i) shown.
Proof.
  intros g i shown. unfold i, create_individual.
  destruct (_extract_preferred_and_others self s [RDFS.label]) as [? others].
  cbn [types same_as assertions]. fold g.
  repeat apply conj; try reflexivity.
  - rewrite map_map. apply map_ext. intros n. apply create_element_fields.
  - unfold shown. induction (predicate_objects g s) as [|po l IH]; [done|].
    cbn [omap list_omap List.filter].
    destruct (assertion_of_asserted self po) as (lp & lo & -> & _).
    destruct (asserted po); simpl; by rewrite <- IH.
  - unfold shown. induction (predicate_objects g s) as [|po l IH]; [done|].
    cbn [omap list_omap List.filter].
    destruct (assertion_of_asserted self po) as (lp & lo & -> & _).
    destruct (asserted po); simpl; by rewrite <- IH.
  - unfold shown. induction (predicate_objects g s) as [|po l IH]; [constructor|].
    cbn [omap list_omap List.filter].
    destruct (assertion_of_asserted self po) as (lp & lo & -> & Hlo).
    destruct (asserted po); simpl; [by constructor|done].
Qed.

(** ** The entries of the processor *)

Lemma dict_get_set {V : Type} (d : dict.t V) (k k' : string) (v : V) :
  dict.get (dict.set d k v) k' = if String.eqb k k' then Some v else dict.get d k'.
Proof.
  induction d as [|[k0 v0] d IH]; simpl.
  - by destruct (String.eqb k k').
  - destruct (String.eqb_spec k0 k) as [->|Hk]; simpl.
    + by destruct (String.eqb k k').
    + destruct (String.eqb_spec k0 k') as [->|Hk'].
      * by destruct (String.eqb_spec k k') as [->|_].
      * apply IH.
Qed.

Lemma add_text_wf (texts : dict.t (list string)) (o : node) :
  dict.wf texts -> dict.wf (OntologyProcessor.add_text texts o).
Proof.
  intros H. unfold OntologyProcessor.add_text. destruct o as [| |l]; try done.
  cbv zeta. destruct (dict.get texts _); by apply dict_set_wf.
Qed.

Lemma foldl_add_text_wf (l : list node) (texts : dict.t (list string)) :
  dict.wf texts -> dict.wf (foldl OntologyProcessor.add_text texts l).
Proof.
  revert texts. induction l as [|o l IH]; intros texts H; [done|].
  simpl. by apply IH, add_text_wf.
Qed.

Lemma add_text_get (texts : dict.t (list string)) (o : node) (lang : string) :
  dict.get (OntologyProcessor.add_text texts o) lang
  = match texts_in lang [o] with
    | [] => dict.get texts lang
    | ys => Some (default [] (dict.get texts lang) ++ ys)
    end.
Proof.
  unfold OntologyProcessor.add_text, texts_in, literals.
  destruct o as [| |l]; try done. cbn [omap list_omap List.filter map].
  change (match language l with
          | Some x => if Py.truthy x then x else "en"
          | None => "en"
          end) with (filed_under l).
  destruct (dict.get texts (filed_under l)) as [xs|] eqn:E;
    rewrite dict_get_set; destruct (String.eqb_spec (filed_under l) lang) as [<-|Hne];
    simpl; by rewrite ?E.
Qed.

Lemma texts_in_cons (lang : string) (o : node) (l : list node) :
  texts_in lang (o :: l) = texts_in lang [o] ++ texts_in lang l.
Proof.
  unfold texts_in, literals. cbn [omap list_omap].
  destruct o as [| |x]; try done. simpl.
  by destruct (String.eqb (filed_under x) lang).
Qed.

Lemma foldl_add_text_get (l : list node) (texts : dict.t (list string)) (lang : string) :
  dict.get (foldl OntologyProcessor.add_text texts l) lang
  = match texts_in lang l with
    | [] => dict.get texts lang
    | ys => Some (default [] (dict.get texts lang) ++ ys)
    end.
Proof.
  revert texts. induction l as [|o l IH]; intros texts; [done|].
  cbn [foldl]. rewrite IH, add_text_get, (texts_in_cons lang o l).
  destruct (texts_in lang [o]) as [|y ys]; simpl; [done|].
  destruct (texts_in lang l) as [|z zs]; simpl; [by rewrite app_nil_r|].
  by rewrite <- app_assoc.
Qed.

Lemma extract_entity_info_fields (fuel depth : nat) (self : OntologyProcessor.t) (entity : node)
    (i : OntologyProcessor.entity_info.t) :
  OntologyProcessor._extract_entity_info fuel depth self entity = Done i ->
  let g := OntologyProcessor.graph self in
  OntologyProcessor.entity_info.uri i = str entity
  /\ OntologyProcessor.entity_info.labels i
     = foldl OntologyProcessor.add_text [] (objects g entity RDFS.label)
  /\ OntologyProcessor.entity_info.comments i
     = foldl OntologyProcessor.add_text [] (objects g entity RDFS.comment)
  /\ for_each (OntologyProcessor.annotation_of fuel depth self) (predicate_objects g entity) []
     = Done (OntologyProcessor.entity_info.annotations i).
Proof.
  unfold OntologyProcessor._extract_entity_info. cbv zeta.
  destruct (for_each _ _ _) as [annotations| |]; simpl; try discriminate.
  by intros [= <-].
Qed.

(** X10. The labels and comments of an entry are grouped by
    language. If [_extract_entity_info] returns, the entry carries
    the string of the entity as its uri, and under each language the
    lexical forms of the [rdfs:label] literals (and, for the comments,
    of the [rdfs:comment] literals) of that language, in store order;
    a literal without language is filed under ["en"], objects that
    are not literals are left out, and a language without text has no
    key. *)
Theorem entity_texts_by_language (fuel depth : nat) (self : OntologyProcessor.t)
    (entity : node) (i : OntologyProcessor.entity_info.t) :
  OntologyProcessor._extract_entity_info fuel depth self entity = Done i ->
  let g := OntologyProcessor.graph self in
  let filed (d : dict.t (list string)) (l : list node) :=
    dict.wf d
    /\ forall lang,
         dict.get d lang
         = match texts_in lang l with [] => None | ys => Some ys end in
  OntologyProcessor.entity_info.uri i = str entity
  /\ filed (OntologyProcessor.entity_info.labels i) (objects g entity RDFS.label)
  /\ filed (OntologyProcessor.entity_info.comments i) (objects g entity RDFS.comment).
Proof.
  intros (Hu & -> & -> & _)%extract_entity_info_fields g filed.
  split; [done|].
  split; (split; [apply foldl_add_text_wf, NoDup_nil_2|]); intros lang;
    apply foldl_add_text_get.
Qed.

Lemma entity_texts_by_language_witness :
  exists i,
    OntologyProcessor._extract_entity_info 0 0 Example.people_processor
      (Example.ex "Person") = Done i
    /\ dict.get (OntologyProcessor.entity_info.labels i) "en" = Some ["Person"; "Persoon"]
    /\ dict.get (OntologyProcessor.entity_info.labels i) "fr" = Some ["Personne"]
    /\ dict.get (OntologyProcessor.entity_info.labels i) "de" = None.
Proof.
  destruct (OntologyProcessor._extract_entity_info 0 0 Example.people_processor
              (Example.ex "Person")) as [i| |] eqn:E; [|vm_compute in E; discriminate E ..].
  exists i. split; [done|].
  pose proof (entity_texts_by_language 0 0 Example.people_processor (Example.ex "Person") i E)
    as (_ & (_ & H) & _).
  by rewrite !H.
Defined.

Lemma add_text_first (k0 x0 : string) (r0 : list string) (rest : dict.t (list string))
    (o : node) :
  exists r0' rest',
    OntologyProcessor.add_text ((k0, x0 :: r0) :: rest) o = (k0, x0 :: r0') :: rest'.
Proof.
  unfold OntologyProcessor.add_text. destruct o as [| |l]; try by eexists _, _.
  cbv zeta. cbn [dict.get].
  destruct (String.eqb k0 _) eqn:Ek.
  - cbn [dict.set]. rewrite Ek. by eexists _, _.
  - destruct (dict.get rest _); cbn [dict.set]; rewrite Ek; by eexists _, _.
Qed.

Lemma foldl_add_text_first (l : list node) (k0 x0 : string) (r0 : list string)
    (rest : dict.t (list string)) :
  exists r0' rest',
    foldl OntologyProcessor.add_text ((k0, x0 :: r0) :: rest) l = (k0, x0 :: r0') :: rest'.
Proof.
  revert r0 rest. induction l as [|o l IH]; intros r0 rest; [by eexists _, _|].
  cbn [foldl]. destruct (add_text_first k0 x0 r0 rest o) as (r1 & rest1 & ->).
  apply IH.
Qed.

Lemma foldl_add_text_head (l : list node) :
  HTMLGenerator.first_label (map snd (foldl OntologyProcessor.add_text [] l))
  = lexical <$> head (literals l).
Proof.
  induction l as [|o l IH]; [done|]. cbn [foldl].
  destruct o as [| |x]; try apply IH.
  unfold literals. cbn [omap list_omap head fmap option_fmap option_map].
  change (OntologyProcessor.add_text [] (Lit x)) with [(filed_under x, [lexical x])].
  by destruct (foldl_add_text_first l (filed_under x) (lexical x) [] [])
    as (r & rest & ->).
Qed.

(** X11. The display label of an extracted entity. The label that
    [_get_entity_label] gives for the entry that
    [_extract_entity_info] builds is the first [rdfs:label] literal
    of the requested language; without one, the first that is in
    English or has no language; without one, the first label literal
    of any language in store order; and when the entity has no label
    literal at all, the fragment of its URI. *)
Theorem extracted_entity_label (fuel depth : nat) (self : OntologyProcessor.t)
    (entity : node) (i : OntologyProcessor.entity_info.t) (lang : string) :
  OntologyProcessor._extract_entity_info fuel depth self entity = Done i ->
  let label_nodes := objects (OntologyProcessor.graph self) entity RDFS.label in
  HTMLGenerator._get_entity_label (entity_data_of i) lang
  = match texts_in lang label_nodes with
    | x :: _ => x
    | [] =>
        match texts_in "en" label_nodes with
        | x :: _ => x
        | [] =>
            match literals label_nodes with
            | l :: _ => lexical l
            | [] => HTMLGenerator._uri_to_label (str entity)
            end
        end
    end.
Proof.
  intros (Hu & Hl & _)%extract_entity_info_fields label_nodes.
  unfold HTMLGenerator._get_entity_label, entity_data_of.
  cbn [HTMLGenerator.labels HTMLGenerator.uri]. rewrite Hu, Hl.
  fold label_nodes. rewrite !foldl_add_text_get, foldl_add_text_head. simpl.
  destruct (texts_in lang label_nodes) as [|x xs]; [|done].
  destruct (texts_in "en" label_nodes) as [|y ys]; [|done].
  by destruct (literals label_nodes).
Qed.

Lemma extracted_entity_label_witness :
  exists i,
    OntologyProcessor._extract_entity_info 0 0 Example.people_processor
      (Example.ex "Person") = Done i
    /\ HTMLGenerator._get_entity_label (entity_data_of i) "fr" = "Personne"
    /\ HTMLGenerator._get_entity_label (entity_data_of i) "de" = "Person".
Proof.
  destruct (OntologyProcessor._extract_entity_info 0 0 Example.people_processor
              (Example.ex "Person")) as [i| |] eqn:E; [|vm_compute in E; discriminate E ..].
  exists i. split; [done|].
  by rewrite !(extracted_entity_label 0 0 Example.people_processor (Example.ex "Person") i _ E).
Defined.

Lemma annotation_of_spec (fuel depth : nat) (self : OntologyProcessor.t)
    (acc acc' : list OntologyProcessor.annotation.t) (p o : node) :
  OntologyProcessor.annotation_of fuel depth self acc (p, o) = Done acc' ->
  acc' = acc
  \/ exists a,
       acc' = acc ++ [a]
       /\ OntologyProcessor.annotation.property a = str p
       /\ existsb (node_eqb p) [RDFS.label; RDFS.comment; RDF.type] = false
       /\ match o with
          | Lit _ =>
              OntologyProcessor.annotation.type a = "literal"
              /\ OntologyProcessor.annotation.value a = str o
          | URIRef _ =>
              OntologyProcessor.annotation.type a = "uri"
              /\ OntologyProcessor.annotation.value a = str o
          | BNode _ =>
              OntologyProcessor.annotation.type a = "resolved_bnode"
              /\ node_eqb p RDFS.subClassOf = false
              /\ OntologyProcessor.annotation.value a <> ""
              /\ OntologyProcessor._resolve_blank_node fuel depth self o
                 = Done (Some (OntologyProcessor.annotation.value a))
          end.
Proof.
  unfold OntologyProcessor.annotation_of.
  destruct (existsb _ _) eqn:Ex; [intros [= <-]; by left|].
  destruct (node_eqb p RDFS.subClassOf) eqn:Es; simpl.
  - destruct o as [u|b|l]; simpl.
    + intros [= <-]. right. by eexists.
    + intros [= <-]. by left.
    + intros [= <-]. right. by eexists.
  - destruct o as [u|b|l]; simpl.
    + intros [= <-]. right. by eexists.
    + destruct (OntologyProcessor._resolve_blank_node fuel depth self (BNode b))
        as [[r|]| |]; simpl; try discriminate; [|intros [= <-]; by left].
      destruct (Py.truthy r) eqn:Er; intros [= <-]; [|by left].
      right. eexists. repeat split.
      simpl. intros ->. discriminate Er.
    + intros [= <-]. right. by eexists.
Qed.

(** X12. What the annotations of an entry are. If
    [_extract_entity_info] returns, every annotation comes from a
    predicate/object pair of the entity whose predicate is none of
    [rdfs:label], [rdfs:comment] and [rdf:type], and carries the
    string of that predicate. An annotation of type ["literal"] or
    ["uri"] holds the string of a literal or URI object; one of type
    ["resolved_bnode"] holds the non-empty description that
    [_resolve_blank_node] gives for a blank object, and is never made
    for [rdfs:subClassOf]. *)
Theorem annotations_sound (fuel depth : nat) (self : OntologyProcessor.t) (entity : node)
    (i : OntologyProcessor.entity_info.t) (a : OntologyProcessor.annotation.t) :
  OntologyProcessor._extract_entity_info fuel depth self entity = Done i ->
  a ∈ OntologyProcessor.entity_info.annotations i ->
  exists p o,
    (p, o) ∈ predicate_objects (OntologyProcessor.graph self) entity
    /\ OntologyProcessor.annotation.property a = str p
    /\ existsb (node_eqb p) [RDFS.label; RDFS.comment; RDF.type] = false
    /\ match o with
       | Lit _ =>
           OntologyProcessor.annotation.type a = "literal"
           /\ OntologyProcessor.annotation.value a = str o
       | URIRef _ =>
           OntologyProcessor.annotation.type a = "uri"
           /\ OntologyProcessor.annotation.value a = str o
       | BNode _ =>
           OntologyProcessor.annotation.type a = "resolved_bnode"
           /\ node_eqb p RDFS.subClassOf = false
           /\ OntologyProcessor.annotation.value a <> ""
           /\ OntologyProcessor._resolve_blank_node fuel depth self o
              = Done (Some (OntologyProcessor.annotation.value a))
       end.
Proof.
  intros (_ & _ & _ & E)%extract_entity_info_fields. revert a.
  refine (for_each_inv _ (fun acc => forall a, a ∈ acc -> _) _ _ _ _ _ E).
  - intros a Ha. by apply elem_of_nil in Ha.
  - intros acc [p o] acc' Hpo IH Hbody a Ha.
    apply annotation_of_spec in Hbody as [->|(a' & -> & Hp & Hx & Ho)]; [by apply IH|].
    apply elem_of_app in Ha as [Ha|Ha]; [by apply IH|].
    apply list_elem_of_singleton in Ha as ->. by exists p, o.
Qed.

Lemma annotations_sound_witness :
  exists i a,
    OntologyProcessor._extract_entity_info 0 0 Example.people_processor
      (Example.ex "john") = Done i
    /\ a ∈ OntologyProcessor.entity_info.annotations i
    /\ exists p o,
         (p, o) ∈ predicate_objects Example.people (Example.ex "john")
         /\ OntologyProcessor.annotation.property a = str p
         /\ existsb (node_eqb p) [RDFS.label; RDFS.comment; RDF.type] = false.
Proof.
  destruct (OntologyProcessor._extract_entity_info 0 0 Example.people_processor
              (Example.ex "john")) as [i| |] eqn:E; [|vm_compute in E; discriminate E ..].
  exists i, (OntologyProcessor.annotation.mk "http://example.org/knows"
               "http://other.org/mary" "uri").
  assert (OntologyProcessor.annotation.mk "http://example.org/knows"
            "http://other.org/mary" "uri"
          ∈ OntologyProcessor.entity_info.annotations i) as Ha.
  { vm_compute in E. injection E as <-. simpl. by left. }
  split; [done|]. split; [done|].
  destruct (annotations_sound 0 0 Example.people_processor (Example.ex "john") i _ E Ha)
    as (p & o & Hpo & Hp & Hx & _).
  by exists p, o.
Defined.

(** ** The dictionaries of the processor *)

Lemma subjects_URIRef (g : Graph) (p o : node) (k : string) :
  URIRef k ∈ subjects g p o <-> has_triple g (URIRef k) p o = true.
Proof.
  rewrite subjects_elem. unfold has_triple. rewrite existsb_exists. split.
  - intros (p' & o' & Hin & Hp & Ho). exists (URIRef k, p', o').
    split; [by apply list_elem_of_In|]. simpl. by rewrite String.eqb_refl, Hp, Ho.
  - intros ([[s' p'] o'] & Hin & H). apply list_elem_of_In in Hin.
    apply andb_prop in H as [H Ho]. apply andb_prop in H as [Hs Hp].
    destruct s' as [u| |]; try discriminate. simpl in Hs.
    apply String.eqb_eq in Hs as ->. by exists p', o'.
Qed.

Lemma dict_loop {V : Type} (entry : node -> outcome V)
    (body : dict.t V -> node -> outcome (dict.t V)) (l : list node) :
  (forall d x, body d x
               = if is_URIRef x then (e ← entry x; Done (dict.set d (str x) e))
                 else Done d) ->
  forall acc r,
    for_each body l acc = Done r -> dict.wf acc ->
    dict.wf r
    /\ forall k,
         (URIRef k ∈ l /\ exists v, entry (URIRef k) = Done v /\ dict.get r k = Some v)
         \/ ((URIRef k ∉ l) /\ dict.get r k = dict.get acc k).
Proof.
  intros Hbody. induction l as [|x l IH]; intros acc r; simpl.
  - intros [= <-] Hwf. split; [done|]. intros k. right. split; [|done].
    apply not_elem_of_nil.
  - rewrite Hbody. destruct x as [u|b|lit]; simpl.
    + destruct (entry (URIRef u)) as [e| |] eqn:Ee; simpl; try discriminate.
      intros Hr Hwf. apply IH in Hr as [Hwf' Hr]; [|by apply dict_set_wf].
      split; [done|]. intros k.
      destruct (Hr k) as [(Hin & v & Hv & Hget)|[Hnotin Hget]].
      * left. split; [by right|]. by exists v.
      * rewrite dict_get_set in Hget.
        destruct (String.eqb_spec u k) as [->|Hne].
        -- left. split; [by left|]. by exists e.
        -- right. split; [|done]. intros [[= ->]|Hin]%elem_of_cons; done.
    + intros Hr Hwf. apply IH in Hr as [Hwf' Hr]; [|done].
      split; [done|]. intros k.
      destruct (Hr k) as [(Hin & v & Hv & Hget)|[Hnotin Hget]].
      * left. split; [by right|]. by exists v.
      * right. split; [|done]. intros [[=]|Hin]%elem_of_cons; done.
    + intros Hr Hwf. apply IH in Hr as [Hwf' Hr]; [|done].
      split; [done|]. intros k.
      destruct (Hr k) as [(Hin & v & Hv & Hget)|[Hnotin Hget]].
      * left. split; [by right|]. by exists v.
      * right. split; [|done]. intros [[=]|Hin]%elem_of_cons; done.
Qed.

Lemma superclasses_loop (fuel depth : nat) (self : OntologyProcessor.t) (l : list node)
    (acc r : list string * list OntologyProcessor.expression) :
  for_each (fun (acc : list string * list OntologyProcessor.expression) o =>
              let '(superclasses, restrictions) := acc in
              match o with
              | URIRef _ => Done (superclasses ++ [str o], restrictions)
              | BNode _ =>
                  restriction ← OntologyProcessor._process_class_expression fuel depth self o;
                  match restriction with
                  | Some r => Done (superclasses, restrictions ++ [r])
                  | None => Done acc
                  end
              | Lit _ => Done acc
              end) l acc = Done r ->
  r.1 = acc.1 ++ OntologyProcessor.uris l
  /\ exists decoded,
       Forall2 (fun o e =>
                  OntologyProcessor._process_class_expression fuel depth self o = Done e)
               (List.filter is_BNode l) decoded
       /\ r.2 = acc.2 ++ omap id decoded.
Proof.
  revert acc. induction l as [|o l IH]; intros [supers restrs]; simpl.
  - intros [= <-]. simpl. rewrite app_nil_r. split; [done|].
    exists []. by rewrite app_nil_r.
  - destruct o as [u|b|lit]; simpl.
    + intros (-> & decoded & Hall & ->)%IH. simpl.
      unfold OntologyProcessor.uris. simpl. rewrite <- app_assoc.
      split; [done|]. by exists decoded.
    + destruct (OntologyProcessor._process_class_expression fuel depth self (BNode b))
        as [[e|]| |] eqn:Ee; simpl; try discriminate.
      * intros (-> & decoded & Hall & ->)%IH. simpl. split; [done|].
        exists (Some e :: decoded). split; [by constructor|].
        by rewrite <- app_assoc.
      * intros (-> & decoded & Hall & ->)%IH. simpl. split; [done|].
        exists (None :: decoded). split; [by constructor|done].
    + intros (-> & decoded & Hall & ->)%IH. simpl. split; [done|].
      by exists decoded.
Qed.

Lemma class_entry_fields (fuel depth : nat) (self : OntologyProcessor.t) (cls : node)
    (ci : OntologyProcessor.class_info.t) :
  OntologyProcessor.class_entry fuel depth self cls = Done ci ->
  let g := OntologyProcessor.graph self in
  OntologyProcessor._extract_entity_info fuel depth self cls
  = Done (OntologyProcessor.class_info.info ci)
  /\ OntologyProcessor.class_info.superclasses ci
     = OntologyProcessor.uris (objects g cls RDFS.subClassOf)
  /\ OntologyProcessor.class_info.subclasses ci
     = OntologyProcessor.uris (subjects g RDFS.subClassOf cls)
  /\ OntologyProcessor.class_info.equivalent_classes ci
     = OntologyProcessor.uris (objects g cls OWL.equivalentClass)
  /\ OntologyProcessor.class_info.disjoint_with ci
     = OntologyProcessor.uris (objects g cls OWL.disjointWith)
  /\ exists decoded,
       Forall2 (fun o e =>
                  OntologyProcessor._process_class_expression fuel depth self o = Done e)
               (List.filter is_BNode (objects g cls RDFS.subClassOf)) decoded
       /\ OntologyProcessor.class_info.restrictions ci = omap id decoded.
Proof.
  unfold OntologyProcessor.class_entry. cbv zeta.
  destruct (OntologyProcessor._extract_entity_info fuel depth self cls) as [i| |]; simpl;
    try discriminate.
  destruct (for_each _ _ _) as [[supers restrs]| |] eqn:E; simpl; try discriminate.
  intros [= <-]. simpl.
  apply superclasses_loop in E as (Hs & decoded & Hall & Hr).
  simpl in Hs, Hr. subst. repeat split; try done. by exists decoded.
Qed.

(** X13. The dictionary of classes of the processor. If
    [get_classes] returns, its keys are pairwise different and are
    exactly the URIs that the graph declares [owl:Class]; a blank
    node never has an entry. The entry under a key is the one built
    for that very URI: it carries the key as its uri, the
    super-classes, sub-classes, equivalent and disjoint classes that
    are URIs, in store order, and as restrictions exactly the decoded
    expressions of the blank superclass nodes, in order: each of
    these nodes is decoded, and its expression is recorded unless the
    decoder gives none. *)
Theorem processor_classes (fuel depth : nat) (self : OntologyProcessor.t)
    (classes : dict.t OntologyProcessor.class_info.t) :
  OntologyProcessor.get_classes fuel depth self = Done classes ->
  let g := OntologyProcessor.graph self in
  dict.wf classes
  /\ forall k,
       match dict.get classes k with
       | Some ci =>
           has_triple g (URIRef k) RDF.type OWL.Class = true
           /\ OntologyProcessor.entity_info.uri (OntologyProcessor.class_info.info ci) = k
           /\ OntologyProcessor.class_info.superclasses ci
              = OntologyProcessor.uris (objects g (URIRef k) RDFS.subClassOf)
           /\ OntologyProcessor.class_info.subclasses ci
              = OntologyProcessor.uris (subjects g RDFS.subClassOf (URIRef k))
           /\ OntologyProcessor.class_info.equivalent_classes ci
              = OntologyProcessor.uris (objects g (URIRef k) OWL.equivalentClass)
           /\ OntologyProcessor.class_info.disjoint_with ci
              = OntologyProcessor.uris (objects g (URIRef k) OWL.disjointWith)
           /\ exists decoded,
                Forall2 (fun o e =>
                           OntologyProcessor._process_class_expression fuel depth self o
                           = Done e)
                        (List.filter is_BNode (objects g (URIRef k) RDFS.subClassOf))
                        decoded
                /\ OntologyProcessor.class_info.restrictions ci = omap id decoded
       | None => has_triple g (URIRef k) RDF.type OWL.Class = false
       end.
Proof.
  intros H g. unfold OntologyProcessor.get_classes in H.
  apply (dict_loop (OntologyProcessor.class_entry fuel depth self)) in H as [Hwf H];
    [|done|apply NoDup_nil_2].
  split; [done|]. intros k.
  destruct (H k) as [(Hin & ci & Hci & ->)|[Hnotin ->]].
  - apply subjects_URIRef in Hin. split; [done|].
    apply class_entry_fields in Hci as (Hi & -> & -> & -> & -> & Hr).
    apply extract_entity_info_fields in Hi as (-> & _). by repeat split.
  - simpl. rewrite subjects_URIRef in Hnotin.
    by destruct (has_triple _ _ _ _).
Qed.

(** The classes of [people] have entries and the individual has
    none; the class of the pet owners has the one restriction of its
    blank superclass. *)
Lemma processor_classes_witness :
  (exists classes,
     OntologyProcessor.get_classes 0 0 Example.people_processor = Done classes
     /\ dict.wf classes
     /\ is_Some (dict.get classes "http://example.org/Person")
     /\ dict.get classes "http://example.org/john" = None)
  /\ (exists classes ci,
        OntologyProcessor.get_classes 1 1 Example.pets_processor = Done classes
        /\ dict.get classes "http://example.org/Owner" = Some ci
        /\ OntologyProcessor.class_info.restrictions ci
           = [OntologyProcessor.restriction "some" "http://example.org/owns" "u" None]).
Proof.
  split.
  - destruct (OntologyProcessor.get_classes 0 0 Example.people_processor)
      as [classes| |] eqn:E; [|vm_compute in E; discriminate E ..].
    exists classes. split; [done|].
    pose proof (processor_classes 0 0 Example.people_processor classes E) as [Hwf H].
    split; [done|]. split.
    + specialize (H "http://example.org/Person").
      destruct (dict.get classes "http://example.org/Person"); [done|].
      vm_compute in H. discriminate H.
    + specialize (H "http://example.org/john").
      destruct (dict.get classes "http://example.org/john") as [ci|]; [|done].
      destruct H as [H _]. vm_compute in H. discriminate H.
  - destruct (OntologyProcessor.get_classes 1 1 Example.pets_processor)
      as [classes| |] eqn:E; [|vm_compute in E; discriminate E ..].
    pose proof (processor_classes 1 1 Example.pets_processor classes E) as [_ H].
    specialize (H "http://example.org/Owner").
    destruct (dict.get classes "http://example.org/Owner") as [ci|] eqn:Eg;
      [|vm_compute in H; discriminate H].
    exists classes, ci. split; [done|]. split; [done|].
    destruct H as (_ & _ & _ & _ & _ & _ & decoded & Hall & ->).
    change (List.filter is_BNode
              (objects (OntologyProcessor.graph Example.pets_processor)
                       (URIRef "http://example.org/Owner") RDFS.subClassOf))
      with [BNode "r"] in Hall.
    apply Forall2_cons_inv_l in Hall as (x & rest & Hx & Hrest & ->).
    apply Forall2_nil_inv_l in Hrest as ->.
    vm_compute in Hx. by injection Hx as <-.
Defined.

Lemma extract_property_info_fields (fuel depth : nat) (self : OntologyProcessor.t) (prop : node)
    (kind : string) (pi : OntologyProcessor.property_info.t) :
  OntologyProcessor._extract_property_info fuel depth self prop kind = Done pi ->
  let g := OntologyProcessor.graph self in
  OntologyProcessor.property_info.property_type pi = kind
  /\ OntologyProcessor.entity_info.uri (OntologyProcessor.property_info.info pi) = str prop
  /\ OntologyProcessor.property_info.domain pi = map str (objects g prop RDFS.domain)
  /\ OntologyProcessor.property_info.range pi = map str (objects g prop RDFS.range)
  /\ (is_Some (OntologyProcessor.property_info.characteristics pi) <-> kind = "object")
  /\ (is_Some (OntologyProcessor.property_info.inverse_of pi) <-> kind = "object").
Proof.
  unfold OntologyProcessor._extract_property_info. cbv zeta.
  destruct (OntologyProcessor._extract_entity_info fuel depth self prop) as [i| |] eqn:Ei;
    simpl; try discriminate.
  intros [= <-]. simpl.
  apply extract_entity_info_fields in Ei as (Hu & _).
  repeat split; try done.
  all: destruct (String.eqb_spec kind "object") as [->|Hne]; try done.
  all: try by intros [? [=]].
Qed.

(** X14. The dictionary of properties of the processor. If
    [get_properties] returns, its keys are pairwise different and are
    exactly the URIs declared as object, datatype or annotation
    property. A URI declared with more than one of these types has
    one entry only, of the kind of the last loop that meets it:
    annotation before data before object. The entry carries the key
    as its uri and all its domains and ranges; the keys
    ['characteristics'] and ['inverse_of'] are there exactly for the
    kind ["object"], so a property that is also declared a datatype
    or annotation property loses them. *)
Theorem processor_properties (fuel depth : nat) (self : OntologyProcessor.t)
    (properties : dict.t OntologyProcessor.property_info.t) :
  OntologyProcessor.get_properties fuel depth self = Done properties ->
  let g := OntologyProcessor.graph self in
  dict.wf properties
  /\ forall k,
       match dict.get properties k with
       | Some pi =>
           declared_kind g k = Some (OntologyProcessor.property_info.property_type pi)
           /\ OntologyProcessor.entity_info.uri (OntologyProcessor.property_info.info pi) = k
           /\ OntologyProcessor.property_info.domain pi
              = map str (objects g (URIRef k) RDFS.domain)
           /\ OntologyProcessor.property_info.range pi
              = map str (objects g (URIRef k) RDFS.range)
           /\ (is_Some (OntologyProcessor.property_info.characteristics pi)
               <-> OntologyProcessor.property_info.property_type pi = "object")
           /\ (is_Some (OntologyProcessor.property_info.inverse_of pi)
               <-> OntologyProcessor.property_info.property_type pi = "object")
       | None => declared_kind g k = None
       end.
Proof.
  intros H g. subst g. unfold OntologyProcessor.get_properties in H.
  destruct (OntologyProcessor.properties_loop fuel depth self OWL.ObjectProperty "object" [])
    as [p1| |] eqn:E1; simpl in H; try discriminate.
  destruct (OntologyProcessor.properties_loop fuel depth self OWL.DatatypeProperty "data" p1)
    as [p2| |] eqn:E2; simpl in H; try discriminate.
  unfold OntologyProcessor.properties_loop in *.
  apply (dict_loop (fun prop =>
                      OntologyProcessor._extract_property_info fuel depth self prop "object"))
    in E1 as [Hwf1 H1]; [|done|apply NoDup_nil_2].
  apply (dict_loop (fun prop =>
                      OntologyProcessor._extract_property_info fuel depth self prop "data"))
    in E2 as [Hwf2 H2]; [|done|done].
  apply (dict_loop (fun prop =>
                      OntologyProcessor._extract_property_info fuel depth self prop "annotation"))
    in H as [Hwf3 H3]; [|done|done].
  split; [done|]. intros k. unfold declared_kind.
  destruct (H3 k) as [(Hin & pi & Hpi & ->)|[Hnotin ->]].
  { apply subjects_URIRef in Hin. rewrite Hin.
    by apply extract_property_info_fields in Hpi as (-> & -> & -> & -> & ? & ?). }
  rewrite subjects_URIRef in Hnotin. apply not_true_is_false in Hnotin.
  rewrite Hnotin.
  destruct (H2 k) as [(Hin & pi & Hpi & ->)|[Hnotin2 ->]].
  { apply subjects_URIRef in Hin. rewrite Hin.
    by apply extract_property_info_fields in Hpi as (-> & -> & -> & -> & ? & ?). }
  rewrite subjects_URIRef in Hnotin2. apply not_true_is_false in Hnotin2.
  rewrite Hnotin2.
  destruct (H1 k) as [(Hin & pi & Hpi & ->)|[Hnotin1 ->]].
  { apply subjects_URIRef in Hin. rewrite Hin.
    by apply extract_property_info_fields in Hpi as (-> & -> & -> & -> & ? & ?). }
  rewrite subjects_URIRef in Hnotin1. apply not_true_is_false in Hnotin1.
  by rewrite Hnotin1.
Qed.

Lemma processor_properties_witness :
  exists properties pi,
    OntologyProcessor.get_properties 0 0 Example.people_processor = Done properties
    /\ dict.get properties "http://example.org/age" = Some pi
    /\ OntologyProcessor.property_info.property_type pi = "data"
    /\ OntologyProcessor.property_info.characteristics pi = None.
Proof.
  destruct (OntologyProcessor.get_properties 0 0 Example.people_processor)
    as [properties| |] eqn:E; [|vm_compute in E; discriminate E ..].
  pose proof (processor_properties 0 0 Example.people_processor properties E) as [_ H].
  specialize (H "http://example.org/age").
  destruct (dict.get properties "http://example.org/age") as [pi|] eqn:Eget;
    [|vm_compute in H; discriminate H].
  exists properties, pi. split; [done|]. split; [done|].
  destruct H as (Hkind & _ & _ & _ & Hc & _).
  assert (Some (OntologyProcessor.property_info.property_type pi) = Some "data")
    as [= Hk] by (rewrite <- Hkind; vm_compute; reflexivity).
  split; [done|]. rewrite Hk in Hc.
  destruct (OntologyProcessor.property_info.characteristics pi) as [c|]; [|done].
  destruct Hc as [Hc _]. discriminate Hc. by exists c.
Defined.

(** X15. The dictionary of individuals of the processor. If
    [get_individuals] returns, its keys are pairwise different and
    are exactly the URIs declared [owl:NamedIndividual]. The entry
    under a key carries the key as its uri, and as types the strings
    of the [rdf:type] objects of that URI that are URIs, in store
    order, without [owl:NamedIndividual] itself. *)
Theorem processor_individuals (fuel depth : nat) (self : OntologyProcessor.t)
    (individuals : dict.t OntologyProcessor.individual_info.t) :
  OntologyProcessor.get_individuals fuel depth self = Done individuals ->
  let g := OntologyProcessor.graph self in
  dict.wf individuals
  /\ forall k,
       match dict.get individuals k with
       | Some ii =>
           has_triple g (URIRef k) RDF.type OWL.NamedIndividual = true
           /\ OntologyProcessor.entity_info.uri (OntologyProcessor.individual_info.info ii)
              = k
           /\ OntologyProcessor.individual_info.types ii
              = map str
                  (List.filter
                     (fun o => is_URIRef o
                               && negb (String.eqb (str o) (str OWL.NamedIndividual)))
                     (objects g (URIRef k) RDF.type))
           /\ str OWL.NamedIndividual ∉ OntologyProcessor.individual_info.types ii
       | None => has_triple g (URIRef k) RDF.type OWL.NamedIndividual = false
       end.
Proof.
  intros H g. subst g. unfold OntologyProcessor.get_individuals in H. cbv zeta in H.
  apply (dict_loop
           (fun ind =>
              info ← OntologyProcessor._extract_entity_info fuel depth self ind;
              Done (OntologyProcessor.individual_info.mk info
                      (map str
                         (List.filter
                            (fun o => is_URIRef o
                                      && negb (String.eqb (str o)
                                                          (str OWL.NamedIndividual)))
                            (objects (OntologyProcessor.graph self) ind RDF.type))))))
    in H as [Hwf H]; [|intros d x|apply NoDup_nil_2].
  - split; [done|]. intros k.
    destruct (H k) as [(Hin & ii & Hii & ->)|[Hnotin ->]].
    + apply subjects_URIRef in Hin. split; [done|].
      destruct (OntologyProcessor._extract_entity_info fuel depth self (URIRef k))
        as [i| |] eqn:Ei; simpl in Hii; try discriminate.
      injection Hii as <-. simpl.
      apply extract_entity_info_fields in Ei as (-> & _).
      repeat split.
      intros (o & Ho & Hin')%list_elem_of_fmap.
      apply list_elem_of_In, filter_In in Hin' as [_ Hf].
      apply andb_prop in Hf as [_ Hf]. rewrite <- Ho, String.eqb_refl in Hf.
      discriminate Hf.
    + simpl. rewrite subjects_URIRef in Hnotin. by apply not_true_is_false in Hnotin.
  - destruct (is_URIRef x); [|done].
    by destruct (OntologyProcessor._extract_entity_info fuel depth self x).
Qed.

Lemma processor_individuals_witness :
  exists individuals ii,
    OntologyProcessor.get_individuals 0 0 Example.people_processor = Done individuals
    /\ dict.get individuals "http://example.org/john" = Some ii
    /\ OntologyProcessor.individual_info.types ii = ["http://example.org/Person"].
Proof.
  destruct (OntologyProcessor.get_individuals 0 0 Example.people_processor)
    as [individuals| |] eqn:E; [|vm_compute in E; discriminate E ..].
  pose proof (processor_individuals 0 0 Example.people_processor individuals E) as [_ H].
  specialize (H "http://example.org/john").
  destruct (dict.get individuals "http://example.org/john") as [ii|] eqn:Eget;
    [|vm_compute in H; discriminate H].
  exists individuals, ii. split; [done|]. split; [done|].
  by destruct H as (_ & _ & -> & _).
Defined.

(** ** Fragments and anchors of URIs *)

Lemma has_char_app (c : ascii) (p r : string) :
  Py.has_char c (p +:+ String c r) = true.
Proof.
  induction p as [|a p IH]; simpl; [by rewrite Ascii.eqb_refl|].
  by destruct (Ascii.eqb a c).
Qed.

Lemma append_separator (p : string) (c : ascii) (r : string) :
  (p +:+ String c "") +:+ r = p +:+ String c r.
Proof.
  induction p as [|a p IH]; [done|].
  change (String a ((p +:+ String c "") +:+ r) = String a (p +:+ String c r)).
  by f_equal.
Qed.

Lemma split_last (c : ascii) (s : string) :
  exists h t,
    Py.split c s = h :: t
    /\ (t = [] <-> Py.has_char c s = false)
    /\ (t = [] -> h = s)
    /\ forall r, last (h :: t) = Some r ->
         Py.has_char c r = false
         /\ (t <> [] -> exists pre, s = pre +:+ String c r).
Proof.
  induction s as [|a s (h & t & Hs & Ht & Hh & Hlast)]; simpl.
  - exists "", []. split; [done|]. split; [done|]. split; [done|].
    intros r [= <-]. split; [done|]. by intros ?.
  - rewrite Hs. destruct (Ascii.eqb a c) eqn:E.
    + apply Ascii.eqb_eq in E as ->. exists "", (h :: t).
      split; [done|]. split; [by split|]. split; [done|].
      intros r H. change (last ("" :: h :: t)) with (last (h :: t)) in H.
      split; [by apply Hlast in H as [? _]|]. intros _.
      destruct t as [|x t'].
      * injection H as <-. rewrite (Hh eq_refl). by exists "".
      * apply Hlast in H as [_ Hpre]. destruct Hpre as [pre ->]; [done|].
        by exists (String c pre).
    + exists (String a h), t.
      split; [done|]. split; [done|]. split; [intros ->; by rewrite (Hh eq_refl)|].
      intros r H. destruct t as [|x t'].
      * injection H as <-. simpl. rewrite E, (Hh eq_refl).
        split; [by apply Ht|]. by intros ?.
      * change (last (String a h :: x :: t')) with (last (h :: x :: t')) in H.
        apply Hlast in H as [Hr Hpre]. split; [done|]. intros _.
        destruct Hpre as [pre ->]; [done|]. by exists (String a pre).
Qed.

Lemma after_last (c : ascii) (s : string) :
  Py.has_char c s = true ->
  exists pre, s = pre +:+ String c (default "" (last (Py.split c s)))
              /\ Py.has_char c (default "" (last (Py.split c s))) = false.
Proof.
  intros H. destruct (split_last c s) as (h & t & -> & Ht & _ & Hlast).
  destruct (last (h :: t)) as [r|] eqn:El.
  - destruct (Hlast r eq_refl) as [Hr Hpre]. simpl.
    destruct Hpre as [pre ->]; [|by exists pre].
    intros Heq%Ht. congruence.
  - by apply last_None in El.
Qed.

Lemma after_last_unique (c : ascii) (p1 r1 p2 r2 : string) :
  p1 +:+ String c r1 = p2 +:+ String c r2 ->
  Py.has_char c r1 = false -> Py.has_char c r2 = false -> r1 = r2.
Proof.
  revert p2. induction p1 as [|a p1 IH]; intros [|b p2]; simpl.
  - by intros [= ->].
  - intros [= -> ->] H1. by rewrite has_char_app in H1.
  - intros [= -> <-] _ H2. by rewrite has_char_app in H2.
  - intros [= -> H]. by apply (IH p2).
Qed.

(** X16. The fragment of a URI. [_uri_to_label], in the generator
    and in the processor alike, returns the text after the last [#]
    of the URI; when the URI has no [#], the text after its last
    [/]; and the URI itself when it has neither. The result is
    always an end of the URI and never contains [#]. A URI that ends
    in its separator has the empty string as its fragment. *)
Theorem uri_to_label_fragment (uri : string) :
  let r := HTMLGenerator._uri_to_label uri in
  OntologyProcessor._uri_to_label uri = r
  /\ (exists pre, uri = pre +:+ r)
  /\ Py.has_char "#" r = false
  /\ (Py.has_char "#" uri = true -> exists pre, uri = pre +:+ String "#" r)
  /\ (Py.has_char "#" uri = false ->
      Py.has_char "/" r = false
      /\ (Py.has_char "/" uri = true -> exists pre, uri = pre +:+ String "/" r)
      /\ (Py.has_char "/" uri = false -> r = uri))
  /\ (forall u, HTMLGenerator._uri_to_label (u +:+ "#") = "")
  /\ (forall u, Py.has_char "#" u = false -> HTMLGenerator._uri_to_label (u +:+ "/") = "").
Proof.
  assert (forall u,
            let r := HTMLGenerator._uri_to_label u in
            (exists pre, u = pre +:+ r)
            /\ Py.has_char "#" r = false
            /\ (Py.has_char "#" u = true -> exists pre, u = pre +:+ String "#" r)
            /\ (Py.has_char "#" u = false ->
                Py.has_char "/" r = false
                /\ (Py.has_char "/" u = true -> exists pre, u = pre +:+ String "/" r)
                /\ (Py.has_char "/" u = false -> r = u))) as Hmain.
  { intros u. unfold HTMLGenerator._uri_to_label.
    destruct (Py.has_char "#" u) eqn:Eh.
    - destruct (after_last "#" u Eh) as (pre & Hu & Hr). cbv zeta.
      repeat split; try done.
      + exists (pre +:+ "#"). rewrite Hu at 1. by rewrite append_separator.
      + intros _. by exists pre.
    - destruct (Py.has_char "/" u) eqn:Es.
      + destruct (after_last "/" u Es) as (pre & Hu & Hr). cbv zeta.
        assert (forall x y, Py.has_char "#" (x +:+ y) = false -> Py.has_char "#" y = false)
          as Hsuffix.
        { intros x y. induction x as [|a x IH]; simpl; [done|].
          by destruct (Ascii.eqb a "#"). }
        repeat split; try done.
        * exists (pre +:+ "/"). rewrite Hu at 1. by rewrite append_separator.
        * apply (Hsuffix (pre +:+ "/")). rewrite append_separator. by rewrite <- Hu.
        * intros _. by exists pre.
      + cbv zeta. repeat split; try done. by exists "". }
  intros r. repeat apply conj; try apply Hmain; try done.
  - intros u. destruct (Hmain (u +:+ "#")) as (_ & Hr & [pre Hpre] & _);
      [apply has_char_app|].
    symmetry in Hpre. by apply after_last_unique in Hpre.
  - intros u Hu.
    assert (Py.has_char "#" (u +:+ "/") = false) as Hno.
    { induction u as [|a u IH]; simpl in *; [done|].
      destruct (Ascii.eqb a "#"); [done|]. by apply IH. }
    destruct (Hmain (u +:+ "/")) as (_ & _ & _ & H). destruct (H Hno) as (Hr & [pre Hpre] & _);
      [apply has_char_app|].
    symmetry in Hpre. by apply after_last_unique in Hpre.
Qed.

Lemma anchor_char_clean (a : ascii) :
  HTMLGenerator.anchor_char (if HTMLGenerator.anchor_char a then a else "_"%char) = true.
Proof. destruct (HTMLGenerator.anchor_char a) eqn:E; [done|reflexivity]. Qed.

Lemma clean_chars (s : string) :
  Forall (fun c => HTMLGenerator.anchor_char c = true)
         (String.list_ascii_of_string (HTMLGenerator.clean s)).
Proof.
  induction s as [|a s IH]; simpl; [constructor|].
  constructor; [apply anchor_char_clean|done].
Qed.

Lemma clean_idempotent (s : string) :
  HTMLGenerator.clean (HTMLGenerator.clean s) = HTMLGenerator.clean s.
Proof.
  induction s as [|a s IH]; simpl; [done|].
  by rewrite anchor_char_clean, IH.
Qed.

Lemma clean_length (s : string) :
  String.length (HTMLGenerator.clean s) = String.length s.
Proof. induction s as [|a s IH]; simpl; [done|]. by rewrite IH. Qed.

Lemma clean_no_colon (s : string) : Py.has_char ":" (HTMLGenerator.clean s) = false.
Proof.
  induction s as [|a s IH]; simpl; [done|]. rewrite IH.
  pose proof (anchor_char_clean a) as H.
  destruct (Ascii.eqb_spec (if HTMLGenerator.anchor_char a then a else "_"%char) ":")
    as [E|_]; [|done].
  rewrite E in H. vm_compute in H. discriminate H.
Qed.

Lemma prefix_has_char (c : ascii) (p s : string) :
  String.prefix p s = true -> Py.has_char c p = true -> Py.has_char c s = true.
Proof.
  revert s. induction p as [|a p IH]; intros [|b s]; simpl; try done.
  destruct (ascii_dec a b) as [<-|]; [|discriminate].
  intros Hp. destruct (Ascii.eqb a c); [done|]. by apply IH.
Qed.

Lemma without_scheme_clean (s : string) :
  HTMLGenerator.without_scheme (HTMLGenerator.clean s) = HTMLGenerator.clean s.
Proof.
  unfold HTMLGenerator.without_scheme.
  destruct (String.prefix "http://" (HTMLGenerator.clean s)) eqn:E1.
  { apply (prefix_has_char ":") in E1; [|reflexivity].
    by rewrite clean_no_colon in E1. }
  destruct (String.prefix "https://" (HTMLGenerator.clean s)) eqn:E2; [|done].
  apply (prefix_has_char ":") in E2; [|reflexivity].
  by rewrite clean_no_colon in E2.
Qed.

Lemma clean_separator (p s : string) (a b : ascii) :
  HTMLGenerator.anchor_char a = false -> HTMLGenerator.anchor_char b = false ->
  HTMLGenerator.clean (p +:+ String a s) = HTMLGenerator.clean (p +:+ String b s).
Proof.
  intros Ha Hb. induction p as [|c p IH]; simpl; [by rewrite Ha, Hb|]. by rewrite IH.
Qed.

Lemma without_scheme_http (u : string) :
  HTMLGenerator.without_scheme ("http://" +:+ u) = u
  /\ HTMLGenerator.without_scheme ("https://" +:+ u) = u.
Proof.
  assert (forall p s, String.prefix p (p +:+ s) = true) as Hprefix.
  { intros p s. induction p as [|a p IH]; simpl; [by destruct s|].
    by destruct (ascii_dec a a). }
  unfold HTMLGenerator.without_scheme. rewrite !Hprefix.
  by replace (String.prefix "http://" ("https://" +:+ u)) with false by reflexivity.
Qed.

(** X17. The anchor of a URI. [_uri_to_anchor] returns only letters
    and digits of ASCII, [_] and [-]; applying it to an anchor changes
    nothing; the anchor is as long as the URI without its leading
    [http://] or [https://]. Anchors are not unique: the [http] and
    the [https] form of a URI have the same anchor, and so have two
    URIs that differ in one character outside the allowed ones, such
    as [#] against [/]. *)
Theorem uri_to_anchor_shape (uri : string) :
  let anchor := HTMLGenerator._uri_to_anchor uri in
  Forall (fun c => HTMLGenerator.anchor_char c = true) (String.list_ascii_of_string anchor)
  /\ HTMLGenerator._uri_to_anchor anchor = anchor
  /\ String.length anchor = String.length (HTMLGenerator.without_scheme uri)
  /\ HTMLGenerator._uri_to_anchor ("http://" +:+ uri)
     = HTMLGenerator._uri_to_anchor ("https://" +:+ uri)
  /\ forall (s : string) (a b : ascii),
       HTMLGenerator.anchor_char a = false -> HTMLGenerator.anchor_char b = false ->
       HTMLGenerator._uri_to_anchor ("http://" +:+ uri +:+ String a s)
       = HTMLGenerator._uri_to_anchor ("http://" +:+ uri +:+ String b s).
Proof.
  intros anchor. unfold anchor, HTMLGenerator._uri_to_anchor. repeat apply conj.
  - apply clean_chars.
  - by rewrite without_scheme_clean, clean_idempotent.
  - apply clean_length.
  - destruct (without_scheme_http uri) as [-> ->]. reflexivity.
  - intros s a b Ha Hb.
    rewrite !(proj1 (without_scheme_http _)). by apply clean_separator.
Qed.

Lemma dict_get_update {V : Type} (other d : dict.t V) (k : string) :
  dict.wf other ->
  dict.get (dict.update d other) k
  = match dict.get other k with Some v => Some v | None => dict.get d k end.
Proof.
  unfold dict.update, dict.wf. revert d.
  induction other as [|[k0 v0] other IH]; intros d Hwf; simpl; [done|].
  apply NoDup_cons in Hwf as [Hk0 Hwf]. rewrite IH, dict_get_set by done.
  destruct (String.eqb_spec k0 k) as [<-|Hne]; [|done].
  apply dict_get_None in Hk0. simpl in Hk0. by rewrite Hk0.
Qed.

(** X18. The label that the pages show. For an entity whose URI is
    among the merged entities, [_get_unique_label], with the labels
    of [_generate_unique_labels], returns the label registered for
    that URI whatever language is asked for: the English display name
    of the registered entry, or its prefixed form. For a URI that is
    not registered it falls back on [_get_entity_label] in the
    language asked for. The merged entry of a URI is that of the
    individuals when it is there, else that of the properties, else
    that of the classes. *)
Theorem unique_label_shown
    (classes properties individuals : dict.t HTMLGenerator.entity_data)
    (namespaces : dict.t string) (e : HTMLGenerator.entity_data) (lang : string) :
  let all_entities :=
    dict.update (dict.update (dict.update [] classes) properties) individuals in
  let unique_labels :=
    HTMLGenerator._generate_unique_labels classes properties individuals namespaces in
  let shown := HTMLGenerator._get_unique_label e lang unique_labels in
  match dict.get all_entities (HTMLGenerator.uri e) with
  | Some registered =>
      unique_labels !! HTMLGenerator.uri e = Some shown
      /\ (shown = HTMLGenerator._get_entity_label registered "en"
          \/ shown = HTMLGenerator.conflict_label namespaces (HTMLGenerator.uri e)
                       registered)
  | None => shown = HTMLGenerator._get_entity_label e lang
  end
  /\ (dict.wf classes -> dict.wf properties -> dict.wf individuals ->
      forall k,
        dict.get all_entities k
        = match dict.get individuals k with
          | Some i => Some i
          | None =>
              match dict.get properties k with
              | Some p => Some p
              | None => dict.get classes k
              end
          end).
Proof.
  intros all_entities unique_labels shown. subst shown unique_labels all_entities.
  split.
  - destruct (dict.get _ (HTMLGenerator.uri e)) as [registered|] eqn:E.
    + destruct (unique_label_of_group classes properties individuals namespaces _ _ E)
        as (ms & _ & _ & _ & Hl).
      unfold HTMLGenerator._get_unique_label. rewrite Hl.
      split; [done|]. unfold group_label. destruct ms as [|? [|? ?]]; tauto.
    + unfold HTMLGenerator._get_unique_label.
      destruct (_ !! HTMLGenerator.uri e) as [l|] eqn:El; [|done].
      destruct (unique_labels_domain classes properties individuals namespaces
                  (HTMLGenerator.uri e)) as [x Hx]; [by eexists|].
      congruence.
  - intros Hc Hp Hi k.
    rewrite !dict_get_update by done. simpl.
    destruct (dict.get individuals k); [done|].
    by destruct (dict.get properties k); [|destruct (dict.get classes k)].
Qed.

(** ** The relations of a property and the comment of an entity *)

Lemma named_elements_Forall (self : OntologyParser) (l : list node) (tl : string) :
  Forall (fun e => type_label e = Some tl /\ url_resolved self e /\ ∃ n, n ∈ l /\ uri e = str n)
         (named_elements self l tl).
Proof.
  apply Forall_forall. unfold named_elements.
  intros e (n & -> & Hn)%list_elem_of_fmap.
  apply list_elem_of_In, filter_In in Hn as [Hn _]. apply list_elem_of_In in Hn.
  pose proof (create_element_fields self n (Some tl)) as (Hu & Ht & Hurl & _).
  split; [done|]. split; [|by exists n]. unfold url_resolved. by rewrite Hurl, Hu.
Qed.

(** X19. The relations of a property name resources only. The
    super-properties, sub-properties and inverses of a property are
    the references, with the short type of the property itself, to
    the [rdfs:subPropertyOf] objects and subjects and the
    [owl:inverseOf] objects that are not blank nodes; its domains and
    ranges are the references, typed ["c"], to the [rdfs:domain] and
    [rdfs:range] objects that are not blank nodes, so that a domain
    or range given as a class expression is left out. All are in
    store order, and the list of disjoint properties is never
    filled. *)
Theorem property_relations (self : OntologyParser) (n : node) (tl st : string) :
  let g := graph self in
  let p := _create_property self n tl st in
  let named := List.filter (fun x => negb (is_BNode x)) in
  (map uri (super_properties p) = map str (named (objects g n RDFS.subPropertyOf))
   /\ map uri (sub_properties p) = map str (named (subjects g RDFS.subPropertyOf n))
   /\ map uri (inverse p) = map str (named (objects g n OWL.inverseOf))
   /\ Forall (fun e => type_label e = Some st)
             (super_properties p ++ sub_properties p ++ inverse p))
  /\ (map uri (domains p) = map str (named (objects g n RDFS.domain))
      /\ map uri (ranges p) = map str (named (objects g n RDFS.range))
      /\ Forall (fun e => type_label e = Some "c") (domains p ++ ranges p))
  /\ property_disjoint_with p = [].
Proof.
  intros g p named. unfold p, _create_property.
  destruct (_extract_preferred_and_others self n [RDFS.label]) as [? others].
  cbn [super_properties sub_properties domains ranges inverse property_disjoint_with].
  rewrite !named_elements_uri. fold g.
  repeat apply conj; try reflexivity.
  - rewrite !Forall_app. repeat split;
      (eapply Forall_impl; [apply named_elements_Forall|]); by intros e [? _].
  - rewrite !Forall_app. repeat split;
      (eapply Forall_impl; [apply named_elements_Forall|]); by intros e [? _].
Qed.

Lemma prefix_append (s t : string) : String.prefix s (s +:+ t) = true.
Proof.
  induction s as [|a s IH]; simpl; [by destruct t|]. by destruct (ascii_dec a a).
Qed.

Lemma extract_preferred_None (self : OntologyParser) (s : node) (ps : list node) :
  (_extract_preferred_and_others self s ps).1 = None <-> candidates self s ps = [].
Proof.
  unfold _extract_preferred_and_others.
  destruct (candidates self s ps) as [|c0 rest]; [done|]. cbv zeta.
  by destruct (List.filter is_en (c0 :: rest)).
Qed.

(** X20. The comment shown for an entity. [_get_comment_with_translations]
    gives no comment exactly when the entity has no [rdfs:comment]
    literal. Otherwise the comment starts with the preferred comment;
    when that one is not empty and there are alternates, they follow
    it after an empty line, one on each line; when the preferred
    comment is the empty string the alternates are not shown. *)
Theorem comment_with_translations (self : OntologyParser) (n : node) :
  let result := _get_comment_with_translations self n in
  let best := (_extract_preferred_and_others self n [RDFS.comment]).1 in
  let others := (_extract_preferred_and_others self n [RDFS.comment]).2 in
  (result = None <-> candidates self n [RDFS.comment] = [])
  /\ (forall c, result = Some c ->
        exists b, best = Some b /\ String.prefix b c = true
                  /\ (b = "" \/ others = [] -> c = b)
                  /\ (b <> "" -> others <> [] ->
                      c = b +:+ nl +:+ nl +:+ Py.join nl others)).
Proof.
  intros result best others.
  pose proof (extract_preferred_None self n [RDFS.comment]) as Hnone.
  unfold result, best, others, _get_comment_with_translations in *.
  destruct (_extract_preferred_and_others self n [RDFS.comment]) as [[b|] os];
    cbn [fst snd] in *.
  - split.
    + rewrite <- Hnone. destruct os; [done|]. by destruct (Py.truthy b).
    + intros c Hc. exists b. split; [done|].
      destruct os as [|o os].
      * injection Hc as <-.
        assert (String.prefix b b = true) as Hb.
        { clear. induction b as [|a b IH]; simpl; [done|]. by destruct (ascii_dec a a). }
        split; [done|]. split; [done|]. by intros _ ?.
      * destruct (Py.truthy b) eqn:Et; injection Hc as <-.
        -- split; [apply prefix_append|]. split; [|done].
           intros [->|?]; [discriminate Et|done].
        -- apply truthy_false in Et as ->. split; [done|]. split; [done|].
           by intros ?.

  - split; [by rewrite <- Hnone|]. intros c Hc. by destruct os.
Qed.

(** ** The metadata of the processor *)

Lemma with_listed_lookup (g : Graph) (ontology_ref : node) (name : string) (p : node)
    (metadata : gmap string OntologyProcessor.metadata_value) (k : string) :
  with_listed g ontology_ref name p metadata !! k
  = if String.eqb name k
    then match objects g ontology_ref p with
         | [] => metadata !! k
         | vs => Some (OntologyProcessor.strings (map str vs))
         end
    else metadata !! k.
Proof.
  unfold with_listed.
  destruct (String.eqb_spec name k) as [<-|Hne]; destruct (objects g ontology_ref p);
    try done.
  - apply lookup_insert_eq.
  - by apply lookup_insert_ne.
Qed.

Lemma get_ontology_metadata_unfold (self : OntologyProcessor.t) (u : string) :
  OntologyProcessor.ontology_uri self = Some u -> u <> "" ->
  let g := OntologyProcessor.graph self in
  let ref := URIRef u in
  OntologyProcessor.get_ontology_metadata self
  = with_listed g ref "imports" OWL.imports
      (with_listed g ref "prior_version" OWL.priorVersion
         (let metadata :=
            with_listed g ref "label" RDFS.label
              (with_listed g ref "comment" RDFS.comment
                 (with_listed g ref "version" OWL.versionInfo
                    (with_listed g ref "date" DC.date
                       (with_listed g ref "creator" DC.creator
                          (with_listed g ref "description" DC.description
                             (with_listed g ref "title" DC.title ∅)))))) in
          match objects g ref OWL.versionIRI with
          | v :: _ => <["version_iri" := OntologyProcessor.one_string (str v)]> metadata
          | [] => metadata
          end)).
Proof.
  intros H Hu. unfold OntologyProcessor.get_ontology_metadata.
  rewrite H, (truthy_true _ Hu). reflexivity.
Qed.

(** X21. The metadata dictionary of the processor. For a processor
    with a non-empty ontology URI, each of the keys [title],
    [description], [creator], [date], [version], [comment], [label],
    [prior_version] and [imports] is present exactly when the
    ontology has an object for its predicate, and then holds the
    strings of all these objects in store order; [version_iri] holds
    the string of the first [owl:versionIRI] object only; and there
    is no other key. Title, description, creator and date are read
    from the Dublin Core elements vocabulary alone. *)
Theorem processor_metadata (self : OntologyProcessor.t) (u : string) :
  OntologyProcessor.ontology_uri self = Some u -> u <> "" ->
  let g := OntologyProcessor.graph self in
  let metadata := OntologyProcessor.get_ontology_metadata self in
  (forall name p, (name, p) ∈ listed_metadata ->
     metadata !! name
     = match objects g (URIRef u) p with
       | [] => None
       | vs => Some (OntologyProcessor.strings (map str vs))
       end)
  /\ metadata !! "version_iri"
     = (fun v => OntologyProcessor.one_string (str v))
         <$> head (objects g (URIRef u) OWL.versionIRI)
  /\ (forall k, k ∉ "version_iri" :: map fst listed_metadata -> metadata !! k = None).
Proof.
  intros H Hu g metadata. unfold metadata.
  rewrite (get_ontology_metadata_unfold self u H Hu). fold g. cbv zeta.
  assert (forall (m : gmap string OntologyProcessor.metadata_value) k,
            match objects g (URIRef u) OWL.versionIRI with
            | v :: _ => <["version_iri" := OntologyProcessor.one_string (str v)]> m
            | [] => m
            end !! k
            = if String.eqb "version_iri" k
              then match objects g (URIRef u) OWL.versionIRI with
                   | v :: _ => Some (OntologyProcessor.one_string (str v))
                   | [] => m !! k
                   end
              else m !! k) as Hiri.
  { intros m k.
    destruct (String.eqb_spec "version_iri" k) as [<-|Hne];
      destruct (objects g (URIRef u) OWL.versionIRI); try done.
    - apply lookup_insert_eq.
    - by apply lookup_insert_ne. }
  repeat apply conj.
  - intros name p Hin. apply list_elem_of_In in Hin. simpl in Hin.
    repeat (destruct Hin as [[= <- <-]|Hin];
            [rewrite ?with_listed_lookup, ?Hiri; cbn [String.eqb Ascii.eqb Bool.eqb];
             rewrite ?with_listed_lookup, ?Hiri; cbn [String.eqb Ascii.eqb Bool.eqb];
             by destruct (objects g (URIRef u) _)|]).
    done.
  - rewrite !with_listed_lookup, Hiri. cbn [String.eqb Ascii.eqb Bool.eqb].
    rewrite !with_listed_lookup. cbn [String.eqb Ascii.eqb Bool.eqb].
    by destruct (objects g (URIRef u) OWL.versionIRI).
  - intros k Hk.
    assert (forall name, name ∈ "version_iri" :: map fst listed_metadata ->
                         String.eqb name k = false) as Hne.
    { intros name Hname. apply String.eqb_neq. by intros ->. }
    rewrite !with_listed_lookup, Hiri, !with_listed_lookup.
    rewrite !Hne; [done|..]; apply list_elem_of_In; simpl; tauto.
Qed.

Lemma processor_metadata_witness :
  let metadata := OntologyProcessor.get_ontology_metadata Example.titled_processor in
  metadata !! "title" = Some (OntologyProcessor.strings ["Title"])
  /\ metadata !! "version_iri" = None
  /\ metadata !! "license" = None.
Proof.
  intros metadata.
  pose proof (processor_metadata Example.titled_processor "http://example.org/onto"
                eq_refl ltac:(discriminate)) as (H & Hiri & Hother).
  repeat apply conj.
  - apply (H "title" DC.title). by left.
  - exact Hiri.
  - apply Hother. vm_compute. intros Hin.
    repeat (apply elem_of_cons in Hin as [Hin|Hin]; [discriminate Hin|]).
    by apply elem_of_nil in Hin.
Defined.

(** ** Detection of the format *)

Lemma lower_char_idempotent (c : ascii) : Py.lower_char (Py.lower_char c) = Py.lower_char c.
Proof. destruct c as [[] [] [] [] [] [] [] []]; vm_compute; reflexivity. Qed.

Lemma is_space_lower_char (c : ascii) : Py.is_space (Py.lower_char c) = Py.is_space c.
Proof. destruct c as [[] [] [] [] [] [] [] []]; vm_compute; reflexivity. Qed.

Lemma lower_idempotent (s : string) : Py.lower (Py.lower s) = Py.lower s.
Proof.
  induction s as [|a s IH]; simpl; [done|]. by rewrite lower_char_idempotent, IH.
Qed.

Lemma lower_lstrip (s : string) : Py.lower (Py.lstrip_space s) = Py.lstrip_space (Py.lower s).
Proof.
  induction s as [|a s IH]; simpl; [done|]. rewrite is_space_lower_char.
  by destruct (Py.is_space a).
Qed.

Lemma lower_empty (s : string) : String.eqb (Py.lower s) "" = String.eqb s "".
Proof. by destruct s. Qed.

Lemma lower_rstrip (s : string) : Py.lower (Py.rstrip_space s) = Py.rstrip_space (Py.lower s).
Proof.
  induction s as [|a s IH]; simpl; [done|].
  rewrite is_space_lower_char, <- IH, lower_empty.
  by destruct (String.eqb (Py.rstrip_space s) "" && Py.is_space a).
Qed.

Lemma lower_strip (s : string) : Py.lower (Py.strip s) = Py.strip (Py.lower s).
Proof. unfold Py.strip. by rewrite lower_rstrip, lower_lstrip. Qed.

Lemma rstrip_idempotent (s : string) :
  Py.rstrip_space (Py.rstrip_space s) = Py.rstrip_space s.
Proof.
  induction s as [|a s IH]; simpl; [done|].
  destruct (String.eqb (Py.rstrip_space s) "" && Py.is_space a) eqn:E; [done|].
  simpl. by rewrite IH, E.
Qed.

Lemma lstrip_rstrip (s : string) :
  Py.lstrip_space s = s -> Py.lstrip_space (Py.rstrip_space s) = Py.rstrip_space s.
Proof.
  destruct s as [|a s]; simpl; [done|].
  destruct (Py.is_space a) eqn:Ea.
  - intros H. assert (String.length (Py.lstrip_space s) <= String.length s) as Hlen.
    { clear. induction s as [|b s IH]; simpl; [done|].
      destruct (Py.is_space b); simpl; lia. }
    rewrite H in Hlen. simpl in Hlen. lia.
  - intros _. rewrite andb_false_r. simpl. by rewrite Ea.
Qed.

Lemma lstrip_idempotent (s : string) :
  Py.lstrip_space (Py.lstrip_space s) = Py.lstrip_space s.
Proof.
  induction s as [|a s IH]; simpl; [done|].
  destruct (Py.is_space a) eqn:Ea; [done|]. simpl. by rewrite Ea.
Qed.

Lemma strip_idempotent (s : string) : Py.strip (Py.strip s) = Py.strip s.
Proof.
  unfold Py.strip.
  rewrite (lstrip_rstrip (Py.lstrip_space s)) by apply lstrip_idempotent.
  apply rstrip_idempotent.
Qed.

(** X22. The detection of the format looks at the content without
    the white space around it and without regard to the case of its
    letters: the lower-cased content and the stripped content are
    detected as the content itself. The answer is ["xml"] as soon as
    the content starts with [<?xml] or holds [<rdf:rdf] or
    [<owl:ontology] anywhere, even beside a Turtle directive;
    otherwise ["turtle"] when it holds [@prefix] or [@base];
    otherwise ["json-ld"] when it starts with a brace; and ["xml"]
    in every other case, the empty content included. *)
Theorem detect_format_cases (content : string) :
  let text := Py.lower (Py.strip content) in
  let xml := Py.startswith text "<?xml" || Py.contains "<rdf:rdf" text
             || Py.contains "<owl:ontology" text in
  let turtle := Py.contains "@prefix" text || Py.contains "@base" text in
  OntologyProcessor._detect_format (Py.lower content)
  = OntologyProcessor._detect_format content
  /\ OntologyProcessor._detect_format (Py.strip content)
     = OntologyProcessor._detect_format content
  /\ (xml = true -> OntologyProcessor._detect_format content = "xml")
  /\ (xml = false -> turtle = true -> OntologyProcessor._detect_format content = "turtle")
  /\ (xml = false -> turtle = false ->
      OntologyProcessor._detect_format content
      = if Py.startswith text "{" then "json-ld" else "xml").
Proof.
  intros text xml turtle. unfold xml, turtle, text, OntologyProcessor._detect_format.
  repeat apply conj.
  - cbv zeta. by rewrite <- lower_strip, lower_idempotent.
  - cbv zeta. by rewrite strip_idempotent.
  - cbv zeta. by intros ->.
  - cbv zeta. by intros -> ->.
  - cbv zeta. intros -> ->. by rewrite <- lower_strip, strip_idempotent.
Qed.

(** ** The table of namespaces *)

Lemma leb_empty (p : string) : String.leb p "" = true -> p = "".
Proof. by destruct p. Qed.

Lemma truthy_or_empty (p : string) : (if Py.truthy p then p else "") = p.
Proof. by destruct p. Qed.

(** X23. The namespaces are listed by prefix. [get_namespaces]
    returns every bound prefix with the string of its namespace,
    nothing else, in ascending order of the prefixes under the order
    of Python strings; the default namespace, whose prefix is empty,
    therefore comes first. *)
Theorem namespaces_sorted (bound : list (string * node)) :
  let listed := get_namespaces bound in
  listed ≡ₚ map (fun pu : string * node => (pu.1, str pu.2)) bound
  /\ StronglySorted (fun a b : string * string => String.leb a.1 b.1 = true) listed
  /\ (forall ns, ("", ns) ∈ listed -> exists ns', head listed = Some ("", ns')).
Proof.
  intros listed.
  assert (StronglySorted (fun a b : string * string => String.leb a.1 b.1 = true) listed)
    as Hsorted.
  { pose proof (sorted_StronglySorted
                  (fun x : string * string => if Py.truthy x.1 then x.1 else "")
                  (map (fun pu : string * node =>
                          if Py.truthy pu.1 then (pu.1, str pu.2) else ("", str pu.2))
                       bound)) as H.
    fold (get_namespaces bound) in H. fold listed in H.
    induction H as [|a l Hs IH Hall]; constructor; [done|].
    eapply Forall_impl; [exact Hall|].
    intros b. unfold key_le. by rewrite !truthy_or_empty. }
  repeat apply conj; [|done|].
  - unfold listed, get_namespaces. rewrite sorted_perm.
    erewrite map_ext; [done|]. intros [p u]. simpl. by destruct p.
  - intros ns Hin. destruct listed as [|[p u] rest]; [by apply elem_of_nil in Hin|].
    apply elem_of_cons in Hin as [[= <- <-]|Hin]; [by eexists|].
    apply StronglySorted_inv in Hsorted as [_ Hall].
    rewrite Forall_forall in Hall.
    specialize (Hall _ Hin). simpl in Hall. apply leb_empty in Hall as ->. by eexists.
Qed.

(** ** Termination of the processor *)

Lemma decode_terminates (self : OntologyProcessor.t) (n : node) :
  (forall h, decoded_list (OntologyProcessor.graph self) n = Some h ->
             list_ends self (Some h)) ->
  exists bound e, forall fuel depth, bound <= fuel -> bound <= depth ->
    OntologyProcessor._process_class_expression fuel depth self n = Done e.
Proof.
  intros H. destruct (decoded_list (OntologyProcessor.graph self) n) as [h|] eqn:Ed.
  - destruct (list_ends_returns self _ [] (H h eq_refl)) as (b & r & Hr).
    destruct (decode_with_list self _ _ Ed) as (wrap & Hw).
    exists (S b), (Some (wrap r)). intros [|fuel] [|depth] Hf Hd; try lia.
    rewrite Hw. unfold OntologyProcessor._process_list. rewrite Hr by lia. done.
  - destruct (decode_without_list self _ Ed) as (e & He).
    exists 1, e. intros [|fuel] [|depth] Hf Hd; try lia. apply He.
Qed.

Lemma resolve_blank_node_terminates (self : OntologyProcessor.t) (o : node) :
  (forall h, decoded_list (OntologyProcessor.graph self) o = Some h ->
             list_ends self (Some h)) ->
  exists bound r, forall fuel depth, bound <= fuel -> bound <= depth ->
    OntologyProcessor._resolve_blank_node fuel depth self o = Done r.
Proof.
  intros H. unfold OntologyProcessor._resolve_blank_node. cbv zeta.
  destruct (objects _ o RDFS.label); [|by exists 0; eexists].
  destruct (objects _ o RDFS.comment); [|by exists 0; eexists].
  destruct (decode_terminates self o H) as (f & e & He).
  exists f. destruct e as [e|].
  - exists None. intros fuel depth Hf Hd. by rewrite (He fuel depth Hf Hd).
  - destruct (omap OntologyProcessor.meaningful_prop _) eqn:Em; eexists;
      intros fuel depth Hf Hd; rewrite (He fuel depth Hf Hd); simpl; reflexivity.
Qed.

Lemma annotation_of_terminates (self : OntologyProcessor.t)
    (acc : list OntologyProcessor.annotation.t) (po : node * node) :
  lists_end self ->
  exists bound acc', forall fuel depth, bound <= fuel -> bound <= depth ->
    OntologyProcessor.annotation_of fuel depth self acc po = Done acc'.
Proof.
  intros H. destruct po as [p o]. unfold OntologyProcessor.annotation_of.
  destruct (existsb _ _); [by exists 0; eexists|].
  destruct (node_eqb p RDFS.subClassOf && is_BNode o); [by exists 0; eexists|].
  destruct o as [u|b|l]; simpl; [by exists 0; eexists| |by exists 0; eexists].
  destruct (resolve_blank_node_terminates self (BNode b) (H b)) as (f & r & Hr).
  exists f. destruct r as [r|]; [destruct (Py.truthy r) eqn:Er|]; eexists;
    intros fuel depth Hf Hd; rewrite (Hr fuel depth Hf Hd); simpl; rewrite ?Er; reflexivity.
Qed.

Lemma extract_entity_info_terminates (self : OntologyProcessor.t) (entity : node) :
  lists_end self ->
  exists bound i, forall fuel depth, bound <= fuel -> bound <= depth ->
    OntologyProcessor._extract_entity_info fuel depth self entity = Done i.
Proof.
  intros H. unfold OntologyProcessor._extract_entity_info. cbv zeta.
  destruct (for_each_fuel
              (fun fuel depth => OntologyProcessor.annotation_of fuel depth self)
              (predicate_objects (OntologyProcessor.graph self) entity))
    with (acc := @nil OntologyProcessor.annotation.t) as (f & r & Hr).
  { intros po _ acc. by apply annotation_of_terminates. }
  exists f. eexists. intros fuel depth Hf Hd. rewrite (Hr fuel depth Hf Hd). simpl.
  reflexivity.
Qed.

Lemma class_entry_terminates (self : OntologyProcessor.t) (cls : node) :
  lists_end self ->
  exists bound ci, forall fuel depth, bound <= fuel -> bound <= depth ->
    OntologyProcessor.class_entry fuel depth self cls = Done ci.
Proof.
  intros H. unfold OntologyProcessor.class_entry. cbv zeta.
  destruct (extract_entity_info_terminates self cls H) as (f1 & i & Hi).
  pose proof (for_each_fuel
    (fun fuel depth (acc : list string * list OntologyProcessor.expression) o =>
       let '(superclasses, restrictions) := acc in
       match o with
       | URIRef _ => Done (superclasses ++ [str o], restrictions)
       | BNode _ =>
           restriction ← OntologyProcessor._process_class_expression fuel depth self o;
           match restriction with
           | Some r => Done (superclasses, restrictions ++ [r])
           | None => Done acc
           end
       | Lit _ => Done acc
       end)
    (objects (OntologyProcessor.graph self) cls RDFS.subClassOf)) as Hloop.
  cbv beta in Hloop.
  destruct Hloop
    with (acc := (@nil string, @nil OntologyProcessor.expression))
    as (f2 & [supers restrs] & Hr).
  { intros o _ [supers restrs].
    destruct o as [u|b|l]; [by exists 0; eexists| |by exists 0; eexists].
    destruct (decode_terminates self (BNode b) (H b)) as (f & e & He).
    exists f. destruct e as [e|].
    - eexists. intros fuel depth Hf Hd. rewrite (He fuel depth Hf Hd). simpl. reflexivity.
    - eexists. intros fuel depth Hf Hd. rewrite (He fuel depth Hf Hd). simpl. reflexivity. }
  exists (f1 `max` f2). eexists. intros fuel depth Hf Hd.
  rewrite (Hi fuel depth) by lia. simpl. rewrite (Hr fuel depth) by lia. simpl.
  reflexivity.
Qed.

Lemma entry_loop_terminates {V : Type} (entry : nat -> nat -> node -> outcome V)
    (body : nat -> nat -> dict.t V -> node -> outcome (dict.t V)) (l : list node) :
  (forall fuel depth d x,
     body fuel depth d x
     = if is_URIRef x
       then (e ← entry fuel depth x; Done (dict.set d (str x) e))
       else Done d) ->
  (forall x, exists bound e, forall fuel depth, bound <= fuel -> bound <= depth ->
                                                entry fuel depth x = Done e) ->
  forall acc, exists bound r,
    forall fuel depth, bound <= fuel -> bound <= depth ->
                       for_each (body fuel depth) l acc = Done r.
Proof.
  intros Hbody Hentry. apply for_each_fuel. intros x _ acc.
  destruct (is_URIRef x) eqn:Ex.
  - destruct (Hentry x) as (f & e & He). exists f. eexists. intros fuel depth Hf Hd.
    by rewrite Hbody, Ex, (He fuel depth Hf Hd).
  - exists 0. eexists. intros fuel depth _ _. by rewrite Hbody, Ex.
Qed.

(** X24. The listings of the processor return when the lists end and
    the recursion limit covers their nesting. If every RDF list that
    the decoding of a blank node walks ends, there is a bound from
    which on, for the fuel and for the recursion limit, [get_classes],
    [get_properties] and [get_individuals] all return their
    dictionaries, the same for every larger fuel and limit: no class
    expression and no description of a blank node makes them loop,
    and none makes them fail unless its lists are nested deeper than
    the recursion limit allows. *)
Theorem processor_listings_return (self : OntologyProcessor.t) :
  lists_end self ->
  exists bound classes properties individuals,
    forall fuel depth, bound <= fuel -> bound <= depth ->
      OntologyProcessor.get_classes fuel depth self = Done classes
      /\ OntologyProcessor.get_properties fuel depth self = Done properties
      /\ OntologyProcessor.get_individuals fuel depth self = Done individuals.
Proof.
  intros H.
  destruct (entry_loop_terminates
              (fun fuel depth => OntologyProcessor.class_entry fuel depth self)
              (fun fuel depth classes cls =>
                 if is_URIRef cls then
                   entry ← OntologyProcessor.class_entry fuel depth self cls;
                   Done (dict.set classes (str cls) entry)
                 else Done classes)
              (subjects (OntologyProcessor.graph self) RDF.type OWL.Class))
    with (acc := @nil (string * OntologyProcessor.class_info.t)) as (fc & classes & Hc);
    [done|intros x; by apply class_entry_terminates|].
  assert (forall ty kind acc, exists bound r,
            forall fuel depth, bound <= fuel -> bound <= depth ->
              OntologyProcessor.properties_loop fuel depth self ty kind acc = Done r)
    as Hprops.
  { intros ty kind. unfold OntologyProcessor.properties_loop.
    apply (entry_loop_terminates
             (fun fuel depth prop =>
                OntologyProcessor._extract_property_info fuel depth self prop kind));
      [done|].
    intros x. destruct (extract_entity_info_terminates self x H) as (f & i & Hi).
    exists f. eexists. intros fuel depth Hf Hd.
    unfold OntologyProcessor._extract_property_info. cbv zeta.
    rewrite (Hi fuel depth Hf Hd). simpl. reflexivity. }
  destruct (Hprops OWL.ObjectProperty "object" []) as (f1 & p1 & Hp1).
  destruct (Hprops OWL.DatatypeProperty "data" p1) as (f2 & p2 & Hp2).
  destruct (Hprops OWL.AnnotationProperty "annotation" p2) as (f3 & p3 & Hp3).
  destruct (entry_loop_terminates
              (fun fuel depth ind =>
                 info ← OntologyProcessor._extract_entity_info fuel depth self ind;
                 Done (OntologyProcessor.individual_info.mk info
                         (map str
                            (List.filter
                               (fun o => is_URIRef o
                                         && negb (String.eqb (str o)
                                                             (str OWL.NamedIndividual)))
                               (objects (OntologyProcessor.graph self) ind RDF.type)))))
              (fun fuel depth individuals ind =>
                 if is_URIRef ind then
                   info ← OntologyProcessor._extract_entity_info fuel depth self ind;
                   Done (dict.set individuals (str ind)
                           (OntologyProcessor.individual_info.mk info
                              (map str
                                 (List.filter
                                    (fun o => is_URIRef o
                                              && negb (String.eqb (str o)
                                                         (str OWL.NamedIndividual)))
                                    (objects (OntologyProcessor.graph self) ind
                                             RDF.type)))))
                 else Done individuals)
              (subjects (OntologyProcessor.graph self) RDF.type OWL.NamedIndividual))
    with (acc := @nil (string * OntologyProcessor.individual_info.t))
    as (fi & individuals & Hi).
  { intros fuel depth d x. destruct (is_URIRef x); [|done].
    by destruct (OntologyProcessor._extract_entity_info fuel depth self x). }
  { intros x. destruct (extract_entity_info_terminates self x H) as (f & i & Hx).
    exists f. eexists. intros fuel depth Hf Hd. rewrite (Hx fuel depth Hf Hd). simpl.
    reflexivity. }
  exists (fc `max` (f1 `max` (f2 `max` (f3 `max` fi)))), classes, p3, individuals.
  intros fuel depth Hf Hd. repeat apply conj.
  - apply Hc; lia.
  - unfold OntologyProcessor.get_properties.
    rewrite (Hp1 fuel depth) by lia. simpl. rewrite (Hp2 fuel depth) by lia. simpl.
    apply Hp3; lia.
  - apply Hi; lia.
Qed.

Lemma decoded_list_elem (g : Graph) (n h : node) :
  decoded_list g n = Some h ->
  exists p, p ∈ [OWL.unionOf; OWL.intersectionOf; OWL.oneOf] /\ value g n p = Some h.
Proof.
  unfold decoded_list, value.
  destruct (OntologyProcessor.restriction_loop _ _ _); [done|].
  destruct (objects g n OWL.unionOf) as [|u ?] eqn:Eu.
  2:{ intros [= <-]. exists OWL.unionOf. rewrite Eu. split; [set_solver|done]. }
  destruct (objects g n OWL.intersectionOf) as [|i ?] eqn:Ei.
  2:{ intros [= <-]. exists OWL.intersectionOf. rewrite Ei. split; [set_solver|done]. }
  destruct (objects g n OWL.complementOf); [|done].
  intros Ho. exists OWL.oneOf. split; [set_solver|done].
Qed.

Lemma processor_listings_return_witness :
  exists bound classes properties individuals,
    forall fuel depth, bound <= fuel -> bound <= depth ->
      OntologyProcessor.get_classes fuel depth Example.pets_processor = Done classes
      /\ OntologyProcessor.get_properties fuel depth Example.pets_processor = Done properties
      /\ OntologyProcessor.get_individuals fuel depth Example.pets_processor
         = Done individuals.
Proof.
  apply (processor_listings_return Example.pets_processor).
  intros b h (p & Hp & Hv)%decoded_list_elem.
  apply value_elem in Hv as (s' & p' & Hin & Hs & Hp').
  apply list_elem_of_In in Hin. simpl in Hin.
  repeat (destruct Hin as [Hin|Hin];
          [injection Hin as <- <- <-;
           try (vm_compute in Hs; discriminate Hs);
           try (repeat (apply elem_of_cons in Hp as [->|Hp];
                        [try (vm_compute in Hp'; discriminate Hp')|]);
                try (by apply elem_of_nil in Hp))|]);
    [|done].
  change (list_ends Example.pets_processor (Some (BNode "l1"))).
  apply ends_cell; [reflexivity| |].
  - intros b' rest h' Hf. vm_compute in Hf. discriminate Hf.
  - change (list_ends Example.pets_processor (Some (BNode "l2"))).
    apply ends_cell; [reflexivity| |].
    + intros b' rest h' Hf. vm_compute in Hf. discriminate Hf.
    + change (list_ends Example.pets_processor (Some RDF.nil)).
      apply ends_stop. reflexivity.
Defined.

(** ** The shape of a pseudo-prefix *)

Lemma has_char_take (c : ascii) (n : nat) (s : string) :
  Py.has_char c s = false -> Py.has_char c (Py.take n s) = false.
Proof.
  unfold Py.take. revert s. induction n as [|n IH]; intros [|a s]; simpl; try done.
  destruct (Ascii.eqb a c); [done|]. apply IH.
Qed.

Lemma has_char_append (c : ascii) (s t : string) :
  Py.has_char c (s +:+ t) = Py.has_char c s || Py.has_char c t.
Proof.
  induction s as [|a s IH]; simpl; [done|]. by destruct (Ascii.eqb a c).
Qed.

Lemma has_char_replace_from (c : ascii) (old : string) (s : string) :
  Py.has_char c s = false ->
  forall skip, Py.has_char c (Py.replace_from old "" skip s) = false.
Proof.
  induction s as [|a s IH]; intros Hs skip; [by destruct skip|].
  simpl in Hs. destruct (Ascii.eqb a c) eqn:Ea; [done|].
  destruct skip as [|k]; cbn [Py.replace_from]; [|by apply IH].
  destruct (String.prefix old (String a s)).
  - change ("" +:+ ?x) with x. by apply IH.
  - simpl. rewrite Ea. by apply IH.
Qed.

Lemma has_char_rstrip (c c' : ascii) (s : string) :
  Py.has_char c s = false -> Py.has_char c (Py.rstrip c' s) = false.
Proof.
  induction s as [|a s IH]; simpl; [done|].
  destruct (Ascii.eqb a c) eqn:Ea; [done|]. intros Hs.
  destruct (String.eqb (Py.rstrip c' s) "" && Ascii.eqb a c'); [done|].
  simpl. rewrite Ea. by apply IH.
Qed.

Lemma has_char_split (c c' : ascii) (s : string) :
  Py.has_char c s = false ->
  Forall (fun seg => Py.has_char c seg = false) (Py.split c' s).
Proof.
  induction s as [|a s IH]; simpl; [by repeat constructor|].
  destruct (Ascii.eqb a c) eqn:Ea; [done|]. intros Hs. specialize (IH Hs).
  destruct (Ascii.eqb a c'); [by constructor|].
  destruct (Py.split c' s) as [|h t]; [by repeat constructor; simpl; rewrite Ea|].
  apply Forall_cons in IH as [Hh Ht]. constructor; [|done]. simpl. by rewrite Ea.
Qed.

Lemma shorten_shape (ns np : string) :
  shorten ns = Some np ->
  Py.has_char "." np = false
  /\ forall c, Py.has_char c ns = false -> Py.has_char c np = false.
Proof.
  unfold shorten. destruct (Py.truthy ns); [|done]. intros [= <-].
  set (x := Py.replace "www." "" _).
  destruct (split_head "." x) as (before & Hh & Hno & _). rewrite Hh. simpl.
  split; [by apply has_char_take|].
  intros c Hc. apply has_char_take.
  assert (Py.has_char c x = false) as Hx.
  { unfold x, Py.replace. do 3 apply has_char_replace_from. exact Hc. }
  pose proof (has_char_split c "." x Hx) as Hall.
  destruct (Py.split "." x) as [|h t]; [done|].
  injection Hh as ->. by apply Forall_cons in Hall as [? _].
Qed.

Lemma second_to_last_elem {A : Type} (l : list A) (x : A) :
  HTMLGenerator.second_to_last l = Some x -> x ∈ l.
Proof.
  unfold HTMLGenerator.second_to_last.
  destruct (rev l) as [|y [|z t]] eqn:E; try done. intros [= <-].
  apply list_elem_of_In, in_rev. rewrite E. right. by left.
Qed.

(** X25. The shape of a pseudo-prefix. When [_extract_namespace_prefix]
    derives a prefix from a URI, the URI holds a [#] or a [/], and
    the prefix has at most eight characters and holds neither a dot
    nor a [#]. *)
Theorem pseudo_prefix_shape (uri np : string) :
  HTMLGenerator._extract_namespace_prefix uri = Some np ->
  String.length np <= 8
  /\ Py.has_char "." np = false
  /\ Py.has_char "#" np = false
  /\ (Py.has_char "#" uri = true \/ Py.has_char "/" uri = true).
Proof.
  intros H.
  destruct (extract_namespace_prefix_cases uri) as (Hhash & Hslash & Hnone & Hlen).
  split; [by apply Hlen|].
  destruct (Py.has_char "#" uri) eqn:Eh.
  - destruct (Hhash eq_refl) as (before & rest & _ & Hb & Hs).
    rewrite H in Hs. symmetry in Hs. apply shorten_shape in Hs as [Hdot Hc].
    split; [done|]. split; [by apply Hc|by left].
  - destruct (Py.has_char "/" uri) eqn:Es.
    + rewrite (Hslash eq_refl eq_refl) in H.
      destruct (HTMLGenerator.second_to_last _) as [segment|] eqn:E2; [|done].
      apply shorten_shape in H as [Hdot Hc]. split; [done|]. split; [|by right].
      apply Hc. apply second_to_last_elem in E2.
      pose proof (has_char_split "#" "/" _ (has_char_rstrip "#" "/" uri Eh)) as Hall.
      rewrite Forall_forall in Hall. by apply Hall.
    + by rewrite (Hnone eq_refl eq_refl) in H.
Qed.

Lemma pseudo_prefix_shape_witness :
  HTMLGenerator._extract_namespace_prefix "http://www.example.org/onto#Name" = Some "example"
  /\ String.length "example" <= 8
  /\ Py.has_char "." "example" = false.
Proof.
  split; [reflexivity|].
  pose proof (pseudo_prefix_shape "http://www.example.org/onto#Name" "example" eq_refl)
    as (Hlen & Hdot & _).
  by split.
Defined.

Lemma for_each_Done_elem {A S : Type} (body : S -> A -> outcome S) (l : list A)
    (acc r : S) (x : A) :
  for_each body l acc = Done r -> x ∈ l -> exists a a', body a x = Done a'.
Proof.
  revert acc. induction l as [|y l IH]; intros acc H Hx; [by apply elem_of_nil in Hx|].
  simpl in H. destruct (body acc y) as [acc'| |] eqn:E; simpl in H; try discriminate.
  apply elem_of_cons in Hx as [->|Hx]; [by eexists _, _|]. by apply (IH acc').
Qed.

(** X26. One class expression that does not decode blocks the whole
    listing. If a declared class has a blank superclass node whose
    decoding never returns, as with a cyclic list, then
    [get_classes] of the processor returns with no amount of fuel and
    no recursion limit: the error is not confined to that class. *)
Theorem undecodable_superclass_blocks_listing (self : OntologyProcessor.t)
    (cls b : string) :
  URIRef cls ∈ subjects (OntologyProcessor.graph self) RDF.type OWL.Class ->
  BNode b ∈ objects (OntologyProcessor.graph self) (URIRef cls) RDFS.subClassOf ->
  (forall fuel depth e,
     OntologyProcessor._process_class_expression fuel depth self (BNode b) <> Done e) ->
  forall fuel depth classes,
    OntologyProcessor.get_classes fuel depth self <> Done classes.
Proof.
  intros Hcls Hb Hloop fuel depth classes H. unfold OntologyProcessor.get_classes in H.
  destruct (for_each_Done_elem _ _ _ _ _ H Hcls) as (d & d' & Hbody). simpl in Hbody.
  destruct (OntologyProcessor.class_entry fuel depth self (URIRef cls)) as [ci| |] eqn:Ec;
    try discriminate.
  unfold OntologyProcessor.class_entry in Ec. cbv zeta in Ec.
  destruct (OntologyProcessor._extract_entity_info fuel depth self (URIRef cls)) as [i| |];
    try discriminate.
  simpl in Ec.
  destruct (for_each _ (objects _ _ _) _) as [[supers restrs]| |] eqn:El;
    try discriminate.
  destruct (for_each_Done_elem _ _ _ _ _ El Hb) as ([s r] & a' & Hstep).
  simpl in Hstep.
  destruct (OntologyProcessor._process_class_expression fuel depth self (BNode b))
    as [e| |] eqn:Ee; try discriminate.
  by apply (Hloop fuel depth e).
Qed.

Lemma cyclic_class_loop (fuel depth : nat) (ms : list OntologyProcessor.member) :
  OntologyProcessor.list_loop fuel depth Example.cyclic_class (Some (BNode "c1")) ms = OutOfFuel.
Proof.
  revert ms. induction fuel as [|fuel IH]; intros ms; [done|].
  rewrite list_loop_unfold.
  change (in_list (BNode "c1")) with true. cbv iota.
  change (cell_members Example.cyclic_class fuel depth (BNode "c1") ms)
    with (Done (ms ++ [OntologyProcessor.member_str "http://example.org/A"])).
  apply IH.
Qed.

Lemma undecodable_superclass_blocks_listing_witness :
  ~ exists fuel depth classes,
      OntologyProcessor.get_classes fuel depth Example.cyclic_class = Done classes.
Proof.
  intros (fuel & depth & classes & H). revert fuel depth classes H.
  apply (undecodable_superclass_blocks_listing Example.cyclic_class
           "http://example.org/C" "cyc").
  - vm_compute. by left.
  - vm_compute. by left.
  - intros [|fuel] [|depth] e H; try discriminate.
    rewrite decode_unfold in H.
    change (OntologyProcessor.restriction_loop
              (OntologyProcessor.graph Example.cyclic_class) (BNode "cyc")
              OntologyProcessor.restriction_types)
      with (@None OntologyProcessor.expression) in H.
    change (objects (OntologyProcessor.graph Example.cyclic_class) (BNode "cyc") OWL.unionOf)
      with [BNode "c1"] in H.
    cbv iota in H. unfold OntologyProcessor._process_list in H.
    by rewrite cyclic_class_loop in H.
Defined.

(** ** From the graph to the labels of the page *)

Lemma dict_get_map {V W : Type} (f : V -> W) (d : dict.t V) (k : string) :
  dict.get (map (fun kv => (kv.1, f kv.2)) d) k = f <$> dict.get d k.
Proof.
  induction d as [|[k0 v0] d IH]; simpl; [done|]. by destruct (String.eqb k0 k).
Qed.

Lemma dict_map_wf {V W : Type} (f : V -> W) (d : dict.t V) :
  dict.wf d -> dict.wf (map (fun kv => (kv.1, f kv.2)) d).
Proof. unfold dict.wf. intros H. rewrite map_map. exact H. Qed.

Lemma entity_data_of_entry (fuel depth : nat) (self : OntologyProcessor.t) (k : string)
    (i : OntologyProcessor.entity_info.t) :
  OntologyProcessor._extract_entity_info fuel depth self (URIRef k) = Done i ->
  entity_data_of i = entry_of (OntologyProcessor.graph self) k.
Proof.
  intros (Hu & Hl & _)%extract_entity_info_fields.
  unfold entity_data_of, entry_of. by rewrite Hu, Hl.
Qed.

Lemma entry_display_name (g : Graph) (k : string) :
  HTMLGenerator._get_entity_label (entry_of g k) "en" = display_name g k.
Proof.
  unfold HTMLGenerator._get_entity_label, entry_of, display_name.
  cbn [HTMLGenerator.labels HTMLGenerator.uri].
  rewrite !foldl_add_text_get, foldl_add_text_head. simpl.
  destruct (texts_in "en" _) as [|x xs]; [|done].
  by destruct (literals _).
Qed.

Lemma class_entities_lookup (fuel depth : nat) (self : OntologyProcessor.t)
    (classes : dict.t OntologyProcessor.class_info.t) :
  OntologyProcessor.get_classes fuel depth self = Done classes ->
  dict.wf (class_entities classes)
  /\ forall k,
       dict.get (class_entities classes) k
       = if has_triple (OntologyProcessor.graph self) (URIRef k) RDF.type OWL.Class
         then Some (entry_of (OntologyProcessor.graph self) k) else None.
Proof.
  intros H. unfold OntologyProcessor.get_classes in H.
  apply (dict_loop (OntologyProcessor.class_entry fuel depth self)) in H as [Hwf H];
    [|done|apply NoDup_nil_2].
  split; [by apply (dict_map_wf (fun x => entity_data_of (OntologyProcessor.class_info.info x)))|]. intros k. unfold class_entities.
  rewrite (dict_get_map (fun x => entity_data_of (OntologyProcessor.class_info.info x))).
  destruct (H k) as [(Hin & ci & Hci & ->)|[Hnotin ->]].
  - apply subjects_URIRef in Hin. rewrite Hin. simpl. f_equal.
    apply class_entry_fields in Hci as (Hi & _). by eapply entity_data_of_entry.
  - rewrite subjects_URIRef in Hnotin. apply not_true_is_false in Hnotin.
    by rewrite Hnotin.
Qed.

Lemma extract_property_info_info (fuel depth : nat) (self : OntologyProcessor.t) (prop : node)
    (kind : string) (pi : OntologyProcessor.property_info.t) :
  OntologyProcessor._extract_property_info fuel depth self prop kind = Done pi ->
  OntologyProcessor._extract_entity_info fuel depth self prop
  = Done (OntologyProcessor.property_info.info pi).
Proof.
  unfold OntologyProcessor._extract_property_info. cbv zeta.
  destruct (OntologyProcessor._extract_entity_info fuel depth self prop) as [i| |];
    simpl; try discriminate.
  by intros [= <-].
Qed.

Lemma property_entities_lookup (fuel depth : nat) (self : OntologyProcessor.t)
    (properties : dict.t OntologyProcessor.property_info.t) :
  OntologyProcessor.get_properties fuel depth self = Done properties ->
  dict.wf (property_entities properties)
  /\ forall k,
       dict.get (property_entities properties) k
       = if bool_decide (is_Some (declared_kind (OntologyProcessor.graph self) k))
         then Some (entry_of (OntologyProcessor.graph self) k) else None.
Proof.
  intros H. unfold OntologyProcessor.get_properties in H.
  destruct (OntologyProcessor.properties_loop fuel depth self OWL.ObjectProperty "object" [])
    as [p1| |] eqn:E1; simpl in H; try discriminate.
  destruct (OntologyProcessor.properties_loop fuel depth self OWL.DatatypeProperty "data" p1)
    as [p2| |] eqn:E2; simpl in H; try discriminate.
  unfold OntologyProcessor.properties_loop in *.
  apply (dict_loop (fun prop =>
                      OntologyProcessor._extract_property_info fuel depth self prop "object"))
    in E1 as [Hwf1 H1]; [|done|apply NoDup_nil_2].
  apply (dict_loop (fun prop =>
                      OntologyProcessor._extract_property_info fuel depth self prop "data"))
    in E2 as [Hwf2 H2]; [|done|done].
  apply (dict_loop (fun prop =>
                      OntologyProcessor._extract_property_info fuel depth self prop "annotation"))
    in H as [Hwf3 H3]; [|done|done].
  split; [by apply (dict_map_wf (fun x => entity_data_of (OntologyProcessor.property_info.info x)))|]. intros k. unfold property_entities, declared_kind.
  rewrite (dict_get_map (fun x => entity_data_of (OntologyProcessor.property_info.info x))).
  destruct (H3 k) as [(Hin & pi & Hpi & ->)|[Hnotin ->]].
  { apply subjects_URIRef in Hin. rewrite Hin. simpl. f_equal.
    apply extract_property_info_info in Hpi. by eapply entity_data_of_entry. }
  rewrite subjects_URIRef in Hnotin. apply not_true_is_false in Hnotin. rewrite Hnotin.
  destruct (H2 k) as [(Hin & pi & Hpi & ->)|[Hnotin2 ->]].
  { apply subjects_URIRef in Hin. rewrite Hin. simpl. f_equal.
    apply extract_property_info_info in Hpi. by eapply entity_data_of_entry. }
  rewrite subjects_URIRef in Hnotin2. apply not_true_is_false in Hnotin2. rewrite Hnotin2.
  destruct (H1 k) as [(Hin & pi & Hpi & ->)|[Hnotin1 ->]].
  { apply subjects_URIRef in Hin. rewrite Hin. simpl. f_equal.
    apply extract_property_info_info in Hpi. by eapply entity_data_of_entry. }
  rewrite subjects_URIRef in Hnotin1. apply not_true_is_false in Hnotin1.
  by rewrite Hnotin1.
Qed.

Lemma individual_entities_lookup (fuel depth : nat) (self : OntologyProcessor.t)
    (individuals : dict.t OntologyProcessor.individual_info.t) :
  OntologyProcessor.get_individuals fuel depth self = Done individuals ->
  dict.wf (individual_entities individuals)
  /\ forall k,
       dict.get (individual_entities individuals) k
       = if has_triple (OntologyProcessor.graph self) (URIRef k) RDF.type
                       OWL.NamedIndividual
         then Some (entry_of (OntologyProcessor.graph self) k) else None.
Proof.
  intros H. unfold OntologyProcessor.get_individuals in H. cbv zeta in H.
  apply (dict_loop
           (fun ind =>
              info ← OntologyProcessor._extract_entity_info fuel depth self ind;
              Done (OntologyProcessor.individual_info.mk info
                      (map str
                         (List.filter
                            (fun o => is_URIRef o
                                      && negb (String.eqb (str o)
                                                          (str OWL.NamedIndividual)))
                            (objects (OntologyProcessor.graph self) ind RDF.type))))))
    in H as [Hwf H]; [|intros d x|apply NoDup_nil_2].
  - split; [by apply (dict_map_wf (fun x => entity_data_of (OntologyProcessor.individual_info.info x)))|]. intros k. unfold individual_entities.
    rewrite (dict_get_map (fun x => entity_data_of (OntologyProcessor.individual_info.info x))).
    destruct (H k) as [(Hin & ii & Hii & ->)|[Hnotin ->]].
    + apply subjects_URIRef in Hin. rewrite Hin.
      destruct (OntologyProcessor._extract_entity_info fuel depth self (URIRef k))
        as [i| |] eqn:Ei; simpl in Hii; try discriminate.
      injection Hii as <-. simpl. f_equal. by eapply entity_data_of_entry.
    + rewrite subjects_URIRef in Hnotin. apply not_true_is_false in Hnotin.
      by rewrite Hnotin.
  - destruct (is_URIRef x); [|done].
    by destruct (OntologyProcessor._extract_entity_info fuel depth self x).
Qed.

(** X27. From the graph to the labels of the page. When the three
    listings of the processor return and their dictionaries are
    handed to [_generate_unique_labels], a URI has a label exactly
    when the graph declares it as a class, a property or an
    individual, and [_get_unique_label] shows that label for it in
    every language. The label is the English display name read off
    the graph (the first [rdfs:label] literal that is English or
    untagged, else the first label literal, else the fragment of the
    URI) when no other listed URI has the same name up to case, and
    the prefixed form of that name when another one has. *)
Theorem page_labels (fuel depth : nat) (self : OntologyProcessor.t)
    (classes : dict.t OntologyProcessor.class_info.t)
    (properties : dict.t OntologyProcessor.property_info.t)
    (individuals : dict.t OntologyProcessor.individual_info.t)
    (namespaces : dict.t string) :
  OntologyProcessor.get_classes fuel depth self = Done classes ->
  OntologyProcessor.get_properties fuel depth self = Done properties ->
  OntologyProcessor.get_individuals fuel depth self = Done individuals ->
  let g := OntologyProcessor.graph self in
  let unique_labels :=
    HTMLGenerator._generate_unique_labels (class_entities classes)
      (property_entities properties) (individual_entities individuals) namespaces in
  forall k,
    if registered g k then
      exists shown,
        unique_labels !! k = Some shown
        /\ (forall e lang, HTMLGenerator.uri e = k ->
              HTMLGenerator._get_unique_label e lang unique_labels = shown)
        /\ ((forall k', registered g k' = true ->
                        Py.lower (display_name g k') = Py.lower (display_name g k) ->
                        k' = k) ->
            shown = display_name g k)
        /\ ((exists k', registered g k' = true /\ k' <> k
                        /\ Py.lower (display_name g k') = Py.lower (display_name g k)) ->
            shown = HTMLGenerator.conflict_label namespaces k (entry_of g k))
    else unique_labels !! k = None.
Proof.
  intros Hc Hp Hi g unique_labels k. subst unique_labels.
  apply class_entities_lookup in Hc as [Hcwf Hc].
  apply property_entities_lookup in Hp as [Hpwf Hp].
  apply individual_entities_lookup in Hi as [Hiwf Hi].
  fold g in Hc, Hp, Hi.
  assert (forall k,
            dict.get (dict.update (dict.update (dict.update [] (class_entities classes))
                                               (property_entities properties))
                                  (individual_entities individuals)) k
            = if registered g k then Some (entry_of g k) else None) as Hall.
  { intros k0. rewrite !dict_get_update, Hc, Hp, Hi by done. unfold registered.
    destruct (has_triple g (URIRef k0) RDF.type OWL.NamedIndividual); [done|].
    destruct (bool_decide _); [done|]. simpl.
    by destruct (has_triple g (URIRef k0) RDF.type OWL.Class). }
  assert (forall k' e',
            dict.get (dict.update (dict.update (dict.update [] (class_entities classes))
                                               (property_entities properties))
                                  (individual_entities individuals)) k' = Some e' ->
            registered g k' = true /\ group_key (k', e') = Py.lower (display_name g k'))
    as Hkey.
  { intros k' e'. rewrite Hall. destruct (registered g k'); [|done].
    intros [= <-]. split; [done|]. unfold group_key. simpl.
    by rewrite entry_display_name. }
  destruct (registered g k) eqn:R.
  - pose proof (Hall k) as Hk. rewrite R in Hk.
    destruct (unique_label_of_group _ _ _ namespaces _ _ Hk) as (ms & _ & _ & _ & Hl).
    eexists. split; [exact Hl|]. split; [|split].
    + intros e lang <-. unfold HTMLGenerator._get_unique_label. by rewrite Hl.
    + intros Huniq.
      pose proof (unique_name_kept _ _ _ namespaces _ _ Hk) as Hkept.
      rewrite Hl, entry_display_name in Hkept.
      assert (Some (group_label namespaces ms (k, entry_of g k))
              = Some (display_name g k)) as [= ->]; [|done].
      apply Hkept. intros k' e' Hget Hsame.
      destruct (Hkey k' e' Hget) as [Hr Hk'].
      destruct (Hkey k _ Hk) as [_ Hk0]. apply Huniq; [done|congruence].
    + intros (k' & Hr & Hne & Hsame).
      pose proof (colliding_name_prefixed _ _ _ namespaces _ _ Hk) as Hcoll.
      rewrite Hl in Hcoll.
      assert (Some (group_label namespaces ms (k, entry_of g k))
              = Some (HTMLGenerator.conflict_label namespaces k (entry_of g k)))
        as [= ->]; [|done].
      apply Hcoll. exists k', (entry_of g k').
      split; [by rewrite Hall, Hr|]. split; [done|].
      unfold group_key. simpl. by rewrite !entry_display_name.
  - destruct (_ !! k) as [l|] eqn:El; [|done].
    destruct (unique_labels_domain (class_entities classes) (property_entities properties)
                (individual_entities individuals) namespaces k) as [x Hx];
      [by eexists|].
    rewrite Hall, R in Hx. discriminate Hx.
Qed.

Lemma page_labels_witness :
  exists classes properties individuals,
    OntologyProcessor.get_classes 0 0 Example.people_processor = Done classes
    /\ OntologyProcessor.get_properties 0 0 Example.people_processor = Done properties
    /\ OntologyProcessor.get_individuals 0 0 Example.people_processor = Done individuals
    /\ let unique_labels :=
         HTMLGenerator._generate_unique_labels (class_entities classes)
           (property_entities properties) (individual_entities individuals) [] in
       unique_labels !! "http://example.org/Person" = Some "Person"
       /\ unique_labels !! "http://example.org/mary" = None.
Proof.
  destruct (OntologyProcessor.get_classes 0 0 Example.people_processor)
    as [classes| |] eqn:Ec; [|vm_compute in Ec; discriminate Ec ..].
  destruct (OntologyProcessor.get_properties 0 0 Example.people_processor)
    as [properties| |] eqn:Ep; [|vm_compute in Ep; discriminate Ep ..].
  destruct (OntologyProcessor.get_individuals 0 0 Example.people_processor)
    as [individuals| |] eqn:Ei; [|vm_compute in Ei; discriminate Ei ..].
  exists classes, properties, individuals. repeat (split; [done|]).
  pose proof (page_labels 0 0 Example.people_processor classes properties individuals []
                Ec Ep Ei) as H.
  cbv zeta in H. split.
  - specialize (H "http://example.org/Person").
    change (registered (OntologyProcessor.graph Example.people_processor)
              "http://example.org/Person") with true in H.
    destruct H as (shown & -> & _ & Huniq & _). f_equal.
    rewrite Huniq; [reflexivity|].
    intros k' Hr Hname.
    change (Py.lower (display_name (OntologyProcessor.graph Example.people_processor)
                        "http://example.org/Person")) with "person" in Hname.
    unfold registered, declared_kind in Hr.
    repeat match type of Hr with
           | context [has_triple ?g (URIRef k') ?p ?o] =>
               let E := fresh "E" in
               destruct (has_triple g (URIRef k') p o) eqn:E;
               [apply subjects_URIRef, subjects_elem in E as (p' & o' & Hin & Hp' & Ho');
                apply list_elem_of_In in Hin; simpl in Hin;
                repeat (destruct Hin as [Hin|Hin];
                        [injection Hin as <- <- <-;
                         try (vm_compute in Hp'; discriminate Hp');
                         try (vm_compute in Ho'; discriminate Ho');
                         try (vm_compute in Hname; discriminate Hname);
                         try reflexivity|]);
                done|]
           end.
    discriminate Hr.
  - specialize (H "http://example.org/mary"). exact H.
Defined.
